(** * Portfolio builder client: record mappers, schema-drift-tolerant writer,
      session manager and listing pipeline

    Shallow embedding of [src/services/auth.ts] (the authentication service,
    the portfolio service and the entity types that follow them in that file)
    and of the [sortProjects] callback of the portfolio hook.

    The pure parts of the components around the services are embedded as
    well: the project form ([createInitialFormState], [splitAndFilter]), the
    document [createProject] sends, the state updates of the portfolio hook,
    the counters of the dashboard, the state [loadPortfolio] leaves on the
    public page and the data the profile drawer submits.

    Conventions of the embedding:
    - a run-time JavaScript value is a [value]; numbers are the integers (the
      backend schema declares [order] as an Integer attribute, and JSON
      carries no NaN);
    - a backend document, a write payload and any other object used as a
      dictionary is a [gmap string value];
    - the module-level set [USER_UPDATE_FIELDS] is a [gset string] threaded
      through every operation of the authentication service;
    - the Appwrite SDK ([account], [databases]) is an external collaborator:
      a [Backend] record of state-passing operations over an arbitrary server
      state;
    - an [async] method is a computation in the monad [M]: it threads the
      server state and the field set, records every SDK call it makes, and
      ends by returning, by throwing, or by running out of loop fuel. *)

From Stdlib Require Import ZArith String Ascii List Bool Lia.
From stdpp Require Import gmap strings list fin_maps pretty sorting.

Set Warnings "-register-all,-clear-no-such-hyp".

Local Open Scope string_scope.
Local Open Scope Z_scope.

(** ** JavaScript values *)

Inductive value :=
  | VUndefined
  | VNull
  | VBool (b : bool)
  | VNum (n : Z)
  | VStr (s : string)
  | VArr (items : list value)
  | VObj (props : gmap string value).

(** [doc.key]: reading a property that is not there yields [undefined]. *)
Definition get (doc : gmap string value) (key : string) : value :=
  default VUndefined (doc !! key).

(** ToBoolean: what [if (v)], [!v], [v || w] and [Boolean(v)] test. *)
Definition truthy (v : value) : bool :=
  match v with
  | VUndefined | VNull => false
  | VBool b => b
  | VNum n => negb (n =? 0)%Z
  | VStr s => negb (String.eqb s "")
  | VArr _ | VObj _ => true
  end.

(** [a || b] *)
Definition js_or (a b : value) : value := if truthy a then a else b.


(** [String(item)]: the built-in conversion used by [toStringArray]. A
    number is printed in full, as [String] does below 10^21 in absolute
    value (from there on it switches to exponent notation). *)
Fixpoint js_String (v : value) : string :=
  match v with
  | VUndefined => "undefined"
  | VNull => "null"
  | VBool true => "true"
  | VBool false => "false"
  | VNum n => pretty n
  | VStr s => s
  | VArr items =>
      let elem x :=
        match x with
        | VUndefined | VNull => ""
        | _ => js_String x
        end in
      String.concat "," (map elem items)
  | VObj _ => "[object Object]"
  end.

(** [Object.entries(v)] for a value that passed [typeof v === 'object']:
    the properties of an object, the indexed items of an array. *)
Definition entries (v : value) : list (string * value) :=
  match v with
  | VObj props => map_to_list props
  | VArr items => imap (fun i x => (pretty i, x)) items
  | _ => []
  end.

(** ** Entities *)

(** [interface User]. A field the mapper copies or defaults with [||] holds
    whatever value the document had, hence [value]; a field the mapper builds
    itself has the type it is built at. *)
Record User := {
  u_id : value;
  u_name : value;
  u_email : value;
  u_bio : value;
  u_avatar : value;
  u_website : value;
  u_location : value;
  u_pronouns : value;
  u_availability : value;
  u_skills : list string;
  u_socialLinks : gmap string string;
  u_createdAt : value;
  u_updatedAt : value;
  u_createdBy : value
}.

(** [interface Project] *)
Record Project := {
  p_id : value;
  title : value;
  description : value;
  category : value;
  tags : list string;
  images : list string;
  videos : list string;
  documents : list string;
  isPublic : bool;
  featured : bool;
  order : Z;
  userId : value;
  createdBy : value;
  coverImage : value;
  liveUrl : value;
  sourceUrl : value;
  startDate : value;
  endDate : value;
  highlights : list string;
  techStack : list string;
  createdAt : value;
  updatedAt : value
}.

(** ** Record mappers *)

(** [toStringArray] (the same private method in both services) *)
Definition toStringArray (v : value) : list string :=
  match v with
  | VArr items => map js_String items
  | _ => []
  end.

(** [AuthService.normalizeSocialLinks] *)
Definition normalizeSocialLinks (v : value) : gmap string string :=
  match v with
  | VArr _ | VObj _ =>
      let kept :=
        omap (fun kv : string * value =>
                match kv.2 with
                | VStr link => if truthy (VStr link) then Some (kv.1, link) else None
                | _ => None
                end) (entries v) in
      foldl (fun normalized kl => <[kl.1 := kl.2]> normalized) ∅ kept
  | _ => ∅
  end.

(** [AuthService.mapUserDocument] *)
Definition mapUserDocument (doc : gmap string value) : User :=
  {| u_id := get doc "$id";
     u_name := js_or (get doc "name") (VStr "");
     u_email := js_or (get doc "email") (VStr "");
     u_bio := js_or (get doc "bio") (VStr "");
     u_avatar := js_or (get doc "avatar") (VStr "");
     u_website := js_or (get doc "website") (VStr "");
     u_location := js_or (get doc "location") (VStr "");
     u_pronouns := js_or (get doc "pronouns") (VStr "");
     u_availability := js_or (get doc "availability") (VStr "");
     u_skills := toStringArray (get doc "skills");
     u_socialLinks := normalizeSocialLinks (get doc "socialLinks");
     u_createdAt := get doc "$createdAt";
     u_updatedAt := get doc "$updatedAt";
     u_createdBy := js_or (get doc "createdBy") (VStr "") |}.

(** [PortfolioService.mapProjectDoc] *)
Definition mapProjectDoc (doc : gmap string value) : Project :=
  {| p_id := get doc "$id";
     title := js_or (get doc "title") (VStr "");
     description := js_or (get doc "description") (VStr "");
     category := js_or (get doc "category") (VStr "uncategorized");
     tags := toStringArray (get doc "tags");
     images := toStringArray (get doc "images");
     videos := toStringArray (get doc "videos");
     documents := toStringArray (get doc "documents");
     isPublic :=
       match get doc "isPublic" with
       | VUndefined => true
       | v => truthy v
       end;
     featured := truthy (get doc "featured");
     order :=
       match get doc "order" with
       | VNum n => n
       | _ => 0
       end;
     userId := js_or (js_or (get doc "userId") (get doc "createdBy")) (VStr "");
     createdBy := js_or (js_or (get doc "createdBy") (get doc "userId")) (VStr "");
     coverImage :=
       js_or (js_or (get doc "coverImage")
                    (match toStringArray (get doc "images") with
                     | first :: _ => VStr first
                     | [] => VUndefined
                     end))
             (VStr "");
     liveUrl := js_or (get doc "liveUrl") (VStr "");
     sourceUrl := js_or (get doc "sourceUrl") (VStr "");
     startDate := js_or (get doc "startDate") (VStr "");
     endDate := js_or (get doc "endDate") (VStr "");
     highlights := toStringArray (get doc "highlights");
     techStack := toStringArray (get doc "techStack");
     createdAt := get doc "$createdAt";
     updatedAt := get doc "$updatedAt" |}.

(** ** Strings *)

(** [s.includes(sub)] *)
Fixpoint includes (s sub : string) : bool :=
  String.prefix sub s ||
  match s with
  | EmptyString => false
  | String _ rest => includes rest sub
  end.

Fixpoint ltrim (s : string) : string :=
  match s with
  | String c rest => if Ascii.is_space c then ltrim rest else s
  | EmptyString => EmptyString
  end.

(** [s.trim()], on the white space of the ASCII range: tab, line feed,
    vertical tab, form feed, carriage return and space. It is
    [String.prototype.trim] on strings of ASCII characters; the white space
    beyond that range (U+00A0, U+FEFF, U+2028, U+2029 and the space
    separators) is not stripped here, so a statement that depends on what is
    stripped assumes ASCII strings. *)
Definition trim (s : string) : string :=
  String.rev (ltrim (String.rev (ltrim s))).

(** [items.join(sep)] on strings *)
Definition join (sep : string) (items : list string) : string :=
  String.concat sep items.

Definition dquote : ascii := ascii_of_nat 34.

(** The line terminators [.] refuses, in the ASCII range: line feed and
    carriage return. The dot also refuses U+2028 and U+2029; a statement that
    a name is matched assumes a name of ASCII characters. *)
Definition is_line_terminator (c : ascii) : bool :=
  (c =? "010")%char || (c =? "013")%char.

(** If [s] starts with [p], what follows. *)
Fixpoint strip_prefix (p s : string) : option string :=
  match p, s with
  | EmptyString, _ => Some s
  | String a p', String b s' =>
      if (a =? b)%char then strip_prefix p' s' else None
  | String _ _, EmptyString => None
  end.

(** The tail of the lazy group [(.+?)] once it holds one character: the
    shortest run of characters up to a double quote, none of them a line
    terminator. *)
Fixpoint lazy_until_quote (s : string) : option string :=
  match s with
  | EmptyString => None
  | String c rest =>
      if (c =? dquote)%char then Some EmptyString
      else if is_line_terminator c then None
      else String c <$> lazy_until_quote rest
  end.

(** A match of [/Unknown attribute: "(.+?)"/] that starts at the head of
    [s]; the captured group. *)
Definition match_here (s : string) : option string :=
  match strip_prefix ("Unknown attribute: " ++ String dquote EmptyString) s with
  | Some (String c rest) =>
      if is_line_terminator c then None
      else String c <$> lazy_until_quote rest
  | _ => None
  end.

(** [message.match(/Unknown attribute: "(.+?)"/)[1]]: the leftmost match. *)
Fixpoint match_unknown_attribute (message : string) : option string :=
  match match_here message with
  | Some group => Some group
  | None =>
      match message with
      | EmptyString => None
      | String _ rest => match_unknown_attribute rest
      end
  end.

(** ** Errors *)

(** A thrown value as the services read it: [error.message],
    [error.code] and [error.response.message]. A message that is absent or
    not a string is the empty string: every test the code makes on a message
    ([typeof m === 'string' && m], [m && ...], [m || fallback]) treats the
    two alike. *)
Record JsError := {
  message : string;
  code : option Z;
  response_message : string
}.

(** [new Error(msg)] *)
Definition Error (msg : string) : JsError :=
  {| message := msg; code := None; response_message := "" |}.

(** [msg || fallback] on strings *)
Definition or_else (msg fallback : string) : string :=
  if String.eqb msg "" then fallback else msg.

(** [extractUnknownAttribute] *)
Definition extractUnknownAttribute (error : JsError) : option string :=
  let message := or_else (message error) (response_message error) in
  if String.eqb message "" then None
  else match_unknown_attribute message.

(** ** The updatable fields *)

(** The initial content of the module-level set [USER_UPDATE_FIELDS]. *)
Definition USER_UPDATE_FIELDS_init : gset string :=
  list_to_set
    ["name"; "bio"; "avatar"; "website"; "location"; "pronouns";
     "availability"; "skills"; "socialLinks"].

(** [isUserUpdatableField], reading the current content of the set. *)
Definition isUserUpdatableField (fields : gset string) (key : string) : bool :=
  bool_decide (key ∈ fields).

(** [Array.isArray(v)] *)
Definition isArray (v : value) : bool :=
  match v with VArr _ => true | _ => false end.

(** [typeof v === 'object'] *)
Definition typeof_object (v : value) : bool :=
  match v with VNull | VArr _ | VObj _ => true | _ => false end.

(** The items of an array. *)
Definition array_items (v : value) : list value :=
  match v with VArr items => items | _ => [] end.

(** The value [sanitizeUserUpdateData] stores for an accepted entry. *)
Definition sanitizeValue (key : string) (v : value) : value :=
  if String.eqb key "skills" && isArray v then
    let cleanedSkills :=
      filter (fun skill => truthy (VStr skill))
        (map (fun skill =>
                match skill with
                | VStr s => trim s
                | _ => ""
                end) (array_items v)) in
    VArr (VStr <$> cleanedSkills)
  else if String.eqb key "socialLinks" && truthy v && typeof_object v then
    let cleanedLinks :=
      foldl (fun acc kl => <[kl.1 := VStr (trim kl.2)]> acc) ∅
        (omap (fun kv : string * value =>
                 match kv.2 with
                 | VStr link =>
                     if (0 <? String.length (trim link))%nat
                     then Some (kv.1, link) else None
                 | _ => None
                 end) (entries v)) in
    VObj cleanedLinks
  else
    match v with
    | VStr s => VStr (trim s)
    | _ => v
    end.

(** [sanitizeUserUpdateData]: the entries of [data] whose key is a currently
    updatable field and whose value is not [undefined], each cleaned. *)
Definition sanitizeUserUpdateData (fields : gset string)
    (data : gmap string value) : gmap string value :=
  map_imap
    (fun key v =>
       if negb (isUserUpdatableField fields key) then None
       else match v with
            | VUndefined => None
            | _ => Some (sanitizeValue key v)
            end)
    data.

(** ** Configuration *)

(** The [process.env] variables the services read; an unset variable is the
    empty string ([!v] and [v || d] treat the two alike). *)
Record Env := {
  REACT_APP_APPWRITE_PROJECT_ID : string;
  REACT_APP_APPWRITE_DATABASE_ID : string;
  REACT_APP_APPWRITE_COLLECTION_USERS : string;
  REACT_APP_APPWRITE_COLLECTION_PROJECTS : string;
  REACT_APP_APPWRITE_BUCKET_MEDIA : string
}.

Definition DATABASE_ID (env : Env) : string :=
  or_else (REACT_APP_APPWRITE_DATABASE_ID env) "".

Definition COLLECTION_USERS (env : Env) : string :=
  or_else (REACT_APP_APPWRITE_COLLECTION_USERS env) "users".

(** The names of the unset variables among [vars], in order. *)
Definition missing (vars : list (string * string)) : list string :=
  map fst (List.filter (fun kv => String.eqb kv.2 "") vars).

(** ** The backend and the computations that call it *)

(** [Models.User], the account of the authentication identity. *)
Record Account := {
  a_id : string;
  a_email : string;
  a_name : string
}.

(** The outcome of one awaited SDK call. *)
Inductive Response (A : Type) :=
  | Resolved (a : A)
  | Rejected (e : JsError).
Arguments Resolved {A} a.
Arguments Rejected {A} e.

(** The filter and sort expressions [getProjects] builds with [Query]. *)
Inductive Query :=
  | QueryEqual (attribute : string) (v : value)
  | QueryOrderAsc (attribute : string).

(** The SDK operations the services call, over a server state [Srv]. The
    database and collection identifiers the code passes along are constants
    of the configuration and are left out. *)
Record Backend (Srv : Type) := {
  account_get : Srv → Srv * Response Account;
  account_create : string → string → string → Srv → Srv * Response Account;
  account_updateName : value → Srv → Srv * Response unit;
  account_createEmailPasswordSession : string → string → Srv → Srv * Response unit;
  account_deleteSessions : Srv → Srv * Response unit;
  databases_getDocument : string → Srv → Srv * Response (gmap string value);
  databases_createDocument :
    string → gmap string value → Srv → Srv * Response (gmap string value);
  databases_updateDocument :
    string → gmap string value → Srv → Srv * Response (gmap string value);
  databases_listDocuments :
    list Query → Srv → Srv * Response (list (gmap string value))
}.
Arguments account_get {Srv} _ _.
Arguments account_create {Srv} _ _ _ _ _.
Arguments account_updateName {Srv} _ _ _.
Arguments account_createEmailPasswordSession {Srv} _ _ _ _.
Arguments account_deleteSessions {Srv} _ _.
Arguments databases_getDocument {Srv} _ _ _.
Arguments databases_createDocument {Srv} _ _ _ _.
Arguments databases_updateDocument {Srv} _ _ _ _.
Arguments databases_listDocuments {Srv} _ _ _.

(** One SDK call, with its arguments and what the server answered. *)
Inductive Event :=
  | AccountGet (r : Response Account)
  | AccountCreate (email password name : string) (r : Response Account)
  | AccountUpdateName (name : value) (r : Response unit)
  | CreateEmailPasswordSession (email password : string) (r : Response unit)
  | DeleteSessions (r : Response unit)
  | GetDocument (id : string) (r : Response (gmap string value))
  | CreateDocument (id : string) (payload : gmap string value)
      (r : Response (gmap string value))
  | UpdateDocument (id : string) (payload : gmap string value)
      (r : Response (gmap string value))
  | ListDocuments (queries : list Query)
      (r : Response (list (gmap string value))).

(** How a computation ends. *)
Inductive Completion (A : Type) :=
  | Returned (a : A)
  | Thrown (e : JsError)
  | OutOfFuel.
Arguments Returned {A} a.
Arguments Thrown {A} e.
Arguments OutOfFuel {A}.

(** What a computation reads and writes: the server behind the SDK and the
    module-level set of updatable fields. *)
Record World (Srv : Type) := {
  server : Srv;
  USER_UPDATE_FIELDS : gset string
}.
Arguments server {Srv} _.
Arguments USER_UPDATE_FIELDS {Srv} _.

(** A computation: from a world to the world it leaves, the SDK calls it made
    in order, and how it ended. *)
Definition M (Srv A : Type) : Type :=
  World Srv → World Srv * list Event * Completion A.

Definition throw {Srv A} (e : JsError) : M Srv A := fun w => (w, [], Thrown e).

Definition out_of_fuel {Srv A} : M Srv A := fun w => (w, [], OutOfFuel).

(** [return a] *)
Global Instance M_ret {Srv} : MRet (M Srv) :=
  fun A (a : A) w => (w, [], Returned a).

(** Sequencing: [x ← c; k x] runs [c], then [k] on what it returned; a throw
    or an exhausted loop ends the whole computation. *)
Global Instance M_bind {Srv} : MBind (M Srv) :=
  fun A B (k : A → M Srv B) (c : M Srv A) w =>
    match c w with
    | (w1, t1, Returned a) =>
        match k a w1 with
        | (w2, t2, r) => (w2, (t1 ++ t2)%list, r)
        end
    | (w1, t1, Thrown e) => (w1, t1, Thrown e)
    | (w1, t1, OutOfFuel) => (w1, t1, OutOfFuel)
    end.

(** [try { c } catch (error) { handler error }] *)
Definition try_catch {Srv A} (c : M Srv A) (handler : JsError → M Srv A) : M Srv A :=
  fun w =>
    match c w with
    | (w1, t1, Thrown e) =>
        match handler e w1 with
        | (w2, t2, r) => (w2, (t1 ++ t2)%list, r)
        end
    | done => done
    end.

(** [await op(...)]: the server moves, the call is recorded, a rejection is
    thrown. *)
Definition await {Srv A} (op : Srv → Srv * Response A) (ev : Response A → Event)
    : M Srv A :=
  fun w =>
    match op (server w) with
    | (s', r) =>
        ({| server := s'; USER_UPDATE_FIELDS := USER_UPDATE_FIELDS w |},
         [ev r],
         match r with
         | Resolved a => Returned a
         | Rejected e => Thrown e
         end)
    end.

(** The current content of [USER_UPDATE_FIELDS]. *)
Definition read_fields {Srv} : M Srv (gset string) :=
  fun w => (w, [], Returned (USER_UPDATE_FIELDS w)).

(** [if (isUserUpdatableField(a)) { USER_UPDATE_FIELDS.delete(a); }] *)
Definition forget_field {Srv} (unknownAttribute : string) : M Srv unit :=
  fun w =>
    (if isUserUpdatableField (USER_UPDATE_FIELDS w) unknownAttribute
     then {| server := server w;
             USER_UPDATE_FIELDS := USER_UPDATE_FIELDS w ∖ {[unknownAttribute]} |}
     else w,
     [], Returned tt).

(** ** The authentication service *)

Section AuthService.
Context {Srv : Type} (backend : Backend Srv) (env : Env).

(** [validateConfig] of the authentication service *)
Definition validateConfig : M Srv unit :=
  let missingVars :=
    missing
      [("REACT_APP_APPWRITE_PROJECT_ID", REACT_APP_APPWRITE_PROJECT_ID env);
       ("REACT_APP_APPWRITE_DATABASE_ID", REACT_APP_APPWRITE_DATABASE_ID env);
       ("REACT_APP_APPWRITE_COLLECTION_USERS",
        REACT_APP_APPWRITE_COLLECTION_USERS env)] in
  if (0 <? length missingVars)%nat then
    throw (Error ("Missing required environment variables: "
                  ++ join ", " missingVars
                  ++ ". Please check your .env file configuration."))
  else mret tt.

(** [AuthService.createUserDocument]; [fuel] bounds the iterations of its
    [while (true)]. *)
Fixpoint createUserDocument (fuel : nat) (userId : string)
    (payload : gmap string value) : M Srv (gmap string value) :=
  match fuel with
  | O => out_of_fuel
  | S fuel' =>
      try_catch
        (await (databases_createDocument backend userId payload)
               (CreateDocument userId payload))
        (fun error =>
           match extractUnknownAttribute error with
           | Some unknownAttribute =>
               if bool_decide
                    (unknownAttribute ∈ ["name"; "email"; "createdBy"])
               then throw error
               else
                 let payload' := delete unknownAttribute payload in
                 forget_field unknownAttribute;;
                 if bool_decide (size payload' = 0%nat) then
                   throw (Error
                     "Unable to create user profile. No valid fields remain.")
                 else createUserDocument fuel' userId payload'
           | None => throw error
           end)
  end.

(** [AuthService.isLoggedIn] *)
Definition isLoggedIn : M Srv bool :=
  try_catch
    (await (account_get backend) AccountGet;; mret true)
    (fun _ => mret false).

(** [AuthService.logoutAllSessions] *)
Definition logoutAllSessions : M Srv unit :=
  try_catch
    (await (account_deleteSessions backend) DeleteSessions)
    (fun error =>
       if truthy (VStr (message error))
          && negb (includes (message error) "session")
          && negb (includes (message error) "not found")
       then throw error
       else mret tt).

(** [AuthService.getCurrentUser]; [None] is [null]. *)
Definition getCurrentUser : M Srv (option User) :=
  try_catch
    (validateConfig;;
     accountData ← await (account_get backend) AccountGet;
     userDoc ← await (databases_getDocument backend (a_id accountData))
                     (GetDocument (a_id accountData));
     mret (Some (mapUserDocument userDoc)))
    (fun error =>
       if truthy (VStr (message error))
          && includes (message error) "Missing required environment variables"
       then
         throw (Error "Configuration error: Missing required environment variables. Please check your .env file configuration.")
       else if truthy (VStr (message error))
          && includes (message error)
               "Collection with the requested ID could not be found"
       then
         throw (Error ("Configuration error: Collection '"
                       ++ COLLECTION_USERS env ++ "' not found in database '"
                       ++ DATABASE_ID env
                       ++ "'. Please check your Appwrite configuration."))
       else if truthy (VStr (message error))
          && includes (message error)
               "Database with the requested ID could not be found"
       then
         throw (Error ("Configuration error: Database '" ++ DATABASE_ID env
                       ++ "' not found. Please check your Appwrite configuration."))
       else mret None).

(** [AuthService.getUserProfile] *)
Definition getUserProfile (userId : string) : M Srv (option User) :=
  try_catch
    (validateConfig;;
     userDoc ← await (databases_getDocument backend userId)
                     (GetDocument userId);
     mret (Some (mapUserDocument userDoc)))
    (fun error =>
       if bool_decide (code error = Some 404) then mret None
       else throw (Error (or_else (message error)
                                  "Unable to load user profile."))).

(** The [while (true)] of [AuthService.updateProfile]; [fuel] bounds its
    iterations. *)
Fixpoint updateProfile_loop (fuel : nat) (accountId : string)
    (remainingPayload : gmap string value) : M Srv User :=
  match fuel with
  | O => out_of_fuel
  | S fuel' =>
      if bool_decide (size remainingPayload = 0%nat) then
        existingDoc ← await (databases_getDocument backend accountId)
                            (GetDocument accountId);
        mret (mapUserDocument existingDoc)
      else
        try_catch
          (userDoc ← await (databases_updateDocument backend accountId
                              remainingPayload)
                           (UpdateDocument accountId remainingPayload);
           mret (mapUserDocument userDoc))
          (fun error =>
             match extractUnknownAttribute error with
             | Some unknownAttribute =>
                 forget_field unknownAttribute;;
                 updateProfile_loop fuel' accountId
                   (delete unknownAttribute remainingPayload)
             | None => throw error
             end)
  end.

(** [AuthService.updateProfile] *)
Definition updateProfile (fuel : nat) (data : gmap string value)
    : M Srv User :=
  try_catch
    (validateConfig;;
     accountData ← await (account_get backend) AccountGet;
     (if truthy (get data "name") then
        try_catch
          (await (account_updateName backend (get data "name"))
                 (AccountUpdateName (get data "name")))
          (fun _ => mret tt)
      else mret tt);;
     fields ← read_fields;
     updateProfile_loop fuel (a_id accountData)
       (sanitizeUserUpdateData fields data))
    (fun error =>
       throw (Error (or_else (message error)
                             "Profile update failed. Please try again."))).

(** [AuthService.register] *)
Definition register (fuel : nat) (email password name : string)
    : M Srv User :=
  try_catch
    (validateConfig;;
     accountData ← await (account_create backend email password name)
                         (AccountCreate email password name);
     fields ← read_fields;
     let defaultProfileData :=
       sanitizeUserUpdateData fields
         (list_to_map
            [("bio", VStr ""); ("avatar", VStr ""); ("website", VStr "");
             ("location", VStr ""); ("pronouns", VStr "");
             ("availability", VStr ""); ("skills", VArr []);
             ("socialLinks", VObj ∅)]) in
     userDoc ← createUserDocument fuel (a_id accountData)
                 (defaultProfileData ∪
                  list_to_map
                    [("name", VStr name); ("email", VStr email);
                     ("createdBy", VStr (a_id accountData))]);
     mret (mapUserDocument userDoc))
    (fun error =>
       throw (Error (or_else (message error)
                             "Registration failed. Please try again."))).

(** The part of [AuthService.login] after the check of the active session:
    create the session, then read the profile, creating its document when
    it is not found. The 100 ms pause after the session is created has no
    counterpart here. *)
Definition login_establish (fuel : nat) (email password : string)
    : M Srv User :=
  await (account_createEmailPasswordSession backend email password)
        (CreateEmailPasswordSession email password);;
  user ← getCurrentUser;
  match user with
  | Some user => mret user
  | None =>
      try_catch
        (accountData ← await (account_get backend) AccountGet;
         createUserDocument fuel (a_id accountData)
           (list_to_map
              [("email", VStr (a_email accountData));
               ("name", VStr (a_name accountData));
               ("createdBy", VStr (a_id accountData))]);;
         newUser ← getCurrentUser;
         match newUser with
         | Some newUser => mret newUser
         | None =>
             throw (Error "Failed to get user even after creating document.")
         end)
        (fun _ =>
           throw (Error "Failed to get user after login. Please check your Appwrite configuration (DATABASE_ID and COLLECTION_USERS)"))
  end.

(** [currentUser && currentUser.email === email] *)
Definition same_user (currentUser : option User) (email : string) : bool :=
  match currentUser with
  | Some user =>
      match u_email user with
      | VStr e => String.eqb e email
      | _ => false
      end
  | None => false
  end.

(** [AuthService.login] *)
Definition login (fuel : nat) (email password : string) : M Srv User :=
  try_catch
    (loggedIn ← isLoggedIn;
     if loggedIn : bool then
       currentUser ← getCurrentUser;
       match currentUser with
       | Some user =>
           if same_user currentUser email then mret user
           else
             try_catch logoutAllSessions (fun _ => mret tt);;
             login_establish fuel email password
       | None =>
           try_catch logoutAllSessions (fun _ => mret tt);;
           login_establish fuel email password
       end
     else login_establish fuel email password)
    (fun error =>
       if truthy (VStr (message error))
          && includes (message error) "session"
       then throw (Error "Session conflict detected. Please try again.")
       else throw (Error (or_else (message error)
                                  "Login failed. Please try again."))).

End AuthService.

(** ** The portfolio service and the listing order *)

(** [Array.prototype.sort(comparefn)]: a stable sort; a comparator result of
    [NaN] ([None]) counts as zero. Stable insertion, from the last element
    to the first: an element moves past the elements it compares strictly
    greater than, and stays before one it compares equal to. For a
    consistent comparator every stable sort returns this list; where the
    comparator is not consistent (it returns [NaN] for some pairs only) the
    order is the engine's own, so the statements on the order of a listing
    are made for records with valid creation dates. *)
Section Sort.
Context {A : Type} (comparefn : A → A → option Z).

Definition sort_compare (x y : A) : Z := default 0 (comparefn x y).

Fixpoint sort_insert (x : A) (sorted : list A) : list A :=
  match sorted with
  | [] => [x]
  | y :: rest =>
      if (0 <? sort_compare x y)%Z then y :: sort_insert x rest
      else x :: y :: rest
  end.

Definition js_sort (items : list A) : list A :=
  foldr sort_insert [] items.
End Sort.

(** [===] between a value and a primitive literal. *)
Definition strict_equal (a b : value) : bool :=
  match a, b with
  | VUndefined, VUndefined | VNull, VNull => true
  | VBool x, VBool y => Bool.eqb x y
  | VNum x, VNum y => (x =? y)%Z
  | VStr x, VStr y => String.eqb x y
  | _, _ => false
  end.

(** Whether a stored record passes one query expression: an equality filter
    holds when the record has the attribute with that value; a sort
    expression filters nothing. *)
Definition satisfies (doc : gmap string value) (q : Query) : bool :=
  match q with
  | QueryEqual attribute v =>
      match doc !! attribute with
      | Some x => strict_equal x v
      | None => false
      end
  | QueryOrderAsc _ => true
  end.

Section PortfolioService.
Context {Srv : Type} (backend : Backend Srv) (env : Env).

(** [new Date(v).getTime()], a built-in of the platform: the time value in
    milliseconds, [None] for [NaN] (an invalid date). *)
Context (getTime : value → option Z).

(** [validateConfig] of the portfolio service *)
Definition portfolio_validateConfig : M Srv unit :=
  let missingVars :=
    missing
      [("REACT_APP_APPWRITE_PROJECT_ID", REACT_APP_APPWRITE_PROJECT_ID env);
       ("REACT_APP_APPWRITE_DATABASE_ID", REACT_APP_APPWRITE_DATABASE_ID env);
       ("REACT_APP_APPWRITE_COLLECTION_PROJECTS",
        REACT_APP_APPWRITE_COLLECTION_PROJECTS env);
       ("REACT_APP_APPWRITE_BUCKET_MEDIA",
        REACT_APP_APPWRITE_BUCKET_MEDIA env)] in
  if (0 <? length missingVars)%nat then
    throw (Error ("Missing or empty required environment variables: "
                  ++ join ", " missingVars
                  ++ ". Please check your .env file configuration."))
  else mret tt.

(** The comparator of [getProjects] and of [sortProjects]; [None] is
    [NaN], the difference of two time values one of which is [NaN]. *)
Definition compareProjects (a b : Project) : option Z :=
  if bool_decide (order a ≠ order b) then Some (order a - order b)
  else
    aTime ← getTime (createdAt a);
    bTime ← getTime (createdAt b);
    Some (bTime - aTime).

(** [sortProjects] of the portfolio hook *)
Definition sortProjects (items : list Project) : list Project :=
  js_sort compareProjects items.

(** The queries [getProjects] sends; [userId] is [None] when the argument
    is omitted. *)
Definition getProjects_queries (userId : option string) : list Query :=
  (if truthy (from_option VStr VUndefined userId)
   then [QueryEqual "userId" (from_option VStr VUndefined userId)]
   else [QueryEqual "isPublic" (VBool true)])
  ++ [QueryOrderAsc "order"].

(** [PortfolioService.getProjects] *)
Definition getProjects (userId : option string) : M Srv (list Project) :=
  try_catch
    (portfolio_validateConfig;;
     let queries := getProjects_queries userId in
     response ← await (databases_listDocuments backend queries)
                      (ListDocuments queries);
     let mappedProjects := mapProjectDoc <$> response in
     mret (js_sort compareProjects mappedProjects))
    (fun error =>
       throw (Error (or_else (message error)
                             "Failed to fetch projects. Please try again."))).

End PortfolioService.

(** ** Predicates of the statements, the reference backend and sample data *)










(** The record has a creation time that is a valid date. *)
Definition valid_time (getTime : value → option Z) (p : Project) : Prop :=
  is_Some (getTime (createdAt p)).

(** The portfolio service finds its configuration. *)
Definition portfolio_config_ok (env : Env) : Prop :=
  REACT_APP_APPWRITE_PROJECT_ID env ≠ ""
  ∧ REACT_APP_APPWRITE_DATABASE_ID env ≠ ""
  ∧ REACT_APP_APPWRITE_COLLECTION_PROJECTS env ≠ ""
  ∧ REACT_APP_APPWRITE_BUCKET_MEDIA env ≠ "".

(** [new Date(n).getTime()] of a number is that number; the sample clock
    knows no other dates. *)
Definition sample_getTime (v : value) : option Z :=
  match v with
  | VNum n => Some n
  | _ => None
  end.

(** A project of the given identifier, display order and creation time. *)
Definition sample_project (id : string) (n : Z) (created : Z) : Project :=
  mapProjectDoc
    (list_to_map
       [("$id", VStr id); ("order", VNum n); ("$createdAt", VNum created)]).

(** The stored record belongs to the owner [u]: its [userId] attribute is
    the string [u]. *)
Definition owned_by (u : string) (doc : gmap string value) : bool :=
  match doc !! "userId" with
  | Some (VStr x) => String.eqb x u
  | _ => false
  end.

(** The stored record is flagged public: its [isPublic] attribute is
    [true]. *)
Definition flagged_public (doc : gmap string value) : bool :=
  match doc !! "isPublic" with
  | Some (VBool b) => b
  | _ => false
  end.

(** The backend's list operation answers with the stored records that pass
    every filter expression of the query (spec, External interfaces:
    [list(filterExpressions, sortExpressions)]); [stored] reads the records
    of the projects collection off the server state. *)
Definition list_filters {Srv} (backend : Backend Srv)
    (stored : Srv → list (gmap string value)) : Prop :=
  ∀ queries s s' docs,
    databases_listDocuments backend queries s = (s', Resolved docs) →
    docs ≡ₚ List.filter (fun doc => forallb (satisfies doc) queries) (stored s).

(** The state of the reference backend, an in-memory server that behaves
    as the spec describes the collaborator: accounts and sessions, a users
    collection that accepts only the attributes of its schema and names the
    first one it does not know, and a projects collection listed through its
    filter expressions. The flag [deleteSessions_fails] makes the bulk
    deletion of sessions fail, as a lost connection would. *)
Record Server := {
  sessions : list Account;
  accounts : list Account;
  users_schema : gset string;
  users : gmap string (gmap string value);
  projects : list (gmap string value);
  deleteSessions_fails : bool
}.

Definition with_sessions (s : Server) (l : list Account) : Server :=
  {| sessions := l; accounts := accounts s; users_schema := users_schema s;
     users := users s; projects := projects s;
     deleteSessions_fails := deleteSessions_fails s |}.

Definition with_accounts (s : Server) (l : list Account) : Server :=
  {| sessions := sessions s; accounts := l; users_schema := users_schema s;
     users := users s; projects := projects s;
     deleteSessions_fails := deleteSessions_fails s |}.

Definition with_users (s : Server) (m : gmap string (gmap string value))
    : Server :=
  {| sessions := sessions s; accounts := accounts s;
     users_schema := users_schema s; users := m; projects := projects s;
     deleteSessions_fails := deleteSessions_fails s |}.

Definition unauthorized : JsError :=
  {| message := "User (role: guests) missing scope (account)";
     code := Some 401; response_message := "" |}.

Definition invalid_credentials : JsError :=
  {| message := "Invalid credentials. Please check the email and password.";
     code := Some 401; response_message := "" |}.

Definition document_not_found : JsError :=
  {| message := "Document with the requested ID could not be found.";
     code := Some 404; response_message := "" |}.

Definition network_failure : JsError :=
  {| message := "Network request failed"; code := None;
     response_message := "" |}.

Definition unknown_attribute (key : string) : JsError :=
  {| message := "Invalid document structure: Unknown attribute: "
                ++ String dquote key ++ String dquote "";
     code := Some 400; response_message := "" |}.

Definition invalid_structure : JsError :=
  {| message := "Invalid document structure: malformed attribute key";
     code := Some 400; response_message := "" |}.

(** The rejection of a payload whose attribute [key] the schema does not
    know: the attribute is named when its name can be quoted in a message and
    read back, the payload is plainly invalid otherwise. *)
Definition reject_unknown (key : string) : JsError :=
  if bool_decide (extractUnknownAttribute (unknown_attribute key) = Some key)
  then unknown_attribute key
  else invalid_structure.

(** The first attribute of the payload the schema does not know. *)
Definition first_unknown (schema : gset string) (payload : gmap string value)
    : option string :=
  List.find (fun key => negb (bool_decide (key ∈ schema)))
    (map fst (map_to_list payload)).

Definition reference_backend : Backend Server :=
  {| account_get s :=
       (s, match sessions s with
           | a :: _ => Resolved a
           | [] => Rejected unauthorized
           end);
     account_create email password name s :=
       let a := {| a_id := "id-" ++ email; a_email := email; a_name := name |} in
       (with_accounts s (a :: accounts s), Resolved a);
     account_updateName name s := (s, Resolved tt);
     account_createEmailPasswordSession email password s :=
       match List.find (fun a => String.eqb (a_email a) email) (accounts s) with
       | Some a => (with_sessions s (a :: sessions s), Resolved tt)
       | None => (s, Rejected invalid_credentials)
       end;
     account_deleteSessions s :=
       if deleteSessions_fails s then (s, Rejected network_failure)
       else (with_sessions s [], Resolved tt);
     databases_getDocument id s :=
       (s, match users s !! id with
           | Some doc => Resolved doc
           | None => Rejected document_not_found
           end);
     databases_createDocument id payload s :=
       match first_unknown (users_schema s) payload with
       | Some key => (s, Rejected (reject_unknown key))
       | None =>
           let doc := <["$id" := VStr id]> payload in
           (with_users s (<[id := doc]> (users s)), Resolved doc)
       end;
     databases_updateDocument id payload s :=
       match first_unknown (users_schema s) payload with
       | Some key => (s, Rejected (reject_unknown key))
       | None =>
           match users s !! id with
           | Some old =>
               let doc := payload ∪ old in
               (with_users s (<[id := doc]> (users s)), Resolved doc)
           | None => (s, Rejected document_not_found)
           end
       end;
     databases_listDocuments queries s :=
       (s, Resolved
             (List.filter (fun doc => forallb (satisfies doc) queries)
                (projects s))) |}.

(** A complete configuration. *)
Definition sample_env : Env :=
  {| REACT_APP_APPWRITE_PROJECT_ID := "portfolio";
     REACT_APP_APPWRITE_DATABASE_ID := "main";
     REACT_APP_APPWRITE_COLLECTION_USERS := "users";
     REACT_APP_APPWRITE_COLLECTION_PROJECTS := "projects";
     REACT_APP_APPWRITE_BUCKET_MEDIA := "media" |}.

Definition alice : Account :=
  {| a_id := "id-alice@example.org"; a_email := "alice@example.org";
     a_name := "Alice" |}.

Definition bob : Account :=
  {| a_id := "id-bob@example.org"; a_email := "bob@example.org";
     a_name := "Bob" |}.

(** The stored project of the given identifier, owner, visibility and
    display order. *)
Definition stored_project (id owner : string) (public : bool) (n : Z)
    : gmap string value :=
  list_to_map
    [("$id", VStr id); ("userId", VStr owner); ("createdBy", VStr owner);
     ("isPublic", VBool public); ("order", VNum n); ("$createdAt", VNum n)].

(** A server with both accounts registered, nobody logged in, the full
    users schema and three projects. *)
Definition sample_server : Server :=
  {| sessions := [];
     accounts := [alice; bob];
     users_schema := USER_UPDATE_FIELDS_init ∪ {["email"; "createdBy"]};
     users := ∅;
     projects :=
       [stored_project "p1" (a_id alice) true 2;
        stored_project "p2" (a_id alice) false 1;
        stored_project "p3" (a_id bob) true 3];
     deleteSessions_fails := false |}.

Definition world_of (s : Server) : World Server :=
  {| server := s; USER_UPDATE_FIELDS := USER_UPDATE_FIELDS_init |}.

(** The fields [createUserDocument] refuses to strip. *)
Definition mandatory (key : string) : Prop :=
  key ∈ ["name"; "email"; "createdBy"].

(** The message of the terminal failure of [createUserDocument]. *)
Definition no_valid_fields : JsError :=
  Error "Unable to create user profile. No valid fields remain.".

(** The world after an SDK call moved the server to [s]. *)
Definition moved {Srv} (w : World Srv) (s : Srv) : World Srv :=
  {| server := s; USER_UPDATE_FIELDS := USER_UPDATE_FIELDS w |}.

(** The world after [forget_field key]. *)
Definition forgot {Srv} (w : World Srv) (key : string) : World Srv :=
  (forget_field key w).1.1.

(** A computation's outcome with earlier events in front of its trace. *)
Definition after {Srv A} (earlier : list Event)
    (run : World Srv * list Event * Completion A)
    : World Srv * list Event * Completion A :=
  (run.1.1, (earlier ++ run.1.2)%list, run.2).

(** Alice's profile document as the reference backend stores it. *)
Definition alice_doc : gmap string value :=
  list_to_map
    [("$id", VStr (a_id alice)); ("name", VStr "Alice");
     ("email", VStr (a_email alice)); ("createdBy", VStr (a_id alice))].

(** A server where Alice is logged in and has her profile document, and
    whose users collection lacks the attributes [missing_attributes]. *)
Definition drifted_server (missing_attributes : list string) : Server :=
  {| sessions := [alice];
     accounts := [alice; bob];
     users_schema :=
       (USER_UPDATE_FIELDS_init ∪ {["email"; "createdBy"]})
       ∖ list_to_set missing_attributes;
     users := {[a_id alice := alice_doc]};
     projects := [];
     deleteSessions_fails := false |}.

(** The three identity fields of a new profile, as [login] writes them. *)
Definition identity_payload (a : Account) : gmap string value :=
  list_to_map
    [("email", VStr (a_email a)); ("name", VStr (a_name a));
     ("createdBy", VStr (a_id a))].

(** The write a recorded call attempted: the payload it sent and what the
    backend answered. *)
Definition write_attempt (ev : Event)
    : option (gmap string value * Response (gmap string value)) :=
  match ev with
  | CreateDocument _ payload r | UpdateDocument _ payload r => Some (payload, r)
  | _ => None
  end.

(** The same, as the names of the fields sent and the error received. *)
Definition write_attempt_keys (ev : Event)
    : option (list string * option JsError) :=
  match write_attempt ev with
  | Some (payload, Resolved _) => Some (map fst (map_to_list payload), None)
  | Some (payload, Rejected e) => Some (map fst (map_to_list payload), Some e)
  | None => None
  end.

(** An update of name and bio on a backend that does not know [name]. *)
Definition update_name_run : World Server * list Event * Completion User :=
  updateProfile reference_backend sample_env 10
    (list_to_map [("name", VStr "Al"); ("bio", VStr "hi")])
    (world_of (drifted_server ["name"])).

(** An attempt of [createUserDocument] with a payload that has fields. *)
Definition nonempty_attempt (ev : Event) : Prop :=
  ∃ id payload r, ev = CreateDocument id payload r ∧ size payload ≠ 0%nat.

(** An update of bio alone on a backend that does not know [bio]. *)
Definition update_bio_run : World Server * list Event * Completion User :=
  updateProfile reference_backend sample_env 10
    {["bio" := VStr "hi"]} (world_of (drifted_server ["bio"])).

(** Every unknown attribute the backend names in the rejection of a write
    is a field of the payload that write sent. *)
Definition names_payload_fields {Srv} (backend : Backend Srv) : Prop :=
  ∀ id payload s s' e a,
    databases_createDocument backend id payload s = (s', Rejected e)
    ∨ databases_updateDocument backend id payload s = (s', Rejected e) →
    extractUnknownAttribute e = Some a →
    a ∈ dom payload.

(** The attempts start with [payload], and each attempt after another was
    made because that one was rejected with an unknown attribute, with that
    attribute removed from the payload. *)
Fixpoint strips_from (payload : gmap string value)
    (attempts : list (gmap string value * Response (gmap string value)))
    : Prop :=
  match attempts with
  | [] => True
  | (sent, r) :: rest =>
      sent = payload
      ∧ match rest with
        | [] => True
        | _ :: _ =>
            ∃ e a, r = Rejected e ∧ extractUnknownAttribute e = Some a
                   ∧ strips_from (delete a payload) rest
        end
  end.

(** A call on the users collection. *)
Definition document_call (ev : Event) : bool :=
  match ev with
  | GetDocument _ _ | CreateDocument _ _ _ | UpdateDocument _ _ _ => true
  | _ => false
  end.

(** A backend that rejects every write naming an attribute nobody sent. *)
Definition stubborn_backend : Backend unit :=
  {| account_get s := (s, Resolved alice);
     account_create email password name s := (s, Resolved alice);
     account_updateName name s := (s, Resolved tt);
     account_createEmailPasswordSession email password s := (s, Resolved tt);
     account_deleteSessions s := (s, Resolved tt);
     databases_getDocument id s := (s, Rejected document_not_found);
     databases_createDocument id payload s :=
       (s, Rejected (unknown_attribute "ghost"));
     databases_updateDocument id payload s :=
       (s, Rejected (unknown_attribute "ghost"));
     databases_listDocuments queries s := (s, Resolved []) |}.

Definition stubborn_world : World unit :=
  {| server := tt; USER_UPDATE_FIELDS := USER_UPDATE_FIELDS_init |}.

(** The authentication service finds its configuration. *)
Definition auth_config_ok (env : Env) : Prop :=
  REACT_APP_APPWRITE_PROJECT_ID env ≠ ""
  ∧ REACT_APP_APPWRITE_DATABASE_ID env ≠ ""
  ∧ REACT_APP_APPWRITE_COLLECTION_USERS env ≠ "".

(** The failures [getCurrentUser] reports as configuration errors: a message
    about missing environment variables, a missing collection or a missing
    database. *)
Definition configuration_failure (e : JsError) : bool :=
  truthy (VStr (message e))
  && (includes (message e) "Missing required environment variables"
      || includes (message e)
           "Collection with the requested ID could not be found"
      || includes (message e)
           "Database with the requested ID could not be found").

(** The identity fields, as a set. *)
Definition identity_fields : gset string :=
  list_to_set ["name"; "email"; "createdBy"].

(** With [known] the updatable fields at the time of the call: an update
    sends only fields of [known]; a create sends only fields of [known] and
    identity fields. *)
Definition tidy (known : gset string) (ev : Event) : Prop :=
  match ev with
  | UpdateDocument _ payload _ => dom payload ⊆ known
  | CreateDocument _ payload _ => dom payload ⊆ known ∪ identity_fields
  | _ => True
  end.

(** Started in [w], the computation only shrinks the set of updatable fields
    and makes only tidy calls. *)
Definition orderly_at {Srv A} (w : World Srv) (c : M Srv A) : Prop :=
  USER_UPDATE_FIELDS (c w).1.1 ⊆ USER_UPDATE_FIELDS w
  ∧ Forall (tidy (USER_UPDATE_FIELDS w)) (c w).1.2.

(** The calls of a session of the authentication service. *)
Inductive Call :=
  | CallLogin (email password : string)
  | CallRegister (email password name : string)
  | CallUpdateProfile (data : gmap string value)
  | CallGetCurrentUser
  | CallGetUserProfile (userId : string)
  | CallLogoutAllSessions.

Section Session.
Context {Srv : Type} (backend : Backend Srv) (env : Env) (fuel : nat).

(** One call of the session; the caller catches what it throws. *)
Definition run_call (c : Call) : M Srv unit :=
  try_catch
    match c with
    | CallLogin email password =>
        login backend env fuel email password;; mret tt
    | CallRegister email password name =>
        register backend env fuel email password name;; mret tt
    | CallUpdateProfile data =>
        updateProfile backend env fuel data;; mret tt
    | CallGetCurrentUser => getCurrentUser backend env;; mret tt
    | CallGetUserProfile userId => getUserProfile backend env userId;; mret tt
    | CallLogoutAllSessions => logoutAllSessions backend
    end
    (fun _ => mret tt).

(** The calls of a session, one after the other. *)
Fixpoint run_session (calls : list Call) : M Srv unit :=
  match calls with
  | [] => mret tt
  | c :: rest => run_call c;; run_session rest
  end.
End Session.

(** The write told the writer that the field [a] is unknown, and the writer
    strips such a field: any field on update, any field but an identity
    field on create. *)
Definition discovered (a : string) (ev : Event) : Prop :=
  match ev with
  | UpdateDocument _ _ (Rejected e) => extractUnknownAttribute e = Some a
  | CreateDocument _ _ (Rejected e) =>
      extractUnknownAttribute e = Some a ∧ ¬ mandatory a
  | _ => False
  end.

(** Started in [w], the computation is orderly and leaves no field it
    discovered unknown in the set of updatable fields. *)
Definition mindful_at {Srv A} (w : World Srv) (c : M Srv A) : Prop :=
  orderly_at w c
  ∧ ∀ a ev, ev ∈ (c w).1.2 → discovered a ev →
            a ∉ USER_UPDATE_FIELDS (c w).1.1.

(** A session on a backend that does not know [bio]: the first update
    discovers it, the second one leaves it out. *)
Definition bio_update : list Call :=
  [CallUpdateProfile {["bio" := VStr "hi"]}].

Definition bio_website_update : list Call :=
  [CallUpdateProfile
     (list_to_map [("bio", VStr "again"); ("website", VStr "w")])].

(** A registration, and a later change of name by Alice. *)
Definition register_carol : list Call :=
  [CallRegister "carol@example.org" "secret" "Carol"].

Definition rename_alice : list Call :=
  [CallUpdateProfile {["name" := VStr "Al"]}].

(** A call that creates or deletes sessions. *)
Definition session_call (ev : Event) : bool :=
  match ev with
  | CreateEmailPasswordSession _ _ _ | DeleteSessions _ => true
  | _ => false
  end.

(** Alice is logged in and has her profile, and the bulk deletion of
    sessions fails. *)
Definition stuck_sessions_server : Server :=
  {| sessions := [alice];
     accounts := [alice; bob];
     users_schema := USER_UPDATE_FIELDS_init ∪ {["email"; "createdBy"]};
     users := {[a_id alice := alice_doc]};
     projects := [];
     deleteSessions_fails := true |}.

(** Alice is logged in and has no profile document. *)
Definition no_profile_server : Server :=
  {| sessions := [alice];
     accounts := [alice; bob];
     users_schema := USER_UPDATE_FIELDS_init ∪ {["email"; "createdBy"]};
     users := ∅;
     projects := [];
     deleteSessions_fails := false |}.

(** ** The project form, the portfolio hook and the dashboard *)

(** [v === undefined || v === null], what [??] and [?.] test. *)
Definition nullish (v : value) : bool :=
  match v with
  | VUndefined | VNull => true
  | _ => false
  end.

(** [a ?? b] *)
Definition js_nullish (a b : value) : value := if nullish a then b else a.

(** [value.split(delimiter)] for a delimiter of one character. *)
Fixpoint split_on (delimiter : ascii) (s : string) : list string :=
  match s with
  | EmptyString => [EmptyString]
  | String c rest =>
      if (c =? delimiter)%char then EmptyString :: split_on delimiter rest
      else
        match split_on delimiter rest with
        | piece :: pieces => String c piece :: pieces
        | [] => [String c EmptyString]
        end
  end.

(** [splitAndFilter] of the project form; the form calls it with [','] and
    with a line feed. *)
Definition splitAndFilter (value : string) (delimiter : ascii) : list string :=
  List.filter (fun item => truthy (VStr item))
    (map trim (split_on delimiter value)).

(** [interface FormState] of the project form. *)
Record FormState := {
  f_title : value;
  f_description : value;
  f_category : value;
  f_tags : string;
  f_coverImage : value;
  f_imageUrls : string;
  f_liveUrl : value;
  f_sourceUrl : value;
  f_startDate : value;
  f_endDate : value;
  f_highlights : string;
  f_techStack : string;
  f_isPublic : bool;
  f_featured : bool;
  f_order : Z
}.

Definition line_feed : ascii := ascii_of_nat 10.

(** [createInitialFormState]; [None] is an absent project. *)
Definition createInitialFormState (project : option Project) (nextOrder : Z)
    : FormState :=
  match project with
  | Some p =>
      {| f_title := js_nullish (title p) (VStr "");
         f_description := js_nullish (description p) (VStr "");
         f_category := js_nullish (category p) (VStr "");
         f_tags := join ", " (tags p);
         f_coverImage :=
           js_nullish
             (js_nullish (coverImage p)
                match images p with
                | first :: _ => VStr first
                | [] => VUndefined
                end)
             (VStr "");
         f_imageUrls := join (String line_feed "") (images p);
         f_liveUrl := js_nullish (liveUrl p) (VStr "");
         f_sourceUrl := js_nullish (sourceUrl p) (VStr "");
         f_startDate := js_nullish (startDate p) (VStr "");
         f_endDate := js_nullish (endDate p) (VStr "");
         f_highlights := join (String line_feed "") (highlights p);
         f_techStack := join ", " (techStack p);
         f_isPublic := isPublic p;
         f_featured := featured p;
         f_order := order p |}
  | None =>
      {| f_title := VStr ""; f_description := VStr ""; f_category := VStr "";
         f_tags := join ", " []; f_coverImage := VStr "";
         f_imageUrls := join (String line_feed "") [];
         f_liveUrl := VStr ""; f_sourceUrl := VStr ""; f_startDate := VStr "";
         f_endDate := VStr "";
         f_highlights := join (String line_feed "") [];
         f_techStack := join ", " [];
         f_isPublic := true; f_featured := false; f_order := nextOrder |}
  end.

(** The document [PortfolioService.createProject] sends: the caller's
    project with its list attributes, flags and order defaulted, owned by
    the account [accountId]. *)
Definition createProject_projectData (project : gmap string value)
    (accountId : string) : gmap string value :=
  <["createdBy" := VStr accountId]>
    (<["userId" := VStr accountId]>
      (<["order" := match get project "order" with
                    | VNum n => VNum n
                    | _ => VNum 0
                    end]>
        (<["featured" := js_nullish (get project "featured") (VBool false)]>
          (<["isPublic" := js_nullish (get project "isPublic") (VBool true)]>
            (<["techStack" := js_or (get project "techStack") (VArr [])]>
              (<["highlights" := js_or (get project "highlights") (VArr [])]>
                (<["documents" := js_or (get project "documents") (VArr [])]>
                  (<["videos" := js_or (get project "videos") (VArr [])]>
                    (<["images" := js_or (get project "images") (VArr [])]>
                      (<["tags" := js_or (get project "tags") (VArr [])]>
                        project)))))))))).

(** [p.$id === id] *)
Definition has_id (id : string) (p : Project) : bool :=
  match p_id p with
  | VStr s => String.eqb s id
  | _ => false
  end.

(** The owner and the projects the public page holds after
    [loadPortfolio]. *)
Record PortfolioPage := {
  page_owner : option User;
  page_projects : list Project
}.

(** [loadPortfolio] of the public page, from how its two calls,
    [getUserProfile] and [getProjects], ended: when both returned and the
    profile is not [null], the owner is the profile and the projects are the
    public ones of the listing; when the profile is [null], or when either
    call threw, there is no owner and no project. (The error text the page
    then shows is, when both calls throw, the one of the call that failed
    first; it is not part of this state.) *)
Definition loadPortfolio (profile : Completion (option User))
    (portfolioProjects : Completion (list Project)) : PortfolioPage :=
  match profile, portfolioProjects with
  | Returned (Some profile), Returned portfolioProjects =>
      {| page_owner := Some profile;
         page_projects := List.filter isPublic portfolioProjects |}
  | _, _ => {| page_owner := None; page_projects := [] |}
  end.

(** [stats] of the dashboard. *)
Record Stats := {
  total : Z;
  publicCount : Z;
  privateCount : Z;
  featuredCount : Z
}.

Definition stats (projects : list Project) : Stats :=
  let total := Z.of_nat (length projects) in
  let publicCount := Z.of_nat (length (List.filter isPublic projects)) in
  let featured := Z.of_nat (length (List.filter featured projects)) in
  {| total := total;
     publicCount := publicCount;
     privateCount := total - publicCount;
     featuredCount := featured |}.

Section PortfolioHook.
Context (getTime : value → option Z).

(** The list of projects the portfolio hook holds after [fetchProjects]
    got [userProjects] from the service. *)
Definition fetchProjects_state (userProjects : list Project) : list Project :=
  sortProjects getTime userProjects.

(** ... after [createProject] got [newProject] from the service. *)
Definition createProject_state (prev : list Project) (newProject : Project)
    : list Project :=
  sortProjects getTime (prev ++ [newProject]).

(** ... after [updateProject] got [updatedProject] from the service. *)
Definition updateProject_state (prev : list Project) (id : string)
    (updatedProject : Project) : list Project :=
  sortProjects getTime
    (map (fun p => if has_id id p then updatedProject else p) prev).

(** ... after [deleteProject] deleted the project [id]. *)
Definition deleteProject_state (prev : list Project) (id : string)
    : list Project :=
  List.filter (fun p => negb (has_id id p)) prev.
End PortfolioHook.

(** The list the hook holds: every record has a valid creation date and no
    record compares greater than a later one. *)
Definition listing_ok (getTime : value → option Z) (l : list Project) : Prop :=
  Forall (valid_time getTime) l
  ∧ StronglySorted (fun a b => sort_compare (compareProjects getTime) a b ≤ 0)
      l.

(** Every character of the string passes the test. *)
Fixpoint all_chars (test : ascii → bool) (s : string) : bool :=
  match s with
  | EmptyString => true
  | String c rest => test c && all_chars test rest
  end.

(** A character the lazy group [(.+?)] takes after its first one: neither
    the closing double quote nor a line terminator. *)
Definition plain_char (c : ascii) : bool :=
  negb (c =? dquote)%char && negb (is_line_terminator c).

(** The text [Unknown attribute: "name"] as the backend writes it. *)
Definition unknown_attribute_text (name : string) : string :=
  "Unknown attribute: " ++ String dquote name ++ String dquote "".

(** A character of the ASCII range. *)
Definition is_ascii (c : ascii) : bool := (nat_of_ascii c <? 128)%nat.

(** An entry that the project form gives back as it is: it is made of ASCII
    characters, is not empty, has no white space around it and does not
    contain the delimiter. *)
Definition clean_entry (delimiter : ascii) (entry : string) : Prop :=
  all_chars is_ascii entry = true
  ∧ entry ≠ "" ∧ trim entry = entry
  ∧ all_chars (fun c => negb (c =? delimiter)%char) entry = true.

(** A stored project with list attributes, and the entity mapped from it. *)
Definition showcase_doc : gmap string value :=
  list_to_map
    [("$id", VStr "p7"); ("title", VStr "Site"); ("order", VNum 2);
     ("tags", VArr [VStr "react"; VStr "type script"]);
     ("techStack", VArr [VStr "node"]);
     ("images", VArr [VStr "https://img/1.png"; VStr "file42"]);
     ("highlights", VArr [VStr "Fast, small"; VStr "Tested"])].

Definition showcase_project : Project := mapProjectDoc showcase_doc.

(** A social link as [sanitizeUserUpdateData] leaves it: a string that is
    not empty and has no white space around it. *)
Definition clean_link (v : value) : Prop :=
  ∃ s, v = VStr s ∧ trim s = s ∧ (0 <? String.length s)%nat = true.

(** A configuration in which the media bucket alone is set. *)
Definition unset_env : Env :=
  {| REACT_APP_APPWRITE_PROJECT_ID := "";
     REACT_APP_APPWRITE_DATABASE_ID := "";
     REACT_APP_APPWRITE_COLLECTION_USERS := "";
     REACT_APP_APPWRITE_COLLECTION_PROJECTS := "";
     REACT_APP_APPWRITE_BUCKET_MEDIA := "media" |}.

(** The sample configuration without the variable of the media bucket. *)
Definition bucketless_env : Env :=
  {| REACT_APP_APPWRITE_PROJECT_ID := "portfolio";
     REACT_APP_APPWRITE_DATABASE_ID := "main";
     REACT_APP_APPWRITE_COLLECTION_USERS := "users";
     REACT_APP_APPWRITE_COLLECTION_PROJECTS := "projects";
     REACT_APP_APPWRITE_BUCKET_MEDIA := "" |}.

(** The payload of a first profile with a bio. *)
Definition carol_payload : gmap string value :=
  list_to_map
    [("name", VStr "Carol"); ("email", VStr "carol@example.org");
     ("createdBy", VStr "id-carol"); ("bio", VStr "hello")].

(** What a session may write: an update sends profile fields only, a create
    profile fields and identity fields only. *)
Definition within_profile_fields (ev : Event) : Prop :=
  match ev with
  | UpdateDocument _ payload _ =>
      dom payload ⊆ USER_UPDATE_FIELDS_init
      ∧ ("email" ∉ dom payload) ∧ ("createdBy" ∉ dom payload)
      ∧ ("$id" ∉ dom payload)
  | CreateDocument _ payload _ =>
      dom payload ⊆ USER_UPDATE_FIELDS_init ∪ identity_fields
  | _ => True
  end.

(** A call [updateProfile] may make once it knows the account: the change
    of the account's name to the name given, an update of the account's own
    profile document with cleaned fields of the data, or the read of that
    document. *)
Definition own_profile_call (acct : Account) (data : gmap string value)
    (known : gset string) (ev : Event) : Prop :=
  match ev with
  | AccountUpdateName name _ => name = get data "name"
  | UpdateDocument id sent _ =>
      id = a_id acct ∧ sent ⊆ sanitizeUserUpdateData known data
  | GetDocument id _ => id = a_id acct
  | _ => False
  end.

(** A call [register] may make once the account exists: the creation of the
    account's own profile document, with the name and email given and the
    account as creator. *)
Definition own_profile_create (acct : Account) (email name : string)
    (ev : Event) : Prop :=
  match ev with
  | CreateDocument id sent _ =>
      id = a_id acct
      ∧ sent !! "name" = Some (VStr name)
      ∧ sent !! "email" = Some (VStr email)
      ∧ sent !! "createdBy" = Some (VStr (a_id acct))
  | _ => False
  end.

(** The sample server once Alice has her profile document. *)
Definition published_server : Server :=
  with_users sample_server {[a_id alice := alice_doc]}.

(** The stored record is one the public page of [owner] shows: it belongs
    to the owner and the record mapped from it is public. *)
Definition on_public_page (owner : string) (doc : gmap string value) : bool :=
  owned_by owner doc && isPublic (mapProjectDoc doc).

(** ** The profile form *)

(** [interface ProfileFormState]: the fields are the strings the inputs
    hold; [socialLinks] is an object from platform to link. *)
Record ProfileFormState := {
  pf_name : string;
  pf_bio : string;
  pf_location : string;
  pf_website : string;
  pf_pronouns : string;
  pf_availability : string;
  pf_skills : string;
  pf_avatar : string;
  pf_socialLinks : gmap string string
}.

(** The data [handleSubmit] of the profile drawer passes to
    [updateProfile]. *)
Definition profile_handleSubmit_data (formState : ProfileFormState)
    : gmap string value :=
  let skills :=
    List.filter (fun skill => truthy (VStr skill))
      (map trim (split_on "," (pf_skills formState))) in
  let socialLinks :=
    foldl (fun acc kl => <[kl.1 := VStr (trim kl.2)]> acc) ∅
      (List.filter
         (fun kl : string * string =>
            truthy (VStr kl.2) && (0 <? String.length (trim kl.2))%nat)
         (map_to_list (pf_socialLinks formState))) in
  list_to_map
    [("name", VStr (trim (pf_name formState)));
     ("bio", VStr (trim (pf_bio formState)));
     ("location", VStr (trim (pf_location formState)));
     ("website", VStr (trim (pf_website formState)));
     ("pronouns", VStr (trim (pf_pronouns formState)));
     ("availability", VStr (trim (pf_availability formState)));
     ("skills", VArr (VStr <$> skills));
     ("avatar", VStr (trim (pf_avatar formState)));
     ("socialLinks", VObj socialLinks)].

(** The record has display order [n] and creation time [t]: the records
    that compare equal to one another. *)
Definition same_rank (getTime : value → option Z) (n t : Z) (p : Project)
    : bool :=
  (order p =? n)
  && match getTime (createdAt p) with
     | Some t' => t' =? t
     | None => false
     end.

(** What a caller gets through
    [catch (error) { throw new Error(error.message || fallback) }]. *)
Definition rethrown {A} (fallback : string) (c : Completion A)
    : Completion A :=
  match c with
  | Thrown e => Thrown (Error (or_else (message e) fallback))
  | _ => c
  end.

(** The optional [account.updateName] of [updateProfile]: the server it
    leaves and the call it made. *)
Definition updateName_outcome {Srv} (backend : Backend Srv) (name : value)
    (s : Srv) : Srv * list Event :=
  if truthy name
  then ((account_updateName backend name s).1,
        [AccountUpdateName name (account_updateName backend name s).2])
  else (s, []).

(** A profile with two optional fields, for a collection that knows
    neither. *)
Definition drifting_payload : gmap string value :=
  list_to_map
    [("name", VStr "Carol"); ("email", VStr "carol@example.org");
     ("createdBy", VStr "id-carol"); ("bio", VStr "hello");
     ("website", VStr "https://carol.example")].

(** The not-found answer of the backend when the collection itself is
    missing. *)
Definition collection_not_found : JsError :=
  {| message := "Collection with the requested ID could not be found.";
     code := Some 404; response_message := "" |}.

(** A backend in which Alice is logged in and the users collection does not
    exist. *)
Definition collectionless_backend : Backend unit :=
  {| account_get s := (s, Resolved alice);
     account_create email password name s := (s, Resolved alice);
     account_updateName name s := (s, Resolved tt);
     account_createEmailPasswordSession email password s := (s, Resolved tt);
     account_deleteSessions s := (s, Resolved tt);
     databases_getDocument id s := (s, Rejected collection_not_found);
     databases_createDocument id payload s :=
       (s, Rejected collection_not_found);
     databases_updateDocument id payload s :=
       (s, Rejected collection_not_found);
     databases_listDocuments queries s := (s, Resolved []) |}.

(** * Properties *)

(** ** Record mappers *)



Lemma truthy_js_or (a d : value) :
  truthy (js_or a d) = truthy a || truthy d.
Proof. unfold js_or. by destruct (truthy a) eqn:E; rewrite ?E. Qed.

Lemma truthy_empty_string : truthy (VStr "") = false.
Proof. reflexivity. Qed.

(** A value defaulted with [|| ''] is the empty string exactly when the
    value was falsy. *)
Lemma js_or_empty_iff (a : value) :
  js_or a (VStr "") = VStr "" ↔ truthy a = false.
Proof.
  unfold js_or. destruct (truthy a) eqn:E; split; try done.
  intros ->. by rewrite truthy_empty_string in E.
Qed.







(** C10. In every mapped project the owner field falls back to the
    document's [createdBy] when [userId] is absent, the creator field falls
    back to the document's [userId] when [createdBy] is absent, and the two
    fields are the empty string together. *)
Theorem mapProjectDoc_owner_fallback (doc : gmap string value) :
  (doc !! "userId" = None →
     userId (mapProjectDoc doc) = js_or (get doc "createdBy") (VStr ""))
  ∧ (doc !! "createdBy" = None →
     createdBy (mapProjectDoc doc) = js_or (get doc "userId") (VStr ""))
  ∧ (userId (mapProjectDoc doc) = VStr ""
     ↔ createdBy (mapProjectDoc doc) = VStr "").
Proof.
  split; [|split].
  - intros H. simpl. unfold get at 1. by rewrite H.
  - intros H. simpl. unfold get at 1. by rewrite H.
  - simpl. rewrite !js_or_empty_iff, !truthy_js_or.
    destruct (truthy (get doc "userId")), (truthy (get doc "createdBy")); done.
Qed.

Lemma mapProjectDoc_owner_fallback_witness :
  userId (mapProjectDoc {["createdBy" := VStr "u1"]}) = VStr "u1"
  ∧ createdBy (mapProjectDoc {["userId" := VStr "u2"]}) = VStr "u2".
Proof.
  split.
  - rewrite (proj1 (mapProjectDoc_owner_fallback {["createdBy" := VStr "u1"]}));
      reflexivity.
  - rewrite (proj1 (proj2
      (mapProjectDoc_owner_fallback {["userId" := VStr "u2"]})));
      reflexivity.
Defined.

(** ** Listing order *)

Section SortFacts.
Context {A : Type} (comparefn : A → A → option Z).

Lemma sort_insert_Permutation (x : A) (l : list A) :
  sort_insert comparefn x l ≡ₚ x :: l.
Proof.
  induction l as [|y l IH]; simpl; [done|].
  destruct (0 <? sort_compare comparefn x y)%Z; [|done].
  rewrite IH. apply Permutation_swap.
Qed.

Lemma js_sort_Permutation (l : list A) : js_sort comparefn l ≡ₚ l.
Proof.
  induction l as [|x l IH]; simpl; [done|].
  by rewrite sort_insert_Permutation, IH.
Qed.

(** On a domain [P] where the comparator is total and transitive, the
    sort yields a list in which no element compares greater than a later
    one. *)
Context (P : A → Prop).
Context (total : ∀ x y, P x → P y →
  (sort_compare comparefn x y ≤ 0 ∨ sort_compare comparefn y x ≤ 0)%Z).
Context (trans : ∀ x y z, P x → P y → P z →
  (sort_compare comparefn x y ≤ 0 → sort_compare comparefn y z ≤ 0 →
   sort_compare comparefn x z ≤ 0)%Z).

Lemma sort_insert_sorted (x : A) (l : list A) :
  P x → Forall P l →
  StronglySorted (fun a b => (sort_compare comparefn a b ≤ 0)%Z) l →
  StronglySorted (fun a b => (sort_compare comparefn a b ≤ 0)%Z)
    (sort_insert comparefn x l).
Proof.
  intros Hx HP Hs. induction Hs as [|y l Hs IH Hy]; simpl.
  - repeat constructor.
  - apply Forall_cons in HP as [HPy HPl].
    destruct (Z.ltb_spec 0 (sort_compare comparefn x y)) as [Hgt|Hle].
    + constructor; [by apply IH|].
      rewrite sort_insert_Permutation. constructor; [|done].
      destruct (total x y Hx HPy); lia.
    + constructor; [by constructor|].
      constructor; [lia|].
      rewrite Forall_forall in Hy, HPl. apply Forall_forall. intros z Hz.
      apply (trans x y z); auto.
Qed.

Lemma js_sort_sorted (l : list A) :
  Forall P l →
  StronglySorted (fun a b => (sort_compare comparefn a b ≤ 0)%Z)
    (js_sort comparefn l).
Proof.
  induction 1 as [|x l Hx HP IH]; simpl; [constructor|].
  apply sort_insert_sorted; [done| |done].
  by rewrite js_sort_Permutation.
Qed.
End SortFacts.

(** The sign of the listing comparator on records whose creation time is a
    valid date. *)
Lemma compareProjects_valid (getTime : value → option Z) (a b : Project)
    (ta tb : Z) :
  getTime (createdAt a) = Some ta → getTime (createdAt b) = Some tb →
  sort_compare (compareProjects getTime) a b
  = if bool_decide (order a ≠ order b) then order a - order b else tb - ta.
Proof.
  intros Ha Hb. unfold sort_compare, compareProjects.
  case_bool_decide; [done|]. by rewrite Ha, Hb.
Qed.

Lemma eqb_empty_false (s : string) : s ≠ "" → String.eqb s "" = false.
Proof. intros H. by apply String.eqb_neq. Qed.

Lemma portfolio_validateConfig_ok {Srv} (env : Env) (w : World Srv) :
  portfolio_config_ok env →
  portfolio_validateConfig env w = (w, [], Returned tt).
Proof.
  intros (H1 & H2 & H3 & H4). unfold portfolio_validateConfig, missing.
  simpl. rewrite !eqb_empty_false by done. reflexivity.
Qed.

(** What [getProjects] returns when the backend answers the listing. *)
Lemma getProjects_resolved {Srv} (backend : Backend Srv) (env : Env)
    (getTime : value → option Z) (userId : option string) (w : World Srv)
    (s' : Srv) (docs : list (gmap string value)) :
  portfolio_config_ok env →
  databases_listDocuments backend (getProjects_queries userId) (server w)
  = (s', Resolved docs) →
  (getProjects backend env getTime userId w).2
  = Returned (js_sort (compareProjects getTime) (mapProjectDoc <$> docs)).
Proof.
  intros Henv Hlist. unfold getProjects, try_catch, mbind, M_bind, await.
  rewrite portfolio_validateConfig_ok by done. by rewrite Hlist.
Qed.

Lemma compareProjects_total (getTime : value → option Z) (x y : Project) :
  valid_time getTime x → valid_time getTime y →
  sort_compare (compareProjects getTime) x y ≤ 0
  ∨ sort_compare (compareProjects getTime) y x ≤ 0.
Proof.
  intros [tx Hx] [ty Hy].
  rewrite (compareProjects_valid _ x y tx ty), (compareProjects_valid _ y x ty tx)
    by done.
  repeat case_bool_decide; lia.
Qed.

Lemma compareProjects_trans (getTime : value → option Z) (x y z : Project) :
  valid_time getTime x → valid_time getTime y → valid_time getTime z →
  sort_compare (compareProjects getTime) x y ≤ 0 →
  sort_compare (compareProjects getTime) y z ≤ 0 →
  sort_compare (compareProjects getTime) x z ≤ 0.
Proof.
  intros [tx Hx] [ty Hy] [tz Hz].
  rewrite (compareProjects_valid _ x y tx ty), (compareProjects_valid _ y z ty tz),
    (compareProjects_valid _ x z tx tz) by done.
  repeat case_bool_decide; lia.
Qed.

(** The three records of the example, in any order, come out as
    [newer of order 1; older of order 1; order 3]. *)
Lemma sortProjects_example (getTime : value → option Z) (a b c : Project)
    (ta t1 t2 : Z) (items : list Project) :
  order a = 3 → order b = 1 → order c = 1 →
  getTime (createdAt a) = Some ta →
  getTime (createdAt b) = Some t1 → getTime (createdAt c) = Some t2 →
  t1 < t2 →
  items ≡ₚ [a; b; c] →
  sortProjects getTime items = [c; b; a].
Proof.
  intros Ha Hb Hc Hta Ht1 Ht2 Hlt Hperm.
  symmetry in Hperm. apply permutations_Permutation in Hperm.
  simpl in Hperm.
  unfold sortProjects.
  assert (Hab := compareProjects_valid getTime a b ta t1 Hta Ht1).
  assert (Hba := compareProjects_valid getTime b a t1 ta Ht1 Hta).
  assert (Hac := compareProjects_valid getTime a c ta t2 Hta Ht2).
  assert (Hca := compareProjects_valid getTime c a t2 ta Ht2 Hta).
  assert (Hbc := compareProjects_valid getTime b c t1 t2 Ht1 Ht2).
  assert (Hcb := compareProjects_valid getTime c b t2 t1 Ht2 Ht1).
  rewrite Ha, Hb, Hc in *.
  rewrite (bool_decide_eq_true_2 (3 ≠ 1)) in Hab, Hac by lia.
  rewrite (bool_decide_eq_true_2 (1 ≠ 3)) in Hba, Hca by lia.
  rewrite (bool_decide_eq_false_2 (1 ≠ 1)) in Hbc, Hcb by lia.
  set_unfold in Hperm.
  destruct Hperm as [->|[->|[->|[->|[->|[->|[]]]]]]]; simpl;
    rewrite ?Hab, ?Hba, ?Hac, ?Hca, ?Hbc, ?Hcb; simpl;
    repeat (match goal with
            | |- context [(0 <? ?x)%Z] =>
                destruct (Z.ltb_spec 0 x); try lia
            end; simpl; rewrite ?Hab, ?Hba, ?Hac, ?Hca, ?Hbc, ?Hcb);
    reflexivity.
Qed.

(** A stable sort keeps the elements of a class in the order it received
    them, when no element of the class compares greater than another. *)
Lemma sort_insert_filter {A} (comparefn : A → A → option Z)
    (class : A → bool) (x : A) (l : list A) :
  (∀ y, class x = true → class y = true → sort_compare comparefn x y ≤ 0) →
  List.filter class (sort_insert comparefn x l) = List.filter class (x :: l).
Proof.
  intros Hclass. induction l as [|y l IH]; [done|].
  cbn [sort_insert]. destruct (Z.ltb_spec 0 (sort_compare comparefn x y));
    [|done].
  cbn [List.filter] in *. rewrite IH.
  destruct (class x) eqn:Hx, (class y) eqn:Hy; try done.
  specialize (Hclass y eq_refl Hy). lia.
Qed.

Lemma js_sort_stable {A} (comparefn : A → A → option Z) (class : A → bool)
    (l : list A) :
  (∀ x y, class x = true → class y = true →
          sort_compare comparefn x y ≤ 0) →
  List.filter class (js_sort comparefn l) = List.filter class l.
Proof.
  intros Hclass. induction l as [|x l IH]; [done|].
  unfold js_sort in *. cbn [foldr]. rewrite sort_insert_filter.
  - cbn [List.filter]. by rewrite IH.
  - intros y. apply Hclass.
Qed.

Lemma same_rank_compare (getTime : value → option Z) (n t : Z)
    (a b : Project) :
  same_rank getTime n t a = true → same_rank getTime n t b = true →
  sort_compare (compareProjects getTime) a b = 0.
Proof.
  unfold same_rank.
  intros [Ha Hta]%andb_true_iff [Hb Htb]%andb_true_iff.
  destruct (getTime (createdAt a)) as [ta|] eqn:Ea; [|done].
  destruct (getTime (createdAt b)) as [tb|] eqn:Eb; [|done].
  rewrite (compareProjects_valid _ a b ta tb) by done.
  rewrite bool_decide_eq_false_2 by lia. lia.
Qed.

(** C5, as the code has it. The listing comparator orders records by
    ascending display order and, among records of the same order, by
    descending creation time; two records compare equal exactly when they
    have the same order and the same creation time, whether or not they are
    the same record. On records with valid creation times: the stable sort
    leaves the records of one order and creation time, however many and
    wherever they stand in the list, in the order it received them; the
    sorted listing is a rearrangement of its input in which no record
    compares greater than a later one; [getProjects] returns the mapped
    documents in that order; and for records of orders 3, 1, 1 with
    creation times t1 < t2 for the two of order 1, every listing is
    [order 1 newer; order 1 older; order 3]. *)
Theorem listing_order (getTime : value → option Z) :
  (∀ a b, order a < order b →
     sort_compare (compareProjects getTime) a b < 0
     ∧ 0 < sort_compare (compareProjects getTime) b a)
  ∧ (∀ a b ta tb,
       order a = order b →
       getTime (createdAt a) = Some ta → getTime (createdAt b) = Some tb →
       (sort_compare (compareProjects getTime) a b < 0 ↔ tb < ta)
       ∧ (sort_compare (compareProjects getTime) a b = 0 ↔ ta = tb))
  ∧ (∀ items n t,
       Forall (valid_time getTime) items →
       List.filter (same_rank getTime n t) (sortProjects getTime items)
       = List.filter (same_rank getTime n t) items)
  ∧ (∀ items,
       Forall (valid_time getTime) items →
       sortProjects getTime items ≡ₚ items
       ∧ StronglySorted
           (fun a b => sort_compare (compareProjects getTime) a b ≤ 0)
           (sortProjects getTime items))
  ∧ (∀ a b c ta t1 t2 items,
       order a = 3 → order b = 1 → order c = 1 →
       getTime (createdAt a) = Some ta →
       getTime (createdAt b) = Some t1 → getTime (createdAt c) = Some t2 →
       t1 < t2 →
       items ≡ₚ [a; b; c] →
       sortProjects getTime items = [c; b; a])
  ∧ (∀ Srv (backend : Backend Srv) env userId w s' docs,
       portfolio_config_ok env →
       databases_listDocuments backend (getProjects_queries userId) (server w)
       = (s', Resolved docs) →
       Forall (valid_time getTime) (mapProjectDoc <$> docs) →
       (getProjects backend env getTime userId w).2
       = Returned (sortProjects getTime (mapProjectDoc <$> docs))).
Proof.
  repeat apply conj.
  - intros a b Hlt. unfold sort_compare, compareProjects.
    rewrite !bool_decide_eq_true_2 by lia. simpl. lia.
  - intros a b ta tb Ho Ha Hb.
    rewrite (compareProjects_valid _ a b ta tb) by done.
    rewrite bool_decide_eq_false_2 by lia. split; split; lia.
  - intros items n t _. apply js_sort_stable. intros x y Hx Hy.
    by rewrite (same_rank_compare getTime n t).
  - intros items Hvalid. split.
    + apply js_sort_Permutation.
    + apply (js_sort_sorted _ (valid_time getTime)); [| |done].
      * apply compareProjects_total.
      * apply compareProjects_trans.
  - intros. by eapply sortProjects_example.
  - intros. by eapply getProjects_resolved.
Qed.

Lemma listing_order_witness :
  sortProjects sample_getTime
    [sample_project "a" 3 50; sample_project "b" 1 100;
     sample_project "c" 1 200]
  = [sample_project "c" 1 200; sample_project "b" 1 100;
     sample_project "a" 3 50]
  ∧ sort_compare (compareProjects sample_getTime)
      (sample_project "b" 1 100) (sample_project "a" 3 50) < 0
  ∧ List.filter (same_rank sample_getTime 1 100)
      (sortProjects sample_getTime
         [sample_project "x" 1 100; sample_project "a" 3 50;
          sample_project "y" 1 100; sample_project "c" 1 200;
          sample_project "z" 1 100])
    = List.filter (same_rank sample_getTime 1 100)
        [sample_project "x" 1 100; sample_project "a" 3 50;
         sample_project "y" 1 100; sample_project "c" 1 200;
         sample_project "z" 1 100].
Proof.
  destruct (listing_order sample_getTime)
    as (Hasc & _ & Hstable & _ & Hex & _).
  split; [|split].
  - apply (Hex _ _ _ 50 100 200); first [reflexivity | lia].
  - apply (Hasc (sample_project "b" 1 100) (sample_project "a" 3 50)).
    vm_compute. reflexivity.
  - apply Hstable. repeat constructor; by eexists.
Defined.

(** C5 as stated fails: two different records of the same display order
    and creation time compare equal, and the listing keeps them in the order
    of its input. *)
Lemma compare_equal_not_identical :
  sample_project "x" 1 100 ≠ sample_project "y" 1 100
  ∧ compareProjects sample_getTime
      (sample_project "x" 1 100) (sample_project "y" 1 100) = Some 0
  ∧ sortProjects sample_getTime
      [sample_project "x" 1 100; sample_project "y" 1 100]
    = [sample_project "x" 1 100; sample_project "y" 1 100]
  ∧ sortProjects sample_getTime
      [sample_project "y" 1 100; sample_project "x" 1 100]
    = [sample_project "y" 1 100; sample_project "x" 1 100].
Proof.
  split; [|by vm_compute].
  intros H. apply (f_equal p_id) in H. vm_compute in H. discriminate.
Qed.

(** ** Listing scope *)

Lemma owner_query (u : string) (doc : gmap string value) :
  u ≠ "" →
  forallb (satisfies doc) (getProjects_queries (Some u)) = owned_by u doc.
Proof.
  intros Hu. unfold getProjects_queries. simpl.
  rewrite eqb_empty_false by done. simpl. unfold owned_by.
  destruct (doc !! "userId") as [[]|]; simpl; by rewrite ?andb_true_r.
Qed.

Lemma public_query (userId : option string) (doc : gmap string value) :
  userId = None ∨ userId = Some "" →
  forallb (satisfies doc) (getProjects_queries userId) = flagged_public doc.
Proof.
  intros [-> | ->]; unfold getProjects_queries; simpl; unfold flagged_public;
    destruct (doc !! "isPublic") as [[]|]; simpl; rewrite ?andb_true_r;
    try done; by destruct b.
Qed.

Lemma filter_ext_bool {A} (f g : A → bool) (l : list A) :
  (∀ x, f x = g x) → List.filter f l = List.filter g l.
Proof. intros H. induction l as [|x l IH]; simpl; [done|]. by rewrite H, IH. Qed.

Lemma Forall_filter_bool {A} (f : A → bool) (l : list A) :
  Forall (fun x => f x = true) (List.filter f l).
Proof.
  induction l as [|x l IH]; simpl; [constructor|].
  destruct (f x) eqn:E; [by constructor | done].
Qed.

Lemma mapProjectDoc_owned (u : string) (doc : gmap string value) :
  u ≠ "" → owned_by u doc = true → userId (mapProjectDoc doc) = VStr u.
Proof.
  intros Hu. unfold owned_by. simpl. unfold get.
  destruct (doc !! "userId") as [[]|]; try done. simpl.
  intros ->%String.eqb_eq. unfold js_or. simpl.
  rewrite !eqb_empty_false by done. simpl. by rewrite eqb_empty_false.
Qed.

Lemma mapProjectDoc_public (doc : gmap string value) :
  flagged_public doc = true → isPublic (mapProjectDoc doc) = true.
Proof.
  unfold flagged_public. simpl. unfold get.
  destruct (doc !! "isPublic") as [[]|]; simpl; done.
Qed.

(** C6. With a backend whose list operation applies the filter expressions
    it is sent, and a complete configuration: when the listing resolves,
    [getProjects] called with an owner identifier returns the mapped records
    of the stored documents of that owner, all of them and no other, whatever
    their visibility flag; called without one it returns the mapped records
    of the stored documents flagged public, all of them and no other,
    whoever owns them. *)
Theorem getProjects_scope {Srv} (backend : Backend Srv) (env : Env)
    (getTime : value → option Z) (stored : Srv → list (gmap string value))
    (ownerId : option string) (w : World Srv) (s' : Srv)
    (docs : list (gmap string value)) :
  list_filters backend stored →
  portfolio_config_ok env →
  ownerId ≠ Some "" →
  databases_listDocuments backend (getProjects_queries ownerId) (server w)
  = (s', Resolved docs) →
  ∃ listing,
    (getProjects backend env getTime ownerId w).2 = Returned listing
    ∧ match ownerId with
      | Some u =>
          listing ≡ₚ mapProjectDoc <$> List.filter (owned_by u) (stored (server w))
          ∧ Forall (fun p => userId p = VStr u) listing
      | None =>
          listing ≡ₚ mapProjectDoc <$> List.filter flagged_public (stored (server w))
          ∧ Forall (fun p => isPublic p = true) listing
      end.
Proof.
  intros Hfilters Henv Hid Hlist.
  eexists. split; [by eapply getProjects_resolved|].
  pose proof (Hfilters _ _ _ _ Hlist) as Hdocs.
  destruct ownerId as [u|].
  - assert (Hu : u ≠ "") by congruence.
    rewrite (filter_ext_bool _ (owned_by u)) in Hdocs
      by (intros; by apply owner_query).
    split.
    + by rewrite js_sort_Permutation, Hdocs.
    + rewrite js_sort_Permutation, Hdocs. apply Forall_fmap.
      eapply Forall_impl; [apply Forall_filter_bool|].
      intros d Hd. by apply mapProjectDoc_owned.
  - rewrite (filter_ext_bool _ flagged_public) in Hdocs
      by (intros; apply public_query; by left).
    split.
    + by rewrite js_sort_Permutation, Hdocs.
    + rewrite js_sort_Permutation, Hdocs. apply Forall_fmap.
      eapply Forall_impl; [apply Forall_filter_bool|].
      intros d Hd. by apply mapProjectDoc_public.
Qed.

Lemma reference_backend_list_filters : list_filters reference_backend projects.
Proof. intros queries s s' docs [= <- <-]. done. Qed.

Lemma getProjects_scope_witness :
  ∃ listing,
    (getProjects reference_backend sample_env sample_getTime
       (Some (a_id alice)) (world_of sample_server)).2
    = Returned listing
    ∧ listing ≡ₚ mapProjectDoc <$>
        [stored_project "p1" (a_id alice) true 2;
         stored_project "p2" (a_id alice) false 1]
    ∧ Forall (fun p => userId p = VStr (a_id alice)) listing.
Proof.
  apply (getProjects_scope reference_backend sample_env sample_getTime
           projects (Some (a_id alice)) (world_of sample_server)
           sample_server
           [stored_project "p1" (a_id alice) true 2;
            stored_project "p2" (a_id alice) false 1]).
  - exact reference_backend_list_filters.
  - repeat split; discriminate.
  - discriminate.
  - reflexivity.
Defined.

(** ** Running the combinators *)

Lemma bind_run {Srv A B} (c : M Srv A) (k : A → M Srv B) (w : World Srv) :
  (c ≫= k) w
  = match c w with
    | (w1, t1, Returned a) => after t1 (k a w1)
    | (w1, t1, Thrown e) => (w1, t1, Thrown e)
    | (w1, t1, OutOfFuel) => (w1, t1, OutOfFuel)
    end.
Proof.
  unfold mbind, M_bind, after. destruct (c w) as [[w1 t1] [a|e|]]; try done.
  by destruct (k a w1) as [[? ?] ?].
Qed.

Lemma try_catch_run {Srv A} (c : M Srv A) (h : JsError → M Srv A)
    (w : World Srv) :
  try_catch c h w
  = match c w with
    | (w1, t1, Thrown e) => after t1 (h e w1)
    | done => done
    end.
Proof.
  unfold try_catch, after. destruct (c w) as [[w1 t1] [a|e|]]; try done.
  by destruct (h e w1) as [[? ?] ?].
Qed.

Lemma validateConfig_cases {Srv} (env : Env) (w : World Srv) :
  validateConfig env w = (w, [], Returned tt)
  ∨ ∃ e, validateConfig env w = (w, [], Thrown e).
Proof.
  unfold validateConfig. destruct (0 <? _)%nat; [right; by eexists | by left].
Qed.

Lemma validateConfig_ok {Srv} (env : Env) (w : World Srv) :
  auth_config_ok env → validateConfig env w = (w, [], Returned tt).
Proof.
  intros (H1 & H2 & H3). unfold validateConfig, missing. simpl.
  rewrite !eqb_empty_false by done. reflexivity.
Qed.

Lemma moved_same {Srv} (w : World Srv) : moved w (server w) = w.
Proof. by destruct w. Qed.

(** The optional [account.updateName] of [updateProfile] makes no call on
    the users collection, leaves the updatable fields alone and always
    completes. *)
Lemma updateName_step {Srv} (backend : Backend Srv) (name : value)
    (w : World Srv) :
  ∃ s t,
    (if truthy name
     then try_catch
            (await (account_updateName backend name) (AccountUpdateName name))
            (fun _ => mret tt)
     else mret tt) w
    = (moved w s, t, Returned tt)
    ∧ List.filter document_call t = [].
Proof.
  destruct (truthy name).
  - rewrite try_catch_run. unfold await.
    destruct (account_updateName backend name (server w)) as [s [[]|e]];
      by eexists _, _.
  - exists (server w), []. by destruct w.
Qed.

(** ** The schema-drift-tolerant writer *)

Section WriterSteps.
Context {Srv : Type} (backend : Backend Srv).

(** One iteration of [createUserDocument], case by case. *)
Lemma createUserDocument_resolved fuel userId payload (w : World Srv) s' doc :
  databases_createDocument backend userId payload (server w)
  = (s', Resolved doc) →
  createUserDocument backend (S fuel) userId payload w
  = (moved w s', [CreateDocument userId payload (Resolved doc)], Returned doc).
Proof.
  intros H. simpl. unfold try_catch, await. by rewrite H.
Qed.

Lemma createUserDocument_other_error fuel userId payload (w : World Srv) s' e :
  databases_createDocument backend userId payload (server w)
  = (s', Rejected e) →
  extractUnknownAttribute e = None →
  createUserDocument backend (S fuel) userId payload w
  = (moved w s', [CreateDocument userId payload (Rejected e)], Thrown e).
Proof.
  intros H He. simpl. unfold try_catch, await. by rewrite H, He.
Qed.

Lemma createUserDocument_mandatory fuel userId payload (w : World Srv) s' e a :
  databases_createDocument backend userId payload (server w)
  = (s', Rejected e) →
  extractUnknownAttribute e = Some a →
  mandatory a →
  createUserDocument backend (S fuel) userId payload w
  = (moved w s', [CreateDocument userId payload (Rejected e)], Thrown e).
Proof.
  intros H He Ha. simpl. unfold try_catch, await. rewrite H, He.
  by rewrite bool_decide_eq_true_2.
Qed.

Lemma createUserDocument_emptied fuel userId payload (w : World Srv) s' e a :
  databases_createDocument backend userId payload (server w)
  = (s', Rejected e) →
  extractUnknownAttribute e = Some a →
  ¬ mandatory a →
  size (delete a payload) = 0%nat →
  createUserDocument backend (S fuel) userId payload w
  = (forgot (moved w s') a,
     [CreateDocument userId payload (Rejected e)], Thrown no_valid_fields).
Proof.
  intros H He Ha Hsize. simpl. unfold try_catch, await. rewrite H, He.
  rewrite bool_decide_eq_false_2 by done.
  unfold mbind, M_bind, forgot, forget_field. simpl.
  by rewrite bool_decide_eq_true_2.
Qed.

Lemma createUserDocument_retry fuel userId payload (w : World Srv) s' e a :
  databases_createDocument backend userId payload (server w)
  = (s', Rejected e) →
  extractUnknownAttribute e = Some a →
  ¬ mandatory a →
  size (delete a payload) ≠ 0%nat →
  createUserDocument backend (S fuel) userId payload w
  = after [CreateDocument userId payload (Rejected e)]
      (createUserDocument backend fuel userId (delete a payload)
         (forgot (moved w s') a)).
Proof.
  intros H He Ha Hsize. simpl. unfold try_catch, await. rewrite H, He.
  rewrite bool_decide_eq_false_2 by done.
  unfold mbind, M_bind, forgot, forget_field, after. simpl.
  rewrite bool_decide_eq_false_2 by done.
  by destruct (createUserDocument _ _ _ _ _) as [[? ?] ?].
Qed.

(** One iteration of the loop of [updateProfile], case by case. *)
Lemma updateProfile_loop_empty fuel accountId payload (w : World Srv) :
  size payload = 0%nat →
  updateProfile_loop backend (S fuel) accountId payload w
  = match databases_getDocument backend accountId (server w) with
    | (s', Resolved existingDoc) =>
        (moved w s', [GetDocument accountId (Resolved existingDoc)],
         Returned (mapUserDocument existingDoc))
    | (s', Rejected e) =>
        (moved w s', [GetDocument accountId (Rejected e)], Thrown e)
    end.
Proof.
  intros H. simpl. rewrite bool_decide_eq_true_2 by done.
  unfold mbind, M_bind, await.
  by destruct (databases_getDocument _ _ _) as [s' [doc|e]].
Qed.

Lemma updateProfile_loop_resolved fuel accountId payload (w : World Srv)
    s' doc :
  size payload ≠ 0%nat →
  databases_updateDocument backend accountId payload (server w)
  = (s', Resolved doc) →
  updateProfile_loop backend (S fuel) accountId payload w
  = (moved w s', [UpdateDocument accountId payload (Resolved doc)],
     Returned (mapUserDocument doc)).
Proof.
  intros Hsize H. simpl. rewrite bool_decide_eq_false_2 by done.
  unfold try_catch, mbind, M_bind, await. by rewrite H.
Qed.

Lemma updateProfile_loop_other_error fuel accountId payload (w : World Srv)
    s' e :
  size payload ≠ 0%nat →
  databases_updateDocument backend accountId payload (server w)
  = (s', Rejected e) →
  extractUnknownAttribute e = None →
  updateProfile_loop backend (S fuel) accountId payload w
  = (moved w s', [UpdateDocument accountId payload (Rejected e)], Thrown e).
Proof.
  intros Hsize H He. simpl. rewrite bool_decide_eq_false_2 by done.
  unfold try_catch, mbind, M_bind, await. by rewrite H, He.
Qed.

Lemma updateProfile_loop_retry fuel accountId payload (w : World Srv)
    s' e a :
  size payload ≠ 0%nat →
  databases_updateDocument backend accountId payload (server w)
  = (s', Rejected e) →
  extractUnknownAttribute e = Some a →
  updateProfile_loop backend (S fuel) accountId payload w
  = after [UpdateDocument accountId payload (Rejected e)]
      (updateProfile_loop backend fuel accountId (delete a payload)
         (forgot (moved w s') a)).
Proof.
  intros Hsize H He. simpl. rewrite bool_decide_eq_false_2 by done.
  unfold try_catch, mbind, M_bind, await. rewrite H, He.
  unfold forgot, forget_field, after. simpl.
  by destruct (updateProfile_loop _ _ _ _ _) as [[? ?] ?].
Qed.
End WriterSteps.

(** C2, as the code has it. In [createUserDocument], an unknown-field failure
    that names [name], [email] or [createdBy] is propagated to the caller as
    it is, after that one attempt, with no field removed; an unknown-field
    failure that names any other field makes the writer, on create and on
    update alike, strip that field, forget it as an updatable field, and
    retry with what remains. *)
Theorem unknown_field_handling {Srv} (backend : Backend Srv) (fuel : nat)
    (id : string) (payload : gmap string value) (w : World Srv) (s' : Srv)
    (e : JsError) (a : string) :
  extractUnknownAttribute e = Some a →
  (databases_createDocument backend id payload (server w) = (s', Rejected e) →
     (mandatory a →
        createUserDocument backend (S fuel) id payload w
        = (moved w s', [CreateDocument id payload (Rejected e)], Thrown e))
     ∧ (¬ mandatory a → size (delete a payload) ≠ 0%nat →
        createUserDocument backend (S fuel) id payload w
        = after [CreateDocument id payload (Rejected e)]
            (createUserDocument backend fuel id (delete a payload)
               (forgot (moved w s') a))))
  ∧ (databases_updateDocument backend id payload (server w) = (s', Rejected e) →
     ¬ mandatory a → size payload ≠ 0%nat →
     updateProfile_loop backend (S fuel) id payload w
     = after [UpdateDocument id payload (Rejected e)]
         (updateProfile_loop backend fuel id (delete a payload)
            (forgot (moved w s') a))).
Proof.
  intros He. split.
  - intros H. split.
    + intros Ha. by eapply createUserDocument_mandatory.
    + intros Ha Hsize. by eapply createUserDocument_retry.
  - intros H Ha Hsize. by eapply updateProfile_loop_retry.
Qed.

Lemma unknown_field_handling_witness :
  createUserDocument reference_backend 1 (a_id bob) (identity_payload bob)
    (world_of (drifted_server ["name"]))
  = (world_of (drifted_server ["name"]),
     [CreateDocument (a_id bob) (identity_payload bob)
        (Rejected (unknown_attribute "name"))],
     Thrown (unknown_attribute "name")).
Proof.
  apply (proj1 (proj1 (unknown_field_handling reference_backend 0 (a_id bob)
                  (identity_payload bob) (world_of (drifted_server ["name"]))
                  (drifted_server ["name"]) (unknown_attribute "name") "name"
                  eq_refl) eq_refl)).
  exact (bool_decide_eq_true_1 (mandatory "name") eq_refl).
Defined.

(** C2 as stated fails on update: when the backend does not know [name],
    the update strips it, forgets it and retries with the other fields; the
    caller gets the updated profile, not the failure. *)
Lemma update_strips_mandatory_field :
  omap write_attempt_keys update_name_run.1.2
  = [(["name"; "bio"], Some (unknown_attribute "name")); (["bio"], None)]
  ∧ (∃ user, update_name_run.2 = Returned user)
  ∧ "name" ∉ USER_UPDATE_FIELDS update_name_run.1.1.
Proof.
  split; [by vm_compute|]. split; [by eexists|]. by vm_compute.
Qed.

(** Started on a payload that has fields, [createUserDocument] never sends
    an empty one. *)
Lemma createUserDocument_attempts_nonempty {Srv} (backend : Backend Srv)
    (fuel : nat) (id : string) (payload : gmap string value) (w : World Srv) :
  size payload ≠ 0%nat →
  Forall nonempty_attempt (createUserDocument backend fuel id payload w).1.2.
Proof.
  revert payload w. induction fuel as [|fuel IH]; intros payload w Hsize.
  - constructor.
  - assert (Hfirst : ∀ r, nonempty_attempt (CreateDocument id payload r))
      by (intros r; by exists id, payload, r).
    destruct (databases_createDocument backend id payload (server w))
      as [s' [doc|e]] eqn:Hcall.
    + rewrite (createUserDocument_resolved _ _ _ _ _ _ _ Hcall). by constructor.
    + destruct (extractUnknownAttribute e) as [a|] eqn:He.
      * destruct (decide (mandatory a)) as [Ha|Ha].
        { rewrite (createUserDocument_mandatory _ _ _ _ _ _ _ _ Hcall He Ha).
          by constructor. }
        destruct (decide (size (delete a payload) = 0%nat)) as [Hz|Hnz].
        { rewrite (createUserDocument_emptied _ _ _ _ _ _ _ _ Hcall He Ha Hz).
          by constructor. }
        rewrite (createUserDocument_retry _ _ _ _ _ _ _ _ Hcall He Ha Hnz).
        simpl. constructor; [done|]. by apply IH.
      * rewrite (createUserDocument_other_error _ _ _ _ _ _ _ Hcall He).
        by constructor.
Qed.

(** [updateProfile] with a complete configuration and somebody logged in:
    the optional change of the account's name, then the loop on the cleaned
    data; what the loop throws reaches the caller as a new error with the
    same message. *)
Lemma updateProfile_run {Srv} (backend : Backend Srv) (env : Env)
    (fuel : nat) (data : gmap string value) (w : World Srv) (s1 : Srv)
    (acct : Account) :
  auth_config_ok env →
  account_get backend (server w) = (s1, Resolved acct) →
  updateProfile backend env fuel data w
  = ((updateProfile_loop backend fuel (a_id acct)
        (sanitizeUserUpdateData (USER_UPDATE_FIELDS w) data)
        (moved w (updateName_outcome backend (get data "name") s1).1)).1.1,
     AccountGet (Resolved acct)
     :: (updateName_outcome backend (get data "name") s1).2
        ++ (updateProfile_loop backend fuel (a_id acct)
              (sanitizeUserUpdateData (USER_UPDATE_FIELDS w) data)
              (moved w (updateName_outcome backend (get data "name") s1).1)
           ).1.2,
     rethrown "Profile update failed. Please try again."
       (updateProfile_loop backend fuel (a_id acct)
          (sanitizeUserUpdateData (USER_UPDATE_FIELDS w) data)
          (moved w (updateName_outcome backend (get data "name") s1).1)).2).
Proof.
  intros Henv Hacc. unfold updateProfile.
  rewrite try_catch_run, bind_run, validateConfig_ok by done.
  rewrite bind_run. unfold await at 1. rewrite Hacc.
  rewrite bind_run. unfold updateName_outcome.
  destruct (truthy (get data "name")).
  - rewrite try_catch_run. unfold await at 1. cbn [server].
    destruct (account_updateName backend (get data "name") s1)
      as [s2 [[]|e]]; cbn [fst snd];
      unfold after, mbind, M_bind, read_fields, throw, mret, M_ret, moved;
      cbn [USER_UPDATE_FIELDS fst snd];
      destruct (updateProfile_loop _ _ _ _ _) as [[w3 t3] [user|e3|]];
      simpl; by rewrite ?app_nil_r.
  - unfold after, mbind, M_bind, read_fields, throw, mret, M_ret, moved.
    cbn [USER_UPDATE_FIELDS fst snd].
    destruct (updateProfile_loop _ _ _ _ _) as [[w3 t3] [user|e3|]];
      simpl; by rewrite ?app_nil_r.
Qed.

(** C3, as the code has it. In [createUserDocument], when stripping the
    named field leaves no field, the operation throws the terminal error
    "Unable to create user profile. No valid fields remain." without another
    attempt, and no attempt after the first is ever made with an empty
    payload. In [updateProfile], when the payload is or becomes empty, no
    update is attempted: the loop reads the existing document and returns
    the user mapped from it, or throws the failure of that read; the
    operation itself, with the configuration complete and somebody logged
    in, then returns that user, or throws a new error that has the message
    of the read's failure (the fallback text when it has none) and not its
    code. *)
Theorem emptied_payload {Srv} (backend : Backend Srv) (fuel : nat)
    (id : string) (payload : gmap string value) (w : World Srv) :
  (∀ s' e a,
     databases_createDocument backend id payload (server w) = (s', Rejected e) →
     extractUnknownAttribute e = Some a →
     ¬ mandatory a →
     size (delete a payload) = 0%nat →
     createUserDocument backend (S fuel) id payload w
     = (forgot (moved w s') a, [CreateDocument id payload (Rejected e)],
        Thrown no_valid_fields))
  ∧ Forall nonempty_attempt
      (tail (createUserDocument backend fuel id payload w).1.2)
  ∧ (size payload = 0%nat →
     updateProfile_loop backend (S fuel) id payload w
     = match databases_getDocument backend id (server w) with
       | (s', Resolved existingDoc) =>
           (moved w s', [GetDocument id (Resolved existingDoc)],
            Returned (mapUserDocument existingDoc))
       | (s', Rejected e) =>
           (moved w s', [GetDocument id (Rejected e)], Thrown e)
       end)
  ∧ (∀ s' e a s'' existingDoc,
     size payload ≠ 0%nat →
     databases_updateDocument backend id payload (server w) = (s', Rejected e) →
     extractUnknownAttribute e = Some a →
     size (delete a payload) = 0%nat →
     databases_getDocument backend id s' = (s'', Resolved existingDoc) →
     updateProfile_loop backend (S (S fuel)) id payload w
     = (moved (forgot (moved w s') a) s'',
        [UpdateDocument id payload (Rejected e);
         GetDocument id (Resolved existingDoc)],
        Returned (mapUserDocument existingDoc)))
  ∧ (∀ env data s1 acct,
     auth_config_ok env →
     account_get backend (server w) = (s1, Resolved acct) →
     size (sanitizeUserUpdateData (USER_UPDATE_FIELDS w) data) = 0%nat →
     updateProfile backend env (S fuel) data w
     = match databases_getDocument backend (a_id acct)
               (updateName_outcome backend (get data "name") s1).1 with
       | (s', Resolved existingDoc) =>
           (moved w s',
            AccountGet (Resolved acct)
            :: (updateName_outcome backend (get data "name") s1).2
               ++ [GetDocument (a_id acct) (Resolved existingDoc)],
            Returned (mapUserDocument existingDoc))
       | (s', Rejected e) =>
           (moved w s',
            AccountGet (Resolved acct)
            :: (updateName_outcome backend (get data "name") s1).2
               ++ [GetDocument (a_id acct) (Rejected e)],
            Thrown (Error (or_else (message e)
                             "Profile update failed. Please try again.")))
       end)
  ∧ (∀ env data s1 acct s' e a s'' r,
     auth_config_ok env →
     account_get backend (server w) = (s1, Resolved acct) →
     size (sanitizeUserUpdateData (USER_UPDATE_FIELDS w) data) ≠ 0%nat →
     databases_updateDocument backend (a_id acct)
       (sanitizeUserUpdateData (USER_UPDATE_FIELDS w) data)
       (updateName_outcome backend (get data "name") s1).1
     = (s', Rejected e) →
     extractUnknownAttribute e = Some a →
     size (delete a (sanitizeUserUpdateData (USER_UPDATE_FIELDS w) data))
     = 0%nat →
     databases_getDocument backend (a_id acct) s' = (s'', r) →
     updateProfile backend env (S (S fuel)) data w
     = (moved (forgot (moved w s') a) s'',
        AccountGet (Resolved acct)
        :: (updateName_outcome backend (get data "name") s1).2
           ++ [UpdateDocument (a_id acct)
                 (sanitizeUserUpdateData (USER_UPDATE_FIELDS w) data)
                 (Rejected e);
               GetDocument (a_id acct) r],
        match r with
        | Resolved existingDoc => Returned (mapUserDocument existingDoc)
        | Rejected e' =>
            Thrown (Error (or_else (message e')
                             "Profile update failed. Please try again."))
        end)).
Proof.
  repeat apply conj.
  5:{ intros env data s1 acct Henv Hacc Hsize.
      rewrite (updateProfile_run _ _ _ _ _ _ _ Henv Hacc).
      rewrite (updateProfile_loop_empty _ _ _ _ _ Hsize). cbn [server moved].
      by destruct (databases_getDocument backend (a_id acct) _)
        as [s' [doc|e]]. }
  5:{ intros env data s1 acct s' e a s'' r Henv Hacc Hsize Hupdate He Hempty
        Hread.
      rewrite (updateProfile_run _ _ _ _ _ _ _ Henv Hacc).
      rewrite (updateProfile_loop_retry backend _ _ _
                 (moved w (updateName_outcome backend (get data "name") s1).1)
                 _ _ _ Hsize Hupdate He).
      rewrite (updateProfile_loop_empty _ _ _ _ _ Hempty).
      assert (server
                (forgot
                   (moved
                      (moved w
                         (updateName_outcome backend (get data "name") s1).1)
                      s') a) = s') as Hserver.
      { unfold forgot, forget_field. simpl.
        by destruct (isUserUpdatableField _ _). }
      rewrite Hserver, Hread. unfold after. by destruct r. }
  - intros. by eapply createUserDocument_emptied.
  - destruct fuel as [|fuel]; [constructor|].
    destruct (databases_createDocument backend id payload (server w))
      as [s' [doc|e]] eqn:Hcall.
    + rewrite (createUserDocument_resolved _ _ _ _ _ _ _ Hcall). constructor.
    + destruct (extractUnknownAttribute e) as [a|] eqn:He.
      * destruct (decide (mandatory a)) as [Ha|Ha].
        { rewrite (createUserDocument_mandatory _ _ _ _ _ _ _ _ Hcall He Ha).
          constructor. }
        destruct (decide (size (delete a payload) = 0%nat)) as [Hz|Hnz].
        { rewrite (createUserDocument_emptied _ _ _ _ _ _ _ _ Hcall He Ha Hz).
          constructor. }
        rewrite (createUserDocument_retry _ _ _ _ _ _ _ _ Hcall He Ha Hnz).
        simpl. by apply createUserDocument_attempts_nonempty.
      * rewrite (createUserDocument_other_error _ _ _ _ _ _ _ Hcall He).
        constructor.
  - apply updateProfile_loop_empty.
  - intros s' e a s'' existingDoc Hsize Hcall He Hz Hget.
    rewrite (updateProfile_loop_retry _ _ _ _ _ _ _ _ Hsize Hcall He).
    rewrite (updateProfile_loop_empty _ _ _ _ _ Hz).
    replace (server (forgot (moved w s') a)) with s'
      by (unfold forgot, forget_field; simpl; by case_match).
    by rewrite Hget.
Qed.

Lemma emptied_payload_witness :
  createUserDocument reference_backend 1 (a_id bob) {["bio" := VStr ""]}
    (world_of (drifted_server ["bio"]))
  = (forgot (moved (world_of (drifted_server ["bio"]))
               (drifted_server ["bio"])) "bio",
     [CreateDocument (a_id bob) {["bio" := VStr ""]}
        (Rejected (unknown_attribute "bio"))],
     Thrown no_valid_fields).
Proof.
  apply (proj1 (emptied_payload reference_backend 0 (a_id bob)
                  {["bio" := VStr ""]} (world_of (drifted_server ["bio"])))
           (drifted_server ["bio"]) (unknown_attribute "bio") "bio").
  - reflexivity.
  - reflexivity.
  - exact (bool_decide_eq_false_1 (mandatory "bio") eq_refl).
  - reflexivity.
Defined.

(** C3 as stated fails on update: when stripping [bio] empties the payload,
    [updateProfile] reads the existing document and returns its user. *)
Lemma update_emptied_returns_profile :
  omap write_attempt_keys update_bio_run.1.2
  = [(["bio"], Some (unknown_attribute "bio"))]
  ∧ update_bio_run.2 = Returned (mapUserDocument alice_doc).
Proof. split; by vm_compute. Qed.

(** ** The bound on the attempts of the writer *)

Lemma size_delete_named (payload : gmap string value) (a : string) :
  a ∈ dom payload → S (size (delete a payload)) = size payload.
Proof.
  intros [v Hv]%elem_of_dom. rewrite map_size_delete, Hv. simpl.
  assert (size payload ≠ 0%nat); [|lia].
  apply map_size_non_empty_iff. intros ->. by rewrite lookup_empty in Hv.
Qed.

Section Bound.
Context {Srv : Type} (backend : Backend Srv).

(** The chain of attempts, whatever the backend and the fuel. *)
Lemma createUserDocument_strips fuel id payload (w : World Srv) :
  strips_from payload
    (omap write_attempt (createUserDocument backend fuel id payload w).1.2).
Proof.
  revert payload w. induction fuel as [|fuel IH]; intros payload w; [done|].
  destruct (databases_createDocument backend id payload (server w))
    as [s' [doc|e]] eqn:Hcall.
  { rewrite (createUserDocument_resolved _ _ _ _ _ _ _ Hcall). simpl. by split. }
  destruct (extractUnknownAttribute e) as [a|] eqn:He.
  2:{ rewrite (createUserDocument_other_error _ _ _ _ _ _ _ Hcall He). simpl. by split. }
  destruct (decide (mandatory a)) as [Ha|Ha].
  { rewrite (createUserDocument_mandatory _ _ _ _ _ _ _ _ Hcall He Ha). simpl. by split. }
  destruct (decide (size (delete a payload) = 0%nat)) as [Hz|Hnz].
  { rewrite (createUserDocument_emptied _ _ _ _ _ _ _ _ Hcall He Ha Hz). simpl. by split. }
  rewrite (createUserDocument_retry _ _ _ _ _ _ _ _ Hcall He Ha Hnz).
  specialize (IH (delete a payload) (forgot (moved w s') a)).
  destruct (createUserDocument backend fuel id (delete a payload)
              (forgot (moved w s') a)) as [[w3 t3] r3].
  simpl in *. split; [done|].
  change (list_omap _ _ write_attempt t3) with (omap write_attempt t3).
  destruct (omap write_attempt t3) as [|next rest]; [done|].
  by exists e, a.
Qed.

Lemma updateProfile_loop_strips fuel id payload (w : World Srv) :
  strips_from payload
    (omap write_attempt (updateProfile_loop backend fuel id payload w).1.2).
Proof.
  revert payload w. induction fuel as [|fuel IH]; intros payload w; [done|].
  destruct (decide (size payload = 0%nat)) as [Hz|Hnz].
  { rewrite (updateProfile_loop_empty _ _ _ _ _ Hz).
    by destruct (databases_getDocument _ _ _) as [s' [doc|e]]; simpl. }
  destruct (databases_updateDocument backend id payload (server w))
    as [s' [doc|e]] eqn:Hcall.
  { rewrite (updateProfile_loop_resolved _ _ _ _ _ _ _ Hnz Hcall). simpl. by split. }
  destruct (extractUnknownAttribute e) as [a|] eqn:He.
  2:{ rewrite (updateProfile_loop_other_error _ _ _ _ _ _ _ Hnz Hcall He). simpl. by split. }
  rewrite (updateProfile_loop_retry _ _ _ _ _ _ _ _ Hnz Hcall He).
  specialize (IH (delete a payload) (forgot (moved w s') a)).
  destruct (updateProfile_loop backend fuel id (delete a payload)
              (forgot (moved w s') a)) as [[w3 t3] r3].
  simpl in *. split; [done|].
  change (list_omap _ _ write_attempt t3) with (omap write_attempt t3).
  destruct (omap write_attempt t3) as [|next rest]; [done|].
  by exists e, a.
Qed.

Context (Hnames : names_payload_fields backend).

Lemma createUserDocument_bound fuel id payload (w : World Srv) :
  (size payload < fuel)%nat →
  (createUserDocument backend fuel id payload w).2 ≠ OutOfFuel
  ∧ (length (createUserDocument backend fuel id payload w).1.2
     ≤ size payload + 1)%nat.
Proof.
  revert payload w. induction fuel as [|fuel IH]; intros payload w Hfuel;
    [lia|].
  destruct (databases_createDocument backend id payload (server w))
    as [s' [doc|e]] eqn:Hcall.
  { rewrite (createUserDocument_resolved _ _ _ _ _ _ _ Hcall). simpl.
    split; [done|lia]. }
  destruct (extractUnknownAttribute e) as [a|] eqn:He.
  2:{ rewrite (createUserDocument_other_error _ _ _ _ _ _ _ Hcall He). simpl.
      split; [done|lia]. }
  destruct (decide (mandatory a)) as [Ha|Ha].
  { rewrite (createUserDocument_mandatory _ _ _ _ _ _ _ _ Hcall He Ha). simpl.
    split; [done|lia]. }
  destruct (decide (size (delete a payload) = 0%nat)) as [Hz|Hnz].
  { rewrite (createUserDocument_emptied _ _ _ _ _ _ _ _ Hcall He Ha Hz). simpl.
    split; [done|lia]. }
  rewrite (createUserDocument_retry _ _ _ _ _ _ _ _ Hcall He Ha Hnz).
  pose proof (size_delete_named payload a
                (Hnames _ _ _ _ _ _ (or_introl Hcall) He)) as Hsize.
  destruct (IH (delete a payload) (forgot (moved w s') a)) as [Hend Hlen];
    [lia|].
  simpl. split; [done|lia].
Qed.

Lemma updateProfile_loop_bound fuel id payload (w : World Srv) :
  (size payload < fuel)%nat →
  (updateProfile_loop backend fuel id payload w).2 ≠ OutOfFuel
  ∧ (length (updateProfile_loop backend fuel id payload w).1.2
     ≤ size payload + 1)%nat.
Proof.
  revert payload w. induction fuel as [|fuel IH]; intros payload w Hfuel;
    [lia|].
  destruct (decide (size payload = 0%nat)) as [Hz|Hnz].
  { rewrite (updateProfile_loop_empty _ _ _ _ _ Hz).
    destruct (databases_getDocument _ _ _) as [s' [doc|e]]; simpl;
      (split; [done|lia]). }
  destruct (databases_updateDocument backend id payload (server w))
    as [s' [doc|e]] eqn:Hcall.
  { rewrite (updateProfile_loop_resolved _ _ _ _ _ _ _ Hnz Hcall). simpl.
    split; [done|lia]. }
  destruct (extractUnknownAttribute e) as [a|] eqn:He.
  2:{ rewrite (updateProfile_loop_other_error _ _ _ _ _ _ _ Hnz Hcall He).
      simpl. split; [done|lia]. }
  rewrite (updateProfile_loop_retry _ _ _ _ _ _ _ _ Hnz Hcall He).
  pose proof (size_delete_named payload a
                (Hnames _ _ _ _ _ _ (or_intror Hcall) He)) as Hsize.
  destruct (IH (delete a payload) (forgot (moved w s') a)) as [Hend Hlen];
    [lia|].
  simpl. split; [done|lia].
Qed.
End Bound.

(** Sequencing and catching, on runs. *)
Lemma updateProfile_bound {Srv} (backend : Backend Srv) (env : Env)
    (fuel : nat) (data : gmap string value) (w : World Srv) :
  names_payload_fields backend →
  (size (sanitizeUserUpdateData (USER_UPDATE_FIELDS w) data) < fuel)%nat →
  (updateProfile backend env fuel data w).2 ≠ OutOfFuel
  ∧ (length (List.filter document_call
               (updateProfile backend env fuel data w).1.2)
     ≤ size (sanitizeUserUpdateData (USER_UPDATE_FIELDS w) data) + 1)%nat.
Proof.
  intros Hnames Hfuel.
  set (bound := size (sanitizeUserUpdateData (USER_UPDATE_FIELDS w) data)).
  set (P := fun run : World Srv * list Event * Completion User =>
              run.2 ≠ OutOfFuel
              ∧ (length (List.filter document_call run.1.2) ≤ bound + 1)%nat).
  change (P (updateProfile backend env fuel data w)).
  unfold updateProfile.
  rewrite try_catch_run, bind_run.
  destruct (validateConfig_cases env w) as [-> | [e ->]].
  2:{ unfold P. simpl. split; [done|lia]. }
  rewrite bind_run. unfold await at 1.
  destruct (account_get backend (server w)) as [s1 [accountData|e]].
  2:{ unfold P. simpl. split; [done|lia]. }
  rewrite bind_run. fold (moved w s1).
  destruct (updateName_step backend (get data "name") (moved w s1))
    as (s2 & t2 & -> & Ht2).
  rewrite bind_run. unfold read_fields at 1.
  cbn [USER_UPDATE_FIELDS moved fst snd].
  set (w2 := moved (moved w s1) s2).
  change (USER_UPDATE_FIELDS w) with (USER_UPDATE_FIELDS w2) in *.
  destruct (updateProfile_loop_bound backend Hnames fuel (a_id accountData)
              (sanitizeUserUpdateData (USER_UPDATE_FIELDS w2) data) w2 Hfuel)
    as [Hend Hlen].
  destruct (updateProfile_loop backend fuel (a_id accountData)
              (sanitizeUserUpdateData (USER_UPDATE_FIELDS w2) data) w2)
    as [[w3 t3] r3].
  simpl in Hend, Hlen.
  assert (Hcount : (length (List.filter document_call t3) ≤ length t3)%nat)
    by apply List.filter_length_le.
  unfold P, bound.
  destruct r3; simpl; rewrite ?app_nil_r, ?List.filter_app, ?Ht2; simpl;
    (split; [done|lia]).
Qed.

(** C1, as the code has it. Against a backend that names, in the rejection
    of a write, only fields of the payload that write sent: for every payload
    of n fields and any fuel above n, the create loop and the update loop end
    by returning or throwing after at most n+1 calls on the backend (the update
    loop's final read of the existing document included), and so does
    [updateProfile] on the n fields that survive sanitizing. Against any
    backend, every attempt after the first follows a rejection that named an
    unknown attribute and is made with that attribute removed from the
    payload. *)
Theorem writer_attempt_bound {Srv} (backend : Backend Srv) (env : Env)
    (fuel : nat) (id : string) (payload : gmap string value) (w : World Srv) :
  (names_payload_fields backend →
   (size payload < fuel)%nat →
   (createUserDocument backend fuel id payload w).2 ≠ OutOfFuel
   ∧ (length (createUserDocument backend fuel id payload w).1.2
      ≤ size payload + 1)%nat
   ∧ (updateProfile_loop backend fuel id payload w).2 ≠ OutOfFuel
   ∧ (length (updateProfile_loop backend fuel id payload w).1.2
      ≤ size payload + 1)%nat)
  ∧ (names_payload_fields backend →
     (size (sanitizeUserUpdateData (USER_UPDATE_FIELDS w) payload) < fuel)%nat →
     (updateProfile backend env fuel payload w).2 ≠ OutOfFuel
     ∧ (length (List.filter document_call
                  (updateProfile backend env fuel payload w).1.2)
        ≤ size (sanitizeUserUpdateData (USER_UPDATE_FIELDS w) payload) + 1)%nat)
  ∧ strips_from payload
      (omap write_attempt (createUserDocument backend fuel id payload w).1.2)
  ∧ strips_from payload
      (omap write_attempt (updateProfile_loop backend fuel id payload w).1.2).
Proof.
  split; [|split; [|split]].
  - intros Hnames Hfuel.
    destruct (createUserDocument_bound backend Hnames fuel id payload w Hfuel).
    destruct (updateProfile_loop_bound backend Hnames fuel id payload w Hfuel).
    done.
  - intros Hnames Hfuel. by apply updateProfile_bound.
  - apply createUserDocument_strips.
  - apply updateProfile_loop_strips.
Qed.

Lemma first_unknown_in_payload (schema : gset string)
    (payload : gmap string value) (key : string) :
  first_unknown schema payload = Some key → key ∈ dom payload.
Proof.
  unfold first_unknown. intros [Hin _]%List.find_some.
  apply list_elem_of_In, list_elem_of_fmap in Hin as ([k v] & -> & Hkv).
  apply elem_of_map_to_list in Hkv. apply elem_of_dom. by exists v.
Qed.

Lemma reference_backend_names_payload_fields :
  names_payload_fields reference_backend.
Proof.
  intros id payload s s' e a Hcall He.
  assert (∃ key, first_unknown (users_schema s) payload = Some key
                 ∧ e = reject_unknown key) as (key & Hkey & ->).
  { destruct Hcall as [Hcall|Hcall]; simpl in Hcall;
      destruct (first_unknown (users_schema s) payload) as [key|] eqn:Hkey.
    - injection Hcall as _ <-. by exists key.
    - discriminate.
    - injection Hcall as _ <-. by exists key.
    - destruct (users s !! id); [discriminate|].
      injection Hcall as _ <-. by vm_compute in He. }
  apply first_unknown_in_payload in Hkey. unfold reject_unknown in He.
  case_bool_decide as Hclean; [|discriminate].
  rewrite Hclean in He. by injection He as <-.
Qed.

Lemma writer_attempt_bound_witness :
  ((createUserDocument reference_backend 6 (a_id alice) drifting_payload
      (world_of (drifted_server ["bio"; "website"]))).2 ≠ OutOfFuel
   ∧ (length (createUserDocument reference_backend 6 (a_id alice)
                drifting_payload
                (world_of (drifted_server ["bio"; "website"]))).1.2
      ≤ size drifting_payload + 1)%nat
   ∧ (updateProfile_loop reference_backend 6 (a_id alice) drifting_payload
        (world_of (drifted_server ["bio"; "website"]))).2 ≠ OutOfFuel
   ∧ (length (updateProfile_loop reference_backend 6 (a_id alice)
                drifting_payload
                (world_of (drifted_server ["bio"; "website"]))).1.2
      ≤ size drifting_payload + 1)%nat)
  ∧ omap write_attempt_keys
      (createUserDocument reference_backend 6 (a_id alice) drifting_payload
         (world_of (drifted_server ["bio"; "website"]))).1.2
    = [(["website"; "createdBy"; "email"; "name"; "bio"],
        Some (unknown_attribute "website"));
       (["createdBy"; "email"; "name"; "bio"],
        Some (unknown_attribute "bio"));
       (["createdBy"; "email"; "name"], None)]
  ∧ omap write_attempt_keys
      (updateProfile_loop reference_backend 6 (a_id alice) drifting_payload
         (world_of (drifted_server ["bio"; "website"]))).1.2
    = [(["website"; "createdBy"; "email"; "name"; "bio"],
        Some (unknown_attribute "website"));
       (["createdBy"; "email"; "name"; "bio"],
        Some (unknown_attribute "bio"));
       (["createdBy"; "email"; "name"], None)].
Proof.
  split; [|split; by vm_compute].
  apply (proj1 (writer_attempt_bound reference_backend sample_env 6
                  (a_id alice) drifting_payload
                  (world_of (drifted_server ["bio"; "website"])))).
  - exact reference_backend_names_payload_fields.
  - vm_compute. lia.
Defined.

Lemma stubborn_create (fuel : nat) :
  createUserDocument stubborn_backend fuel "u" {["email" := VStr "e"]}
    stubborn_world
  = (stubborn_world,
     replicate fuel
       (CreateDocument "u" {["email" := VStr "e"]}
          (Rejected (unknown_attribute "ghost"))),
     OutOfFuel).
Proof.
  induction fuel as [|fuel IH]; [done|].
  rewrite (createUserDocument_retry stubborn_backend fuel "u"
             {["email" := VStr "e"]} stubborn_world tt
             (unknown_attribute "ghost") "ghost").
  - replace (delete "ghost" ({["email" := VStr "e"]} : gmap string value))
      with ({["email" := VStr "e"]} : gmap string value) by by vm_compute.
    replace (forgot (moved stubborn_world ()) "ghost") with stubborn_world
      by by vm_compute.
    by rewrite IH.
  - done.
  - by vm_compute.
  - exact (bool_decide_eq_false_1 (mandatory "ghost") eq_refl).
  - by vm_compute.
Qed.

Lemma stubborn_update (fuel : nat) :
  updateProfile_loop stubborn_backend fuel "u" {["bio" := VStr "b"]}
    stubborn_world
  = (stubborn_world,
     replicate fuel
       (UpdateDocument "u" {["bio" := VStr "b"]}
          (Rejected (unknown_attribute "ghost"))),
     OutOfFuel).
Proof.
  induction fuel as [|fuel IH]; [done|].
  rewrite (updateProfile_loop_retry stubborn_backend fuel "u"
             {["bio" := VStr "b"]} stubborn_world tt
             (unknown_attribute "ghost") "ghost").
  - replace (delete "ghost" ({["bio" := VStr "b"]} : gmap string value))
      with ({["bio" := VStr "b"]} : gmap string value) by by vm_compute.
    replace (forgot (moved stubborn_world ()) "ghost") with stubborn_world
      by by vm_compute.
    by rewrite IH.
  - by vm_compute.
  - done.
  - by vm_compute.
Qed.

(** C1 as stated fails: when the backend names an attribute the payload
    does not have, nothing is removed and the same write is repeated; a
    payload of one field is sent more than twice, and no number of
    iterations ends either loop. *)
Lemma writer_attempts_unbounded :
  size ({["email" := VStr "e"]} : gmap string value) = 1%nat
  ∧ (createUserDocument stubborn_backend 5 "u" {["email" := VStr "e"]}
       stubborn_world).2 = OutOfFuel
  ∧ length (createUserDocument stubborn_backend 5 "u" {["email" := VStr "e"]}
              stubborn_world).1.2 = 5%nat
  ∧ (∀ fuel,
       (createUserDocument stubborn_backend fuel "u" {["email" := VStr "e"]}
          stubborn_world).2 = OutOfFuel
       ∧ length (createUserDocument stubborn_backend fuel "u"
                   {["email" := VStr "e"]} stubborn_world).1.2 = fuel
       ∧ (updateProfile_loop stubborn_backend fuel "u" {["bio" := VStr "b"]}
            stubborn_world).2 = OutOfFuel
       ∧ length (updateProfile_loop stubborn_backend fuel "u"
                   {["bio" := VStr "b"]} stubborn_world).1.2 = fuel).
Proof.
  split; [by vm_compute|]. rewrite (stubborn_create 5). simpl.
  split; [done|]. split; [done|].
  intros fuel. rewrite stubborn_create, stubborn_update. simpl.
  by rewrite !length_replicate.
Qed.

(** ** Profile reads *)

(** C9, as the code has it. With a complete configuration: when the backend
    rejects the read of the profile document with the not-found code 404,
    whatever the message, [getUserProfile] returns [null]. When it rejects
    the read of the current user's document, [getCurrentUser] looks at the
    message, not at the code: it returns [null] when the message is not one
    of the configuration failures, as the one of the document-not-found
    failure is not, and throws a configuration error when it is, as for the
    not-found answers that say that the collection or the database could not
    be found. *)
Theorem profile_not_found_is_null {Srv} (backend : Backend Srv) (env : Env)
    (w : World Srv) :
  auth_config_ok env →
  (∀ userId s' e,
     databases_getDocument backend userId (server w) = (s', Rejected e) →
     code e = Some 404 →
     getUserProfile backend env userId w
     = (moved w s', [GetDocument userId (Rejected e)], Returned None))
  ∧ (∀ s1 accountData s2 e,
     account_get backend (server w) = (s1, Resolved accountData) →
     databases_getDocument backend (a_id accountData) s1 = (s2, Rejected e) →
     configuration_failure e = false →
     getCurrentUser backend env w
     = (moved w s2,
        [AccountGet (Resolved accountData);
         GetDocument (a_id accountData) (Rejected e)],
        Returned None))
  ∧ configuration_failure document_not_found = false
  ∧ (∀ s1 accountData s2 e,
     account_get backend (server w) = (s1, Resolved accountData) →
     databases_getDocument backend (a_id accountData) s1 = (s2, Rejected e) →
     configuration_failure e = true →
     ∃ msg,
       getCurrentUser backend env w
       = (moved w s2,
          [AccountGet (Resolved accountData);
           GetDocument (a_id accountData) (Rejected e)],
          Thrown (Error msg))
       ∧ String.prefix "Configuration error: " msg = true)
  ∧ configuration_failure collection_not_found = true
  ∧ code collection_not_found = Some 404.
Proof.
  intros Henv. split; [|split; [|split; [done|split; [|done]]]].
  3:{ intros s1 accountData s2 e Hacc Hget Hcfg. unfold getCurrentUser.
      rewrite try_catch_run, bind_run, validateConfig_ok by done.
      rewrite bind_run. unfold await at 1. rewrite Hacc.
      rewrite bind_run. unfold await. simpl. rewrite Hget.
      unfold configuration_failure in Hcfg. simpl in Hcfg. simpl.
      destruct (negb (String.eqb (message e) "")); [|done]. simpl in *.
      destruct (includes (message e) "Missing required environment variables");
        [by eexists|].
      destruct (includes (message e)
                  "Collection with the requested ID could not be found");
        [by eexists|].
      destruct (includes (message e)
                  "Database with the requested ID could not be found");
        [by eexists|done]. }
  - intros userId s' e Hget Hcode. unfold getUserProfile.
    rewrite try_catch_run, bind_run, validateConfig_ok by done.
    rewrite bind_run. unfold await. rewrite Hget.
    unfold after. simpl. by rewrite Hcode.
  - intros s1 accountData s2 e Hacc Hget Hcfg. unfold getCurrentUser.
    rewrite try_catch_run, bind_run, validateConfig_ok by done.
    rewrite bind_run. unfold await at 1. rewrite Hacc.
    rewrite bind_run. unfold await. simpl. rewrite Hget.
    unfold configuration_failure in Hcfg. simpl in Hcfg. simpl.
    destruct (String.eqb (message e) "") eqn:Hmsg; simpl in *.
    + done.
    + apply orb_false_elim in Hcfg as [Hcfg H3].
      apply orb_false_elim in Hcfg as [H1 H2].
      by rewrite H1, H2, H3.
Qed.

Lemma profile_not_found_is_null_witness :
  getUserProfile reference_backend sample_env "nobody" (world_of sample_server)
  = (world_of sample_server,
     [GetDocument "nobody" (Rejected document_not_found)], Returned None).
Proof.
  apply (proj1 (profile_not_found_is_null reference_backend sample_env
                  (world_of sample_server)
                  ltac:(repeat split; discriminate))
           "nobody" sample_server document_not_found);
    reflexivity.
Defined.

(** C9 as stated fails for the current user's profile: when the backend
    answers the read with its 404 for a missing collection,
    [getUserProfile] returns [null] and [getCurrentUser] throws. *)
Lemma collection_not_found_throws :
  code collection_not_found = Some 404
  ∧ getUserProfile collectionless_backend sample_env (a_id alice)
      stubborn_world
    = (stubborn_world,
       [GetDocument (a_id alice) (Rejected collection_not_found)],
       Returned None)
  ∧ getCurrentUser collectionless_backend sample_env stubborn_world
    = (stubborn_world,
       [AccountGet (Resolved alice);
        GetDocument (a_id alice) (Rejected collection_not_found)],
       Thrown (Error "Configuration error: Collection 'users' not found in database 'main'. Please check your Appwrite configuration.")).
Proof. repeat split; by vm_compute. Qed.

(** ** The memory of unknown fields *)

Lemma tidy_mono (known known' : gset string) (ev : Event) :
  known ⊆ known' → tidy known ev → tidy known' ev.
Proof. destruct ev; simpl; set_solver. Qed.

Section Orderly.
Context {Srv : Type}.

Lemma orderly_ret {A} (w : World Srv) (a : A) : orderly_at w (mret a).
Proof. split; [done|constructor]. Qed.

Lemma orderly_throw {A} (w : World Srv) (e : JsError) :
  orderly_at w (throw e : M Srv A).
Proof. split; [done|constructor]. Qed.

Lemma orderly_out_of_fuel {A} (w : World Srv) :
  orderly_at w (out_of_fuel : M Srv A).
Proof. split; [done|constructor]. Qed.

Lemma orderly_forget (w : World Srv) (key : string) :
  orderly_at w (forget_field key).
Proof.
  split; [|constructor]. unfold forget_field. simpl.
  case_match; simpl; set_solver.
Qed.

Lemma orderly_await {A} (w : World Srv) (op : Srv → Srv * Response A)
    (ev : Response A → Event) :
  (∀ r, tidy (USER_UPDATE_FIELDS w) (ev r)) → orderly_at w (await op ev).
Proof.
  intros Hev. unfold orderly_at, await.
  destruct (op (server w)) as [s' r]. simpl. split; [done|].
  by repeat constructor.
Qed.

Lemma orderly_after {A} (w w1 : World Srv) (t1 : list Event) (c : M Srv A) :
  USER_UPDATE_FIELDS w1 ⊆ USER_UPDATE_FIELDS w →
  Forall (tidy (USER_UPDATE_FIELDS w)) t1 →
  orderly_at w1 c →
  USER_UPDATE_FIELDS (after t1 (c w1)).1.1 ⊆ USER_UPDATE_FIELDS w
  ∧ Forall (tidy (USER_UPDATE_FIELDS w)) (after t1 (c w1)).1.2.
Proof.
  intros Hsub Ht1 [Hshrink Htidy]. unfold after. simpl. split; [set_solver|].
  apply Forall_app. split; [done|].
  eapply Forall_impl; [done|]. intros ev. by apply tidy_mono.
Qed.

Lemma orderly_bind {A B} (w : World Srv) (c : M Srv A) (k : A → M Srv B) :
  orderly_at w c →
  (∀ w1 t1 a, c w = (w1, t1, Returned a) → orderly_at w1 (k a)) →
  orderly_at w (c ≫= k).
Proof.
  intros [Hshrink Htidy] Hk. unfold orderly_at. rewrite bind_run.
  destruct (c w) as [[w1 t1] [a|e|]] eqn:Hc; simpl in *; try done.
  apply orderly_after; [done|done|by eapply Hk].
Qed.

Lemma orderly_try_catch {A} (w : World Srv) (c : M Srv A)
    (h : JsError → M Srv A) :
  orderly_at w c →
  (∀ w1 t1 e, c w = (w1, t1, Thrown e) → orderly_at w1 (h e)) →
  orderly_at w (try_catch c h).
Proof.
  intros [Hshrink Htidy] Hh. unfold orderly_at. rewrite try_catch_run.
  destruct (c w) as [[w1 t1] [a|e|]] eqn:Hc; simpl in *; try done.
  apply orderly_after; [done|done|by eapply Hh].
Qed.
End Orderly.

(** One step of a proof that a computation built from the combinators is
    orderly. *)
Ltac orderly_step :=
  match goal with
  | |- orderly_at _ (mret _) => apply orderly_ret
  | |- orderly_at _ (throw _) => apply orderly_throw
  | |- orderly_at _ out_of_fuel => apply orderly_out_of_fuel
  | |- orderly_at _ (forget_field _) => apply orderly_forget
  | |- orderly_at _ (await _ _) => apply orderly_await; intros; exact I
  | |- orderly_at _ (_ ≫= _) => apply orderly_bind; [|intros ? ? ? ?]
  | |- orderly_at _ (try_catch _ _) => apply orderly_try_catch; [|intros ? ? ? ?]
  | |- orderly_at _ (if ?b then _ else _) => destruct b
  | |- orderly_at _ (match ?x with Some _ => _ | None => _ end) => destruct x
  end.

Lemma sanitizeUserUpdateData_dom (fields : gset string)
    (data : gmap string value) :
  dom (sanitizeUserUpdateData fields data) ⊆ fields.
Proof.
  intros key [v Hv]%elem_of_dom. unfold sanitizeUserUpdateData in Hv.
  rewrite map_lookup_imap in Hv. destruct (data !! key) as [x|]; [|done].
  simpl in Hv. unfold isUserUpdatableField in Hv.
  by case_bool_decide.
Qed.

Section OrderlyService.
Context {Srv : Type} (backend : Backend Srv) (env : Env).

Lemma orderly_validateConfig (w : World Srv) :
  orderly_at w (validateConfig env).
Proof.
  unfold orderly_at.
  destruct (validateConfig_cases env w) as [-> | [e ->]]; by split.
Qed.

Lemma orderly_createUserDocument fuel id payload (w : World Srv) :
  dom payload ⊆ USER_UPDATE_FIELDS w ∪ identity_fields →
  orderly_at w (createUserDocument backend fuel id payload).
Proof.
  revert payload w. induction fuel as [|fuel IH]; intros payload w Hdom.
  { apply orderly_out_of_fuel. }
  simpl. apply orderly_try_catch.
  { by apply orderly_await. }
  intros w1 t1 e Hcall. unfold await in Hcall.
  destruct (databases_createDocument _ _ _ _) as [s' r].
  injection Hcall as <- _ _.
  destruct (extractUnknownAttribute e) as [a|]; [|apply orderly_throw].
  case_bool_decide; [apply orderly_throw|].
  apply orderly_bind; [apply orderly_forget|].
  intros w2 t2 [] Hforget. case_bool_decide; [apply orderly_throw|].
  apply IH. unfold forget_field in Hforget.
  injection Hforget as <- _. rewrite dom_delete_L.
  case_match; simpl; [|set_solver].
  intros key Hkey. apply elem_of_difference in Hkey as [Hkey Hne].
  apply Hdom in Hkey. set_solver.
Qed.

Lemma orderly_updateProfile_loop fuel id payload (w : World Srv) :
  dom payload ⊆ USER_UPDATE_FIELDS w →
  orderly_at w (updateProfile_loop backend fuel id payload).
Proof.
  revert payload w. induction fuel as [|fuel IH]; intros payload w Hdom.
  { apply orderly_out_of_fuel. }
  simpl. case_bool_decide; [repeat orderly_step|].
  apply orderly_try_catch.
  { apply orderly_bind; [by apply orderly_await|]. intros. apply orderly_ret. }
  intros w1 t1 e Hcall. rewrite bind_run in Hcall. unfold await in Hcall.
  destruct (databases_updateDocument _ _ _ _) as [s' [doc|e']];
    [discriminate|].
  injection Hcall as <- _ _.
  destruct (extractUnknownAttribute e) as [a|]; [|apply orderly_throw].
  apply orderly_bind; [apply orderly_forget|].
  intros w2 t2 [] Hforget.
  apply IH. unfold forget_field in Hforget.
  injection Hforget as <- _. rewrite dom_delete_L.
  case_match; simpl; set_solver.
Qed.

End OrderlyService.

Lemma forgot_fields {Srv} (w : World Srv) (key : string) :
  USER_UPDATE_FIELDS (forgot w key) = USER_UPDATE_FIELDS w ∖ {[key]}.
Proof.
  unfold forgot, forget_field, isUserUpdatableField. simpl.
  case_bool_decide; simpl; set_solver.
Qed.

Section Forgotten.
Context {Srv : Type} (backend : Backend Srv).

Lemma createUserDocument_shrinks fuel id payload (w : World Srv) :
  USER_UPDATE_FIELDS (createUserDocument backend fuel id payload w).1.1
  ⊆ USER_UPDATE_FIELDS w.
Proof.
  revert payload w. induction fuel as [|fuel IH]; intros payload w; [done|].
  destruct (databases_createDocument backend id payload (server w))
    as [s' [doc|e]] eqn:Hcall.
  { by rewrite (createUserDocument_resolved _ _ _ _ _ _ _ Hcall). }
  destruct (extractUnknownAttribute e) as [a|] eqn:He.
  2:{ by rewrite (createUserDocument_other_error _ _ _ _ _ _ _ Hcall He). }
  destruct (decide (mandatory a)) as [Ha|Ha].
  { by rewrite (createUserDocument_mandatory _ _ _ _ _ _ _ _ Hcall He Ha). }
  destruct (decide (size (delete a payload) = 0%nat)) as [Hz|Hnz].
  { rewrite (createUserDocument_emptied _ _ _ _ _ _ _ _ Hcall He Ha Hz).
    simpl. rewrite forgot_fields. set_solver. }
  rewrite (createUserDocument_retry _ _ _ _ _ _ _ _ Hcall He Ha Hnz).
  simpl. etrans; [apply IH|]. rewrite forgot_fields. set_solver.
Qed.

Lemma updateProfile_loop_shrinks fuel id payload (w : World Srv) :
  USER_UPDATE_FIELDS (updateProfile_loop backend fuel id payload w).1.1
  ⊆ USER_UPDATE_FIELDS w.
Proof.
  revert payload w. induction fuel as [|fuel IH]; intros payload w; [done|].
  destruct (decide (size payload = 0%nat)) as [Hz|Hnz].
  { rewrite (updateProfile_loop_empty _ _ _ _ _ Hz).
    by destruct (databases_getDocument _ _ _) as [s' [doc|e]]. }
  destruct (databases_updateDocument backend id payload (server w))
    as [s' [doc|e]] eqn:Hcall.
  { by rewrite (updateProfile_loop_resolved _ _ _ _ _ _ _ Hnz Hcall). }
  destruct (extractUnknownAttribute e) as [a|] eqn:He.
  2:{ by rewrite (updateProfile_loop_other_error _ _ _ _ _ _ _ Hnz Hcall He). }
  rewrite (updateProfile_loop_retry _ _ _ _ _ _ _ _ Hnz Hcall He).
  simpl. etrans; [apply IH|]. rewrite forgot_fields. set_solver.
Qed.

(** A field that [createUserDocument] was told is unknown, and that is not
    an identity field, is no longer an updatable field when the loop ends. *)
Lemma createUserDocument_forgets fuel id payload (w : World Srv)
    id0 payload0 e a :
  CreateDocument id0 payload0 (Rejected e)
  ∈ (createUserDocument backend fuel id payload w).1.2 →
  extractUnknownAttribute e = Some a →
  ¬ mandatory a →
  a ∉ USER_UPDATE_FIELDS (createUserDocument backend fuel id payload w).1.1.
Proof.
  revert payload w. induction fuel as [|fuel IH]; intros payload w Hin He Ha.
  { by apply elem_of_nil in Hin. }
  destruct (databases_createDocument backend id payload (server w))
    as [s' [doc|e1]] eqn:Hcall.
  { rewrite (createUserDocument_resolved _ _ _ _ _ _ _ Hcall) in Hin.
    by apply list_elem_of_singleton in Hin. }
  destruct (extractUnknownAttribute e1) as [a1|] eqn:He1.
  2:{ rewrite (createUserDocument_other_error _ _ _ _ _ _ _ Hcall He1) in Hin.
      apply list_elem_of_singleton in Hin. congruence. }
  destruct (decide (mandatory a1)) as [Ha1|Ha1].
  { rewrite (createUserDocument_mandatory _ _ _ _ _ _ _ _ Hcall He1 Ha1) in Hin.
    apply list_elem_of_singleton in Hin. congruence. }
  destruct (decide (size (delete a1 payload) = 0%nat)) as [Hz|Hnz].
  { rewrite (createUserDocument_emptied _ _ _ _ _ _ _ _ Hcall He1 Ha1 Hz)
      in Hin |- *.
    apply list_elem_of_singleton in Hin. simpl. rewrite forgot_fields.
    assert (a = a1) by congruence. set_solver. }
  rewrite (createUserDocument_retry _ _ _ _ _ _ _ _ Hcall He1 Ha1 Hnz)
    in Hin |- *.
  simpl in Hin |- *. apply elem_of_cons in Hin as [Heq|Hin].
  - assert (a = a1) as -> by congruence.
    intros Hmem. apply createUserDocument_shrinks in Hmem.
    rewrite forgot_fields in Hmem. set_solver.
  - by apply IH.
Qed.

(** A field that the loop of [updateProfile] was told is unknown is no
    longer an updatable field when the loop ends. *)
Lemma updateProfile_loop_forgets fuel id payload (w : World Srv)
    id0 payload0 e a :
  UpdateDocument id0 payload0 (Rejected e)
  ∈ (updateProfile_loop backend fuel id payload w).1.2 →
  extractUnknownAttribute e = Some a →
  a ∉ USER_UPDATE_FIELDS (updateProfile_loop backend fuel id payload w).1.1.
Proof.
  revert payload w. induction fuel as [|fuel IH]; intros payload w Hin He.
  { by apply elem_of_nil in Hin. }
  destruct (decide (size payload = 0%nat)) as [Hz|Hnz].
  { rewrite (updateProfile_loop_empty _ _ _ _ _ Hz) in Hin.
    destruct (databases_getDocument _ _ _) as [s' [doc|e1]];
      by apply list_elem_of_singleton in Hin. }
  destruct (databases_updateDocument backend id payload (server w))
    as [s' [doc|e1]] eqn:Hcall.
  { rewrite (updateProfile_loop_resolved _ _ _ _ _ _ _ Hnz Hcall) in Hin.
    by apply list_elem_of_singleton in Hin. }
  destruct (extractUnknownAttribute e1) as [a1|] eqn:He1.
  2:{ rewrite (updateProfile_loop_other_error _ _ _ _ _ _ _ Hnz Hcall He1)
        in Hin.
      apply list_elem_of_singleton in Hin. congruence. }
  rewrite (updateProfile_loop_retry _ _ _ _ _ _ _ _ Hnz Hcall He1) in Hin |- *.
  simpl in Hin |- *. apply elem_of_cons in Hin as [Heq|Hin].
  - assert (a = a1) as -> by congruence.
    intros Hmem. apply updateProfile_loop_shrinks in Hmem.
    rewrite forgot_fields in Hmem. set_solver.
  - by apply IH.
Qed.
(** [createUserDocument] makes no call but [createDocument]; the loop of
    [updateProfile] never calls it. *)
Lemma createUserDocument_events fuel id payload (w : World Srv) ev :
  ev ∈ (createUserDocument backend fuel id payload w).1.2 →
  ∃ id0 payload0 r, ev = CreateDocument id0 payload0 r.
Proof.
  revert payload w. induction fuel as [|fuel IH]; intros payload w Hin.
  { by apply elem_of_nil in Hin. }
  destruct (databases_createDocument backend id payload (server w))
    as [s' [doc|e1]] eqn:Hcall.
  { rewrite (createUserDocument_resolved _ _ _ _ _ _ _ Hcall) in Hin.
    apply list_elem_of_singleton in Hin. by eexists _, _, _. }
  destruct (extractUnknownAttribute e1) as [a1|] eqn:He1.
  2:{ rewrite (createUserDocument_other_error _ _ _ _ _ _ _ Hcall He1) in Hin.
      apply list_elem_of_singleton in Hin. by eexists _, _, _. }
  destruct (decide (mandatory a1)) as [Ha1|Ha1].
  { rewrite (createUserDocument_mandatory _ _ _ _ _ _ _ _ Hcall He1 Ha1) in Hin.
    apply list_elem_of_singleton in Hin. by eexists _, _, _. }
  destruct (decide (size (delete a1 payload) = 0%nat)) as [Hz|Hnz].
  { rewrite (createUserDocument_emptied _ _ _ _ _ _ _ _ Hcall He1 Ha1 Hz)
      in Hin.
    apply list_elem_of_singleton in Hin. by eexists _, _, _. }
  rewrite (createUserDocument_retry _ _ _ _ _ _ _ _ Hcall He1 Ha1 Hnz) in Hin.
  simpl in Hin. apply elem_of_cons in Hin as [Heq|Hin].
  - by eexists _, _, _.
  - by eapply IH.
Qed.

Lemma updateProfile_loop_events fuel id payload (w : World Srv) ev :
  ev ∈ (updateProfile_loop backend fuel id payload w).1.2 →
  ∀ id0 payload0 r, ev ≠ CreateDocument id0 payload0 r.
Proof.
  revert payload w. induction fuel as [|fuel IH]; intros payload w Hin.
  { by apply elem_of_nil in Hin. }
  destruct (decide (size payload = 0%nat)) as [Hz|Hnz].
  { rewrite (updateProfile_loop_empty _ _ _ _ _ Hz) in Hin.
    destruct (databases_getDocument _ _ _) as [s' [doc|e1]];
      apply list_elem_of_singleton in Hin as ->; done. }
  destruct (databases_updateDocument backend id payload (server w))
    as [s' [doc|e1]] eqn:Hcall.
  { rewrite (updateProfile_loop_resolved _ _ _ _ _ _ _ Hnz Hcall) in Hin.
    by apply list_elem_of_singleton in Hin as ->. }
  destruct (extractUnknownAttribute e1) as [a1|] eqn:He1.
  2:{ rewrite (updateProfile_loop_other_error _ _ _ _ _ _ _ Hnz Hcall He1)
        in Hin.
      by apply list_elem_of_singleton in Hin as ->. }
  rewrite (updateProfile_loop_retry _ _ _ _ _ _ _ _ Hnz Hcall He1) in Hin.
  simpl in Hin. apply elem_of_cons in Hin as [->|Hin]; [done|].
  by eapply IH.
Qed.
End Forgotten.

Section Mindful.
Context {Srv : Type}.

Lemma mindful_quiet {A} (w : World Srv) (c : M Srv A) :
  orderly_at w c → (c w).1.2 = [] → mindful_at w c.
Proof.
  intros Hc Ht. split; [done|]. intros a ev Hin. rewrite Ht in Hin.
  by apply elem_of_nil in Hin.
Qed.

Lemma mindful_ret {A} (w : World Srv) (a : A) : mindful_at w (mret a).
Proof. by apply mindful_quiet; [apply orderly_ret|]. Qed.

Lemma mindful_throw {A} (w : World Srv) (e : JsError) :
  mindful_at w (throw e : M Srv A).
Proof. by apply mindful_quiet; [apply orderly_throw|]. Qed.

Lemma mindful_read_fields (w : World Srv) : mindful_at w read_fields.
Proof. apply mindful_quiet; [|done]. split; [done|constructor]. Qed.

Lemma mindful_await {A} (w : World Srv) (op : Srv → Srv * Response A)
    (ev : Response A → Event) :
  (∀ r, write_attempt (ev r) = None) → mindful_at w (await op ev).
Proof.
  intros Hev. split.
  - apply orderly_await. intros r. specialize (Hev r). by destruct (ev r).
  - intros a ev' Hin Hdisc. unfold await in Hin.
    destruct (op (server w)) as [s' r]. simpl in Hin.
    apply list_elem_of_singleton in Hin as ->.
    specialize (Hev r). by destruct (ev r).
Qed.

Lemma mindful_after {A} (w1 : World Srv) (t1 : list Event) (c : M Srv A) :
  (∀ a ev, ev ∈ t1 → discovered a ev → a ∉ USER_UPDATE_FIELDS w1) →
  mindful_at w1 c →
  ∀ a ev, ev ∈ (after t1 (c w1)).1.2 → discovered a ev →
          a ∉ USER_UPDATE_FIELDS (after t1 (c w1)).1.1.
Proof.
  intros Ht1 [[Hshrink _] Hforget] a ev Hin Hdisc. unfold after in *.
  simpl in *. apply elem_of_app in Hin as [Hin|Hin].
  - specialize (Ht1 a ev Hin Hdisc). set_solver.
  - by eapply Hforget.
Qed.

Lemma mindful_bind {A B} (w : World Srv) (c : M Srv A) (k : A → M Srv B) :
  mindful_at w c →
  (∀ w1 t1 a, c w = (w1, t1, Returned a) → mindful_at w1 (k a)) →
  mindful_at w (c ≫= k).
Proof.
  intros [Hc Hforget] Hk. split.
  - apply orderly_bind; [done|]. intros. by eapply Hk.
  - rewrite bind_run.
    destruct (c w) as [[w1 t1] [a|e|]] eqn:Hcw; simpl in *; try done.
    apply (mindful_after _ _ _ Hforget). by eapply Hk.
Qed.

Lemma mindful_try_catch {A} (w : World Srv) (c : M Srv A)
    (h : JsError → M Srv A) :
  mindful_at w c →
  (∀ w1 t1 e, c w = (w1, t1, Thrown e) → mindful_at w1 (h e)) →
  mindful_at w (try_catch c h).
Proof.
  intros [Hc Hforget] Hh. split.
  - apply orderly_try_catch; [done|]. intros. by eapply Hh.
  - rewrite try_catch_run.
    destruct (c w) as [[w1 t1] [a|e|]] eqn:Hcw; simpl in *; try done.
    apply (mindful_after _ _ _ Hforget). by eapply Hh.
Qed.
End Mindful.

(** One step of a proof that a computation built from the combinators is
    mindful. *)
Ltac mindful_step :=
  match goal with
  | |- mindful_at _ (mret _) => apply mindful_ret
  | |- mindful_at _ (throw _) => apply mindful_throw
  | |- mindful_at _ read_fields => apply mindful_read_fields
  | |- mindful_at _ (await _ _) => apply mindful_await; intros; reflexivity
  | |- mindful_at _ (_ ≫= _) => apply mindful_bind; [|intros ? ? ? ?]
  | |- mindful_at _ (try_catch _ _) => apply mindful_try_catch; [|intros ? ? ? ?]
  | |- mindful_at _ (if ?b then _ else _) => destruct b
  | |- mindful_at _ (match ?x with Some _ => _ | None => _ end) => destruct x
  end.

Section MindfulService.
Context {Srv : Type} (backend : Backend Srv) (env : Env).

Lemma mindful_validateConfig (w : World Srv) :
  mindful_at w (validateConfig env).
Proof.
  apply mindful_quiet; [apply orderly_validateConfig|].
  by destruct (validateConfig_cases env w) as [-> | [e ->]].
Qed.

Lemma mindful_createUserDocument fuel id payload (w : World Srv) :
  dom payload ⊆ USER_UPDATE_FIELDS w ∪ identity_fields →
  mindful_at w (createUserDocument backend fuel id payload).
Proof.
  intros Hdom. split; [by apply orderly_createUserDocument|].
  intros a ev Hin Hdisc.
  destruct (createUserDocument_events _ _ _ _ _ _ Hin) as (id0 & p0 & r & ->).
  destruct r as [|e]; [done|].
  destruct Hdisc as [He Ha]. by eapply createUserDocument_forgets.
Qed.

Lemma mindful_updateProfile_loop fuel id payload (w : World Srv) :
  dom payload ⊆ USER_UPDATE_FIELDS w →
  mindful_at w (updateProfile_loop backend fuel id payload).
Proof.
  intros Hdom. split; [by apply orderly_updateProfile_loop|].
  intros a ev Hin Hdisc.
  pose proof (updateProfile_loop_events _ _ _ _ _ _ Hin) as Hshape.
  destruct ev; try done.
  - by destruct (Hshape id0 payload0 r).
  - destruct r as [|e]; [done|]. by eapply updateProfile_loop_forgets.
Qed.

Lemma mindful_isLoggedIn (w : World Srv) : mindful_at w (isLoggedIn backend).
Proof. unfold isLoggedIn. repeat mindful_step. Qed.

Lemma mindful_logoutAllSessions (w : World Srv) :
  mindful_at w (logoutAllSessions backend).
Proof. unfold logoutAllSessions. repeat mindful_step. Qed.

Lemma mindful_getCurrentUser (w : World Srv) :
  mindful_at w (getCurrentUser backend env).
Proof.
  unfold getCurrentUser. mindful_step.
  - mindful_step; [apply mindful_validateConfig|]. repeat mindful_step.
  - repeat mindful_step.
Qed.

Lemma mindful_getUserProfile userId (w : World Srv) :
  mindful_at w (getUserProfile backend env userId).
Proof.
  unfold getUserProfile. mindful_step.
  - mindful_step; [apply mindful_validateConfig|]. repeat mindful_step.
  - repeat mindful_step.
Qed.
End MindfulService.

Lemma read_fields_returned {Srv} (w w1 : World Srv) (t1 : list Event)
    (fields : gset string) :
  read_fields w = (w1, t1, Returned fields) →
  w1 = w ∧ fields = USER_UPDATE_FIELDS w.
Proof. unfold read_fields. by intros [= <- _ <-]. Qed.

Lemma dom_identity_payload (a : Account) :
  dom (identity_payload a) = identity_fields.
Proof.
  unfold identity_payload, identity_fields. simpl.
  rewrite !dom_insert_L, dom_empty_L. set_solver.
Qed.

Section MindfulSession.
Context {Srv : Type} (backend : Backend Srv) (env : Env) (fuel : nat).

Lemma mindful_updateProfile data (w : World Srv) :
  mindful_at w (updateProfile backend env fuel data).
Proof.
  unfold updateProfile. mindful_step; [|repeat mindful_step].
  mindful_step; [apply mindful_validateConfig|].
  mindful_step; [repeat mindful_step|].
  mindful_step; [repeat mindful_step|].
  mindful_step; [apply mindful_read_fields|].
  match goal with H : read_fields _ = _ |- _ =>
    apply read_fields_returned in H as [-> ->] end.
  apply mindful_updateProfile_loop, sanitizeUserUpdateData_dom.
Qed.

Lemma mindful_register email password name (w : World Srv) :
  mindful_at w (register backend env fuel email password name).
Proof.
  unfold register. mindful_step; [|repeat mindful_step].
  mindful_step; [apply mindful_validateConfig|].
  mindful_step; [repeat mindful_step|].
  mindful_step; [apply mindful_read_fields|].
  match goal with H : read_fields _ = _ |- _ =>
    apply read_fields_returned in H as [-> ->] end.
  mindful_step; [|repeat mindful_step].
  apply mindful_createUserDocument.
  rewrite dom_union_L.
  match goal with |- context [sanitizeUserUpdateData ?known ?data] =>
    pose proof (sanitizeUserUpdateData_dom known data) as Hdom end.
  apply union_least.
  { etrans; [exact Hdom|]. apply union_subseteq_l. }
  clear Hdom. etrans; [|apply union_subseteq_r].
  simpl. rewrite !dom_insert_L, dom_empty_L. unfold identity_fields. simpl.
  set_solver.
Qed.

Lemma mindful_login_establish email password (w : World Srv) :
  mindful_at w (login_establish backend env fuel email password).
Proof.
  unfold login_establish.
  mindful_step; [repeat mindful_step|].
  mindful_step; [apply mindful_getCurrentUser|].
  mindful_step; [apply mindful_ret|].
  mindful_step; [|repeat mindful_step].
  mindful_step; [repeat mindful_step|].
  mindful_step.
  - apply mindful_createUserDocument.
    match goal with |- context [VStr (a_email ?acct)] =>
      fold (identity_payload acct) end.
    rewrite dom_identity_payload. set_solver.
  - mindful_step; [apply mindful_getCurrentUser|]. repeat mindful_step.
Qed.

Lemma mindful_login email password (w : World Srv) :
  mindful_at w (login backend env fuel email password).
Proof.
  unfold login. mindful_step; [|repeat mindful_step].
  mindful_step; [apply mindful_isLoggedIn|].
  mindful_step; [|apply mindful_login_establish].
  mindful_step; [apply mindful_getCurrentUser|].
  mindful_step.
  - mindful_step; [apply mindful_ret|].
    mindful_step; [|apply mindful_login_establish].
    mindful_step; [apply mindful_logoutAllSessions|]. apply mindful_ret.
  - mindful_step; [|apply mindful_login_establish].
    mindful_step; [apply mindful_logoutAllSessions|]. apply mindful_ret.
Qed.

Lemma mindful_run_call (c : Call) (w : World Srv) :
  mindful_at w (run_call backend env fuel c).
Proof.
  unfold run_call. mindful_step; [|apply mindful_ret].
  destruct c.
  - mindful_step; [apply mindful_login|apply mindful_ret].
  - mindful_step; [apply mindful_register|apply mindful_ret].
  - mindful_step; [apply mindful_updateProfile|apply mindful_ret].
  - mindful_step; [apply mindful_getCurrentUser|apply mindful_ret].
  - mindful_step; [apply mindful_getUserProfile|apply mindful_ret].
  - apply mindful_logoutAllSessions.
Qed.

Lemma mindful_run_session (calls : list Call) (w : World Srv) :
  mindful_at w (run_session backend env fuel calls).
Proof.
  revert w. induction calls as [|c rest IH]; intros w; simpl.
  - apply mindful_ret.
  - mindful_step; [apply mindful_run_call|apply IH].
Qed.
End MindfulSession.

(** C8, as the code has it. Once a write of a session was told that a field
    is unknown and the writer strips such a field (any field on update, any
    field but [name], [email] and [createdBy] on create), the field is no
    longer in the set of updatable fields, it stays out of it for the rest
    of the session, no later update of the session sends it, and no later
    create sends it unless it is one of the identity fields, which a create
    always sends. *)
Theorem unknown_field_forgotten {Srv} (backend : Backend Srv) (env : Env)
    (fuel : nat) (calls later : list Call) (w : World Srv) (a : string)
    (ev : Event) :
  ev ∈ (run_session backend env fuel calls w).1.2 →
  discovered a ev →
  (a ∉ USER_UPDATE_FIELDS (run_session backend env fuel calls w).1.1)
  ∧ (a ∉ USER_UPDATE_FIELDS
        (run_session backend env fuel later
           (run_session backend env fuel calls w).1.1).1.1)
  ∧ (∀ id payload r,
      (UpdateDocument id payload r
       ∈ (run_session backend env fuel later
            (run_session backend env fuel calls w).1.1).1.2 →
       a ∉ dom payload)
      ∧ (CreateDocument id payload r
         ∈ (run_session backend env fuel later
              (run_session backend env fuel calls w).1.1).1.2 →
         a ∈ dom payload → mandatory a)).
Proof.
  intros Hin Hdisc.
  destruct (mindful_run_session backend env fuel calls w) as [_ Hforget].
  pose proof (Hforget a ev Hin Hdisc) as Hout.
  destruct (mindful_run_session backend env fuel later
              (run_session backend env fuel calls w).1.1)
    as [[Hshrink Htidy] _].
  split; [done|]. split; [set_solver|].
  intros id payload r. rewrite Forall_forall in Htidy. split.
  - intros Hlater Hdom. apply Htidy in Hlater. simpl in Hlater. set_solver.
  - intros Hlater Hdom. apply Htidy in Hlater. simpl in Hlater.
    apply Hlater in Hdom. apply elem_of_union in Hdom as [Hdom|Hdom]; [done|].
    unfold mandatory, identity_fields in *. set_solver.
Qed.

Lemma unknown_field_forgotten_witness :
  ("bio" ∉ USER_UPDATE_FIELDS
            (run_session reference_backend sample_env 10 bio_update
               (world_of (drifted_server ["bio"]))).1.1)
  ∧ ("bio" ∉ USER_UPDATE_FIELDS
        (run_session reference_backend sample_env 10 bio_website_update
           (run_session reference_backend sample_env 10 bio_update
              (world_of (drifted_server ["bio"]))).1.1).1.1)
  ∧ (∀ id payload r,
      (UpdateDocument id payload r
       ∈ (run_session reference_backend sample_env 10 bio_website_update
            (run_session reference_backend sample_env 10 bio_update
               (world_of (drifted_server ["bio"]))).1.1).1.2 →
       "bio" ∉ dom payload)
      ∧ (CreateDocument id payload r
         ∈ (run_session reference_backend sample_env 10 bio_website_update
              (run_session reference_backend sample_env 10 bio_update
                 (world_of (drifted_server ["bio"]))).1.1).1.2 →
         "bio" ∈ dom payload → mandatory "bio")).
Proof.
  apply (unknown_field_forgotten reference_backend sample_env 10
           bio_update bio_website_update (world_of (drifted_server ["bio"]))
           "bio"
           (UpdateDocument (a_id alice) {["bio" := VStr "hi"]}
              (Rejected (unknown_attribute "bio")))).
  - vm_compute. apply list_elem_of_further, list_elem_of_here.
  - reflexivity.
Defined.

(** C8 as stated fails: a create that is told [name] is unknown propagates
    the failure and leaves [name] among the updatable fields; the next
    update of the session sends [name] again. *)
Lemma mandatory_field_not_forgotten :
  snd <$> omap write_attempt_keys
    (run_session reference_backend sample_env 20 register_carol
       (world_of (drifted_server ["name"]))).1.2
  = [Some (unknown_attribute "name")]
  ∧ "name" ∈ USER_UPDATE_FIELDS
       (run_session reference_backend sample_env 20 register_carol
          (world_of (drifted_server ["name"]))).1.1
  ∧ omap write_attempt_keys
      (run_session reference_backend sample_env 20 rename_alice
         (run_session reference_backend sample_env 20 register_carol
            (world_of (drifted_server ["name"]))).1.1).1.2
    = [(["name"], Some (unknown_attribute "name"))].
Proof. split; [|split]; by vm_compute. Qed.

(** ** Login *)

Section Login.
Context {Srv : Type} (backend : Backend Srv) (env : Env).

Lemma isLoggedIn_run (w : World Srv) :
  isLoggedIn backend w
  = (moved w (account_get backend (server w)).1,
     [AccountGet (account_get backend (server w)).2],
     Returned match (account_get backend (server w)).2 with
              | Resolved _ => true
              | Rejected _ => false
              end).
Proof.
  unfold isLoggedIn. rewrite try_catch_run, bind_run. unfold await.
  by destruct (account_get backend (server w)) as [s1 [acct|e]].
Qed.

(** The deletion of all sessions as [login] runs it: whatever the backend
    answers, the failure is dropped and [login] goes on. *)
Lemma logout_ignored (w : World Srv) :
  try_catch (logoutAllSessions backend) (fun _ => mret tt) w
  = (moved w (account_deleteSessions backend (server w)).1,
     [DeleteSessions (account_deleteSessions backend (server w)).2],
     Returned tt).
Proof.
  rewrite try_catch_run. unfold logoutAllSessions. rewrite try_catch_run.
  unfold await.
  destruct (account_deleteSessions backend (server w)) as [s1 [[]|e]];
    [done|].
  simpl. by destruct (_ && _).
Qed.

(** The outer handler of [login] adds no call. *)
Lemma login_handler_trace {A} (body : M Srv A) (h : JsError → M Srv A)
    (w : World Srv) :
  (∀ e w1, (h e w1).1.2 = []) →
  (try_catch body h w).1.2 = (body w).1.2.
Proof.
  intros Hh. rewrite try_catch_run.
  destruct (body w) as [[w1 t1] [a|e|]]; try done.
  unfold after. simpl. by rewrite Hh, app_nil_r.
Qed.
Lemma getCurrentUser_reads (w : World Srv) :
  Forall (fun ev => session_call ev = false) (getCurrentUser backend env w).1.2.
Proof.
  unfold getCurrentUser. rewrite login_handler_trace.
  2:{ intros e w1.
      repeat match goal with
             | |- context [if ?b then _ else _] => destruct b
             end; reflexivity. }
  rewrite bind_run.
  destruct (validateConfig_cases env w) as [-> | [e ->]]; [|constructor].
  rewrite bind_run. unfold await at 1.
  destruct (account_get backend (server w)) as [s1 [acct|e]];
    [|by repeat constructor].
  rewrite bind_run. unfold await. cbn [server].
  destruct (databases_getDocument backend (a_id acct) s1) as [s2 [doc|e]];
    by repeat constructor.
Qed.

Lemma login_establish_starts fuel email password (w : World Srv) :
  ∃ rest,
    (login_establish backend env fuel email password w).1.2
    = CreateEmailPasswordSession email password
        (account_createEmailPasswordSession backend email password
           (server w)).2
      :: rest.
Proof.
  unfold login_establish. rewrite bind_run. unfold await at 1.
  destruct (account_createEmailPasswordSession backend email password
              (server w)) as [s1 [[]|e]]; simpl.
  - by eexists.
  - by eexists.
Qed.

End Login.

(** [getCurrentUser] has no loop: it returns or throws. *)
Lemma getCurrentUser_ends {Srv} (backend : Backend Srv) (env : Env)
    (w : World Srv) :
  (getCurrentUser backend env w).2 ≠ OutOfFuel.
Proof.
  unfold getCurrentUser. rewrite try_catch_run.
  match goal with
  | |- context [match ?body w with _ => _ end] =>
      destruct (body w) as [[w1 t1] [user|e|]] eqn:Hbody
  end.
  - done.
  - unfold after, throw. by repeat case_match.
  - exfalso. revert Hbody. rewrite bind_run.
    destruct (validateConfig_cases env w) as [-> | [e ->]]; [|done].
    rewrite bind_run. unfold await at 1.
    destruct (account_get backend (server w)) as [s1 [acct|e]]; [|done].
    rewrite bind_run. unfold await. cbn [server].
    by destruct (databases_getDocument backend (a_id acct) s1)
      as [s2 [doc|e]].
Qed.

(** C7, as the code has it. When a session is active ([account.get]
    resolves), [login] reads the profile of the current user, which returns
    or throws. If it returns a profile whose email is the one given,
    [login] returns it and makes no call that creates or deletes a session;
    if it returns another profile or none, [login] first asks the backend
    to delete all sessions and then, whatever the answer to that request,
    creates the new session; if it throws (a variable of the configuration
    is unset, or the collection or the database is not found), [login]
    throws as well, and makes no call that creates or deletes a session. *)
Theorem login_session_policy {Srv} (backend : Backend Srv) (env : Env)
    (fuel : nat) (email password : string) (w : World Srv) (s1 : Srv)
    (accountData : Account) (w2 : World Srv) (t2 : list Event)
    (outcome : Completion (option User)) :
  account_get backend (server w) = (s1, Resolved accountData) →
  getCurrentUser backend env (moved w s1) = (w2, t2, outcome) →
  Forall (fun ev => session_call ev = false)
    (AccountGet (Resolved accountData) :: t2)
  ∧ outcome ≠ OutOfFuel
  ∧ (∀ currentUser,
     outcome = Returned currentUser →
     same_user currentUser email = true →
     ∃ user,
       currentUser = Some user
       ∧ login backend env fuel email password w
         = (w2, AccountGet (Resolved accountData) :: t2, Returned user))
  ∧ (∀ currentUser,
     outcome = Returned currentUser →
     same_user currentUser email = false →
     ∃ rest,
       (login backend env fuel email password w).1.2
       = ((AccountGet (Resolved accountData) :: t2)
          ++ DeleteSessions (account_deleteSessions backend (server w2)).2
          :: CreateEmailPasswordSession email password
               (account_createEmailPasswordSession backend email password
                  (account_deleteSessions backend (server w2)).1).2
          :: rest)%list)
  ∧ (∀ e,
     outcome = Thrown e →
     ∃ e',
       login backend env fuel email password w
       = (w2, AccountGet (Resolved accountData) :: t2, Thrown e')
       ∧ (e' = Error "Session conflict detected. Please try again."
          ∨ e' = Error (or_else (message e)
                          "Login failed. Please try again."))).
Proof.
  intros Hacc Hcurrent.
  assert (Hbody : ∀ k : option User → M Srv User,
    (isLoggedIn backend ≫= fun loggedIn : bool =>
       if loggedIn then getCurrentUser backend env ≫= k
       else login_establish backend env fuel email password) w
    = match outcome with
      | Returned currentUser =>
          after (AccountGet (Resolved accountData) :: t2) (k currentUser w2)
      | Thrown e => (w2, AccountGet (Resolved accountData) :: t2, Thrown e)
      | OutOfFuel => (w2, AccountGet (Resolved accountData) :: t2, OutOfFuel)
      end).
  { intros k. rewrite bind_run, isLoggedIn_run, Hacc. simpl.
    rewrite bind_run. fold (moved w s1). rewrite Hcurrent.
    unfold after. destruct outcome as [currentUser|e|]; simpl; [|done|done].
    by destruct (k currentUser w2) as [[? ?] ?]. }
  split; [|split; [|split; [|split]]].
  - constructor; [done|].
    pose proof (getCurrentUser_reads backend env (moved w s1)) as Hreads.
    by rewrite Hcurrent in Hreads.
  - pose proof (getCurrentUser_ends backend env (moved w s1)) as Hends.
    by rewrite Hcurrent in Hends.
  - intros currentUser -> Hsame. destruct currentUser as [user|]; [|done].
    exists user. split; [done|].
    unfold login. rewrite try_catch_run, Hbody. rewrite Hsame.
    unfold after. simpl. by rewrite app_nil_r.
  - intros currentUser -> Hother. unfold login. rewrite login_handler_trace.
    2:{ intros e w1. by destruct (_ && _). }
    rewrite Hbody.
    assert (Hgo :
      (try_catch (logoutAllSessions backend) (fun _ => mret tt);;
       login_establish backend env fuel email password) w2
      = after [DeleteSessions (account_deleteSessions backend (server w2)).2]
          (login_establish backend env fuel email password
             (moved w2 (account_deleteSessions backend (server w2)).1))).
    { by rewrite bind_run, logout_ignored. }
    destruct (login_establish_starts backend env fuel email password
                (moved w2 (account_deleteSessions backend (server w2)).1))
      as [rest Hrest].
    exists rest. destruct currentUser as [user|].
    + rewrite Hother, Hgo. unfold after. simpl. by rewrite Hrest.
    + rewrite Hgo. unfold after. simpl. by rewrite Hrest.
  - intros e ->. unfold login. rewrite try_catch_run, Hbody.
    unfold after, throw. destruct (_ && _); simpl; rewrite app_nil_r.
    + eexists. split; [reflexivity|by left].
    + eexists. split; [reflexivity|by right].
Qed.

Lemma login_session_policy_witness :
  ∃ user,
    Some (mapUserDocument alice_doc) = Some user
    ∧ login reference_backend sample_env 10 (a_email alice) "secret"
        (world_of (drifted_server []))
      = (world_of (drifted_server []),
         [AccountGet (Resolved alice); AccountGet (Resolved alice);
          GetDocument (a_id alice) (Resolved alice_doc)],
         Returned user).
Proof.
  apply (proj1 (proj2 (proj2 (login_session_policy reference_backend
                                sample_env 10
                                (a_email alice) "secret"
                                (world_of (drifted_server []))
                                (drifted_server [])
                                alice (world_of (drifted_server []))
                                [AccountGet (Resolved alice);
                                 GetDocument (a_id alice)
                                   (Resolved alice_doc)]
                                (Returned (Some (mapUserDocument alice_doc)))
                                eq_refl eq_refl)))
           (Some (mapUserDocument alice_doc)) eq_refl).
  reflexivity.
Defined.

(** C7 as stated fails twice. When the deletion of the sessions fails,
    [login] as Bob still creates Bob's session, next to Alice's, which is
    still there. When Alice is logged in without a profile document, [login]
    as Alice deletes the sessions and creates a new one. *)
Lemma login_not_always_exclusive :
  List.filter session_call
    (login reference_backend sample_env 10 (a_email bob) "secret"
       (world_of stuck_sessions_server)).1.2
  = [DeleteSessions (Rejected network_failure);
     CreateEmailPasswordSession (a_email bob) "secret" (Resolved tt)]
  ∧ sessions
      (server (login reference_backend sample_env 10 (a_email bob) "secret"
                 (world_of stuck_sessions_server)).1.1)
    = [bob; alice]
  ∧ List.filter session_call
      (login reference_backend sample_env 10 (a_email alice) "secret"
         (world_of no_profile_server)).1.2
    = [DeleteSessions (Resolved tt);
       CreateEmailPasswordSession (a_email alice) "secret" (Resolved tt)].
Proof. split; [|split]; by vm_compute. Qed.

(** * Further properties *)

(** ** The listing held by the portfolio hook *)

Lemma sort_insert_head {A} (comparefn : A → A → option Z) (x : A)
    (l : list A) :
  Forall (fun y => sort_compare comparefn x y ≤ 0) l →
  sort_insert comparefn x l = x :: l.
Proof.
  destruct l as [|y l]; [done|]. intros [Hy _]%Forall_cons. simpl.
  destruct (Z.ltb_spec 0 (sort_compare comparefn x y)); [lia|done].
Qed.

Lemma js_sort_sorted_same {A} (comparefn : A → A → option Z) (l : list A) :
  StronglySorted (fun a b => sort_compare comparefn a b ≤ 0) l →
  js_sort comparefn l = l.
Proof.
  induction 1 as [|x l Hs IH Hx]; simpl; [done|].
  rewrite IH. by apply sort_insert_head.
Qed.

Lemma filter_sorted {A} (R : A → A → Prop) (f : A → bool) (l : list A) :
  StronglySorted R l → StronglySorted R (List.filter f l).
Proof.
  induction 1 as [|x l Hs IH Hx]; simpl; [constructor|].
  destruct (f x); [|done]. constructor; [done|].
  rewrite Forall_forall in Hx. apply Forall_forall. intros y Hy.
  apply list_elem_of_In, List.filter_In in Hy as [Hy _].
  by apply Hx, list_elem_of_In.
Qed.

(** X1. A listing that is already in order, no record comparing greater
    than a later one, comes out of the sort unchanged, whatever the clock;
    so on records with valid creation dates sorting twice is sorting once,
    and the second sort that [fetchProjects] applies to what [getProjects]
    already sorted changes nothing. *)
Theorem sortProjects_keeps_sorted (getTime : value → option Z)
    (items : list Project) :
  (StronglySorted
     (fun a b => sort_compare (compareProjects getTime) a b ≤ 0) items →
   sortProjects getTime items = items)
  ∧ (Forall (valid_time getTime) items →
     fetchProjects_state getTime (sortProjects getTime items)
     = sortProjects getTime items).
Proof.
  split.
  - apply js_sort_sorted_same.
  - intros Hvalid. unfold fetchProjects_state. apply js_sort_sorted_same.
    apply (js_sort_sorted _ (valid_time getTime)); [| |done].
    + apply compareProjects_total.
    + apply compareProjects_trans.
Qed.

Lemma sortProjects_keeps_sorted_witness :
  fetchProjects_state sample_getTime
    (sortProjects sample_getTime
       [sample_project "a" 3 50; sample_project "b" 1 100])
  = sortProjects sample_getTime
      [sample_project "a" 3 50; sample_project "b" 1 100].
Proof.
  apply (proj2 (sortProjects_keeps_sorted sample_getTime
                  [sample_project "a" 3 50; sample_project "b" 1 100])).
  repeat constructor; by eexists.
Defined.

Lemma sortProjects_valid (getTime : value → option Z) (items : list Project) :
  Forall (valid_time getTime) items →
  Forall (valid_time getTime) (sortProjects getTime items).
Proof.
  intros H. unfold sortProjects. by rewrite js_sort_Permutation.
Qed.

Lemma sortProjects_sorted (getTime : value → option Z) (items : list Project) :
  Forall (valid_time getTime) items →
  StronglySorted (fun a b => sort_compare (compareProjects getTime) a b ≤ 0)
    (sortProjects getTime items).
Proof.
  intros H. apply (js_sort_sorted _ (valid_time getTime)); [| |done].
  - apply compareProjects_total.
  - apply compareProjects_trans.
Qed.

(** X2. The list of projects the portfolio hook holds stays in listing
    order: starting from a list of records with valid creation dates in which
    no record compares greater than a later one (the empty list the hook
    starts with is one), it is again such a list after [fetchProjects],
    after [createProject], after [updateProject] and after
    [deleteProject], provided the records the service hands over have valid
    creation dates. *)
Theorem hook_listing_stays_sorted (getTime : value → option Z)
    (prev : list Project) :
  listing_ok getTime prev →
  listing_ok getTime []
  ∧ (∀ userProjects,
       Forall (valid_time getTime) userProjects →
       listing_ok getTime (fetchProjects_state getTime userProjects))
  ∧ (∀ newProject,
       valid_time getTime newProject →
       listing_ok getTime (createProject_state getTime prev newProject))
  ∧ (∀ id updatedProject,
       valid_time getTime updatedProject →
       listing_ok getTime (updateProject_state getTime prev id updatedProject))
  ∧ (∀ id, listing_ok getTime (deleteProject_state prev id)).
Proof.
  intros [Hvalid Hsorted].
  assert (Hsort : ∀ l, Forall (valid_time getTime) l →
                       listing_ok getTime (sortProjects getTime l)).
  { intros l Hl. split; [by apply sortProjects_valid|by apply sortProjects_sorted]. }
  split; [by split; constructor|].
  split; [intros l Hl; by apply Hsort|].
  split; [|split].
  - intros newProject Hnew. apply Hsort, Forall_app. split; [done|].
    by constructor.
  - intros id updatedProject Hnew. apply Hsort.
    apply Forall_forall. intros p Hp.
    apply list_elem_of_In, List.in_map_iff in Hp as (q & <- & Hq).
    destruct (has_id id q); [done|].
    rewrite Forall_forall in Hvalid. by apply Hvalid, list_elem_of_In.
  - intros id. split; [|by apply filter_sorted].
    apply Forall_forall. intros p Hp.
    apply list_elem_of_In, List.filter_In in Hp as [Hp _].
    rewrite Forall_forall in Hvalid. by apply Hvalid, list_elem_of_In.
Qed.

Lemma hook_listing_stays_sorted_witness :
  listing_ok sample_getTime
    (createProject_state sample_getTime [sample_project "a" 3 50]
       (sample_project "b" 1 100)).
Proof.
  assert (Hprev : listing_ok sample_getTime [sample_project "a" 3 50]).
  { split; repeat constructor. by eexists. }
  apply (proj1 (proj2 (proj2 (hook_listing_stays_sorted sample_getTime
                                [sample_project "a" 3 50] Hprev)))).
  by eexists.
Defined.

(** X3. [deleteProject] of the hook removes from the held list every
    project with the given identifier and nothing else (a list without that
    identifier is left as it is), and [updateProject] replaces exactly the
    projects with the given identifier by the updated one: the list keeps
    its length, the other projects stay, and the updated project is in the
    list exactly when some project had the identifier. *)
Theorem hook_delete_update_by_id (getTime : value → option Z)
    (prev : list Project) (id : string) :
  (∀ p, p ∈ deleteProject_state prev id ↔ p ∈ prev ∧ has_id id p = false)
  ∧ (Forall (fun p => has_id id p = false) prev →
     deleteProject_state prev id = prev)
  ∧ (∀ updatedProject,
       length (updateProject_state getTime prev id updatedProject)
       = length prev
       ∧ ∀ p, p ∈ updateProject_state getTime prev id updatedProject
              ↔ (p ∈ prev ∧ has_id id p = false)
                ∨ (p = updatedProject
                   ∧ Exists (fun q => has_id id q = true) prev)).
Proof.
  split; [|split].
  - intros p. unfold deleteProject_state.
    rewrite !list_elem_of_In, List.filter_In, negb_true_iff. done.
  - unfold deleteProject_state. induction 1 as [|p l Hp Hl IH]; simpl; [done|].
    by rewrite Hp, IH.
  - intros u. unfold updateProject_state, sortProjects. split.
    + by rewrite js_sort_Permutation, length_map.
    + intros p. rewrite js_sort_Permutation, list_elem_of_In, List.in_map_iff.
      rewrite Exists_exists. split.
      * intros (q & Hq & Hin). apply list_elem_of_In in Hin.
        destruct (has_id id q) eqn:E; subst; [right|left]; eauto.
      * intros [[Hin Hp]|[-> (q & Hin & Hq)]].
        -- exists p. rewrite Hp. by rewrite <- list_elem_of_In.
        -- exists q. rewrite Hq. by rewrite <- list_elem_of_In.
Qed.

Lemma hook_delete_update_by_id_witness :
  deleteProject_state [sample_project "a" 3 50; sample_project "b" 1 100] "z"
  = [sample_project "a" 3 50; sample_project "b" 1 100].
Proof.
  apply (proj1 (proj2 (hook_delete_update_by_id sample_getTime
                         [sample_project "a" 3 50; sample_project "b" 1 100]
                         "z"))).
  by repeat constructor.
Defined.

Lemma filter_length_split {A} (f : A → bool) (l : list A) :
  (length (List.filter f l) + length (List.filter (fun x => negb (f x)) l)
   = length l)%nat.
Proof.
  induction l as [|x l IH]; simpl; [done|]. destruct (f x); simpl; lia.
Qed.

(** X4. The counters of the dashboard agree with the list they are
    computed from: the public and the private count add up to the total, the
    private count is the number of projects that are not public, and no
    counter is negative or above the total. *)
Theorem dashboard_stats_consistent (projects : list Project) :
  publicCount (stats projects) + privateCount (stats projects)
  = total (stats projects)
  ∧ privateCount (stats projects)
    = Z.of_nat (length (List.filter (fun p => negb (isPublic p)) projects))
  ∧ 0 ≤ publicCount (stats projects) ≤ total (stats projects)
  ∧ 0 ≤ privateCount (stats projects) ≤ total (stats projects)
  ∧ 0 ≤ featuredCount (stats projects) ≤ total (stats projects).
Proof.
  pose proof (filter_length_split isPublic projects).
  pose proof (List.filter_length_le featured projects).
  unfold stats. simpl. lia.
Qed.

(** ** Strings: trimming, splitting and the unknown-attribute pattern *)

Lemma string_app_cons (x : ascii) (a b : string) :
  String x a ++ b = String x (a ++ b).
Proof. reflexivity. Qed.

Lemma string_app_assoc (a b c : string) : (a ++ b) ++ c = a ++ (b ++ c).
Proof.
  induction a as [|x a IH]; [done|]. by rewrite !string_app_cons, IH.
Qed.

Lemma string_app_nil_r (a : string) : a ++ "" = a.
Proof. induction a as [|x a IH]; [done|]. by rewrite string_app_cons, IH. Qed.

Lemma rev_app_spec (s1 s2 : string) :
  String.rev_app s1 s2 = String.rev s1 ++ s2.
Proof.
  unfold String.rev. revert s2. induction s1 as [|x s1 IH]; intros s2.
  - done.
  - cbn [String.rev_app].
    rewrite IH, (IH (String x "")), string_app_assoc. done.
Qed.

Lemma rev_cons (x : ascii) (s : string) :
  String.rev (String x s) = String.rev s ++ String x "".
Proof. unfold String.rev at 1. simpl. apply rev_app_spec. Qed.

Lemma rev_append (a b : string) :
  String.rev (a ++ b) = String.rev b ++ String.rev a.
Proof.
  induction a as [|x a IH].
  - by rewrite string_app_nil_r.
  - by rewrite string_app_cons, !rev_cons, IH, string_app_assoc.
Qed.

Lemma rev_involutive (s : string) : String.rev (String.rev s) = s.
Proof.
  induction s as [|x s IH]; [done|].
  by rewrite rev_cons, rev_append, IH.
Qed.

(** The string does not start with white space. *)
Lemma ltrim_split (s : string) :
  ∃ spaces, s = spaces ++ ltrim s ∧ all_chars Ascii.is_space spaces = true.
Proof.
  induction s as [|c s (spaces & Hs & Hspaces)]; simpl.
  - by exists "".
  - destruct (Ascii.is_space c) eqn:Hc.
    + exists (String c spaces). rewrite string_app_cons, <- Hs.
      split; [done|]. simpl. by rewrite Hc.
    + by exists "".
Qed.

Lemma ltrim_fixed (s : string) :
  match s with String c _ => Ascii.is_space c = false | EmptyString => True end →
  ltrim s = s.
Proof. destruct s as [|c s]; simpl; [done|]. by intros ->. Qed.

Lemma ltrim_head (s : string) :
  match ltrim s with
  | String c _ => Ascii.is_space c = false
  | EmptyString => True
  end.
Proof.
  induction s as [|c s IH]; simpl; [done|].
  by destruct (Ascii.is_space c) eqn:Hc.
Qed.

Lemma trim_head (s : string) :
  match trim s with
  | String c _ => Ascii.is_space c = false
  | EmptyString => True
  end.
Proof.
  unfold trim. pose proof (ltrim_head s) as Ht.
  destruct (ltrim_split (String.rev (ltrim s))) as (spaces & Hsplit & _).
  apply (f_equal String.rev) in Hsplit.
  rewrite rev_involutive, rev_append in Hsplit.
  destruct (String.rev (ltrim (String.rev (ltrim s)))) as [|c u]; [done|].
  rewrite Hsplit in Ht. exact Ht.
Qed.

Lemma trim_idempotent (s : string) : trim (trim s) = trim s.
Proof.
  pose proof (trim_head s) as Hhead. unfold trim at 1.
  rewrite (ltrim_fixed (trim s)) by exact Hhead.
  unfold trim. rewrite rev_involutive.
  by rewrite (ltrim_fixed (ltrim _)) by apply ltrim_head.
Qed.

Lemma trim_leading_space (c : ascii) (s : string) :
  Ascii.is_space c = true → trim (String c s) = trim s.
Proof. intros Hc. unfold trim. simpl. by rewrite Hc. Qed.

Lemma split_on_cons (d : ascii) (s : string) :
  ∃ piece pieces, split_on d s = piece :: pieces.
Proof.
  induction s as [|c s (piece & pieces & IH)]; simpl; [by eexists _, _|].
  destruct (c =? d)%char; [by eexists _, _|]. rewrite IH. by eexists _, _.
Qed.

Lemma split_on_entry (d : ascii) (entry rest : string) :
  all_chars (fun c => negb (c =? d)%char) entry = true →
  split_on d (entry ++ String d rest) = entry :: split_on d rest.
Proof.
  induction entry as [|c entry IH]; simpl.
  - intros _. by rewrite Ascii.eqb_refl.
  - intros [Hc Hentry]%andb_true_iff. apply negb_true_iff in Hc.
    by rewrite Hc, IH.
Qed.

Lemma split_on_single (d : ascii) (entry : string) :
  all_chars (fun c => negb (c =? d)%char) entry = true →
  split_on d entry = [entry].
Proof.
  induction entry as [|c entry IH]; simpl; [done|].
  intros [Hc Hentry]%andb_true_iff. apply negb_true_iff in Hc.
  by rewrite Hc, IH.
Qed.

(** X5. Every entry [splitAndFilter] returns is the trimmed form of a piece
    of the input between two delimiters, is not empty and has no white
    space left around it. *)
Theorem splitAndFilter_entries (value : string) (delimiter : ascii)
    (entry : string) :
  entry ∈ splitAndFilter value delimiter →
  entry ≠ "" ∧ trim entry = entry
  ∧ ∃ piece, piece ∈ split_on delimiter value ∧ entry = trim piece.
Proof.
  unfold splitAndFilter. rewrite list_elem_of_In, List.filter_In.
  intros [Hin Hne]. apply List.in_map_iff in Hin as (piece & <- & Hpiece).
  split; [|split].
  - intros Heq. simpl in Hne. by rewrite Heq in Hne.
  - apply trim_idempotent.
  - exists piece. by rewrite list_elem_of_In.
Qed.

Lemma splitAndFilter_entries_witness :
  "b" ≠ "" ∧ trim "b" = "b"
  ∧ ∃ piece, piece ∈ split_on "," "a, b ,," ∧ "b" = trim piece.
Proof.
  apply (splitAndFilter_entries "a, b ,," "," "b").
  vm_compute. apply list_elem_of_further, list_elem_of_here.
Defined.

Lemma trim_leading_spaces (spaces s : string) :
  all_chars Ascii.is_space spaces = true → trim (spaces ++ s) = trim s.
Proof.
  induction spaces as [|c spaces IH]; [done|]. simpl.
  intros [Hc Hspaces]%andb_true_iff.
  by rewrite string_app_cons, trim_leading_space, IH.
Qed.

Lemma all_chars_app (test : ascii → bool) (a b : string) :
  all_chars test (a ++ b) = all_chars test a && all_chars test b.
Proof.
  induction a as [|c a IH]; [done|].
  rewrite string_app_cons. simpl. by rewrite IH, andb_assoc.
Qed.

(** Splitting a joined list: the pieces are the entries, each after the
    white space that follows the delimiter in the separator. *)
Lemma split_join (d : ascii) (spaces pre : string) (x : string)
    (l : list string) :
  all_chars Ascii.is_space spaces = true →
  all_chars (fun c => negb (c =? d)%char) spaces = true →
  all_chars Ascii.is_space pre = true →
  all_chars (fun c => negb (c =? d)%char) pre = true →
  Forall (clean_entry d) (x :: l) →
  map trim (split_on d (pre ++ join (String d spaces) (x :: l))) = x :: l.
Proof.
  intros Hspaces Hfree. revert pre x.
  induction l as [|y l IH]; intros pre x Hpre Hpre_free Hclean.
  - apply Forall_cons in Hclean as [(_ & _ & Htrim & Hx) _].
    cbn [join String.concat]. rewrite split_on_single.
    + cbn [map]. by rewrite trim_leading_spaces, Htrim.
    + by rewrite all_chars_app, Hpre_free, Hx.
  - apply Forall_cons in Hclean as [(_ & _ & Htrim & Hx) Hclean].
    change (join (String d spaces) (x :: y :: l))
      with (x ++ String d spaces ++ join (String d spaces) (y :: l)).
    rewrite string_app_cons, <- string_app_assoc, split_on_entry.
    + cbn [map]. rewrite trim_leading_spaces, Htrim by done.
      f_equal. by apply IH.
    + by rewrite all_chars_app, Hpre_free, Hx.
Qed.

Lemma splitAndFilter_join (d : ascii) (spaces : string) (l : list string) :
  all_chars Ascii.is_space spaces = true →
  all_chars (fun c => negb (c =? d)%char) spaces = true →
  Forall (clean_entry d) l →
  splitAndFilter (join (String d spaces) l) d = l.
Proof.
  intros Hspaces Hfree Hclean. unfold splitAndFilter.
  destruct l as [|x l]; [done|].
  pose proof (split_join d spaces "" x l Hspaces Hfree eq_refl eq_refl Hclean)
    as Hsplit.
  change ("" ++ join (String d spaces) (x :: l))
    with (join (String d spaces) (x :: l)) in Hsplit.
  rewrite Hsplit. clear Hsplit.
  induction Hclean as [|y l' (_ & Hne & _ & _) _ IH]; [done|].
  cbn [List.filter]. rewrite IH. by destruct y.
Qed.

(** X6. Opening a project in the form and submitting it unchanged gives
    back its tags, tech stack, images and highlights, as long as every
    entry is clean: made of ASCII characters, not empty, without white
    space around it and without the delimiter of its field (a comma for tags
    and tech stack, a line feed for images and highlights). *)
Theorem form_lists_round_trip (p : Project) (nextOrder : Z) :
  Forall (clean_entry ",") (tags p) →
  Forall (clean_entry ",") (techStack p) →
  Forall (clean_entry line_feed) (images p) →
  Forall (clean_entry line_feed) (highlights p) →
  let formData := createInitialFormState (Some p) nextOrder in
  splitAndFilter (f_tags formData) "," = tags p
  ∧ splitAndFilter (f_techStack formData) "," = techStack p
  ∧ splitAndFilter (f_imageUrls formData) line_feed = images p
  ∧ splitAndFilter (f_highlights formData) line_feed = highlights p.
Proof.
  intros Htags Htech Himages Hhighlights. cbn [createInitialFormState
    f_tags f_techStack f_imageUrls f_highlights].
  repeat split.
  - by apply (splitAndFilter_join "," " ").
  - by apply (splitAndFilter_join "," " ").
  - by apply (splitAndFilter_join line_feed "").
  - by apply (splitAndFilter_join line_feed "").
Qed.

Lemma form_lists_round_trip_witness :
  let formData := createInitialFormState (Some showcase_project) 0 in
  splitAndFilter (f_tags formData) "," = tags showcase_project
  ∧ splitAndFilter (f_techStack formData) "," = techStack showcase_project
  ∧ splitAndFilter (f_imageUrls formData) line_feed = images showcase_project
  ∧ splitAndFilter (f_highlights formData) line_feed
    = highlights showcase_project.
Proof.
  apply (form_lists_round_trip showcase_project 0); vm_compute;
    repeat first
      [apply Forall_nil | apply Forall_cons | split | discriminate
      | reflexivity].
Defined.

Lemma string_length_app (a b : string) :
  String.length (a ++ b) = (String.length a + String.length b)%nat.
Proof.
  induction a as [|c a IH]; [done|]. rewrite string_app_cons. simpl.
  by rewrite IH.
Qed.

Lemma strip_prefix_spec (p s rest : string) :
  strip_prefix p s = Some rest → s = p ++ rest.
Proof.
  revert s. induction p as [|a p IH]; intros s.
  - by intros [= ->].
  - destruct s as [|b s]; simpl; [done|].
    destruct (Ascii.eqb_spec a b) as [->|]; [|done].
    intros ->%IH. done.
Qed.

Lemma strip_prefix_app (p s : string) : strip_prefix p (p ++ s) = Some s.
Proof.
  induction p as [|a p IH]; [by destruct s|].
  rewrite string_app_cons. simpl. by rewrite Ascii.eqb_refl.
Qed.

Lemma lazy_until_quote_spec (s group : string) :
  lazy_until_quote s = Some group →
  all_chars plain_char group = true
  ∧ ∃ rest, s = group ++ String dquote rest.
Proof.
  revert group. induction s as [|c s IH]; intros group; simpl; [done|].
  destruct (Ascii.eqb_spec c dquote) as [->|Hc].
  - intros [= <-]. split; [done|]. by exists s.
  - destruct (is_line_terminator c) eqn:Hline; [done|].
    destruct (lazy_until_quote s) as [tail|]; [|done].
    intros [= <-]. destruct (IH tail eq_refl) as (Htail & rest & ->).
    split.
    + simpl. unfold plain_char at 1. rewrite Hline.
      by apply Ascii.eqb_neq in Hc as ->.
    + by exists rest.
Qed.

Lemma lazy_until_quote_app (group rest : string) :
  all_chars plain_char group = true →
  lazy_until_quote (group ++ String dquote rest) = Some group.
Proof.
  induction group as [|c group IH].
  - done.
  - simpl. intros [[Hc Hline%negb_true_iff]%andb_true_iff Hgroup]%andb_true_iff.
    apply negb_true_iff in Hc. by rewrite Hc, Hline, IH.
Qed.

(** The first double quote of a string fixes what stands before it. *)
Lemma first_quote_unique (a a' b b' : string) :
  all_chars (fun c => negb (c =? dquote)%char) a = true →
  all_chars (fun c => negb (c =? dquote)%char) a' = true →
  a ++ String dquote b = a' ++ String dquote b' → a = a' ∧ b = b'.
Proof.
  revert a'. induction a as [|c a IH]; intros [|c' a']; simpl.
  - intros _ _ [= ->]. done.
  - rewrite string_app_cons. intros _ [Hc _]%andb_true_iff [= <- _].
    by rewrite Ascii.eqb_refl in Hc.
  - rewrite string_app_cons. intros [Hc _]%andb_true_iff _ [= -> _].
    by rewrite Ascii.eqb_refl in Hc.
  - rewrite !string_app_cons.
    intros [_ Ha]%andb_true_iff [_ Ha']%andb_true_iff [= -> Heq].
    destruct (IH a' Ha Ha' Heq) as [-> ->]. done.
Qed.

Lemma unknown_attribute_text_app (name post : string) :
  unknown_attribute_text name ++ post
  = "Unknown attribute: " ++ String dquote (name ++ String dquote post).
Proof.
  unfold unknown_attribute_text.
  rewrite string_app_assoc, string_app_cons, string_app_assoc. done.
Qed.

Lemma match_here_spec (s group : string) :
  match_here s = Some group →
  ∃ c tail post,
    group = String c tail ∧ is_line_terminator c = false
    ∧ all_chars plain_char tail = true
    ∧ s = unknown_attribute_text group ++ post.
Proof.
  unfold match_here.
  destruct (strip_prefix _ s) as [[|c rest]|] eqn:Hprefix; try done.
  apply strip_prefix_spec in Hprefix.
  destruct (is_line_terminator c) eqn:Hline; [done|].
  destruct (lazy_until_quote rest) as [tail|] eqn:Htail; [|done].
  intros [= <-]. apply lazy_until_quote_spec in Htail as (Hplain & post & ->).
  exists c, tail, post. repeat split; try done.
  rewrite unknown_attribute_text_app, Hprefix, string_app_assoc. done.
Qed.

Lemma match_here_text (c : ascii) (tail post : string) :
  is_line_terminator c = false → all_chars plain_char tail = true →
  match_here (unknown_attribute_text (String c tail) ++ post)
  = Some (String c tail).
Proof.
  intros Hline Hplain. unfold match_here.
  rewrite unknown_attribute_text_app.
  change ("Unknown attribute: " ++ String dquote (String c tail ++ String dquote post))
    with (("Unknown attribute: " ++ String dquote "")
          ++ String c (tail ++ String dquote post)).
  rewrite strip_prefix_app, Hline, lazy_until_quote_app by done. done.
Qed.

(** No match starts inside a text without double quote that stands before
    the pattern. *)
Lemma match_here_before (c : ascii) (pre rest : string) :
  all_chars (fun c => negb (c =? dquote)%char) (String c pre) = true →
  match_here (String c pre ++ "Unknown attribute: " ++ String dquote rest)
  = None.
Proof.
  intros Hpre. unfold match_here.
  destruct (strip_prefix _ _) as [after|] eqn:Hprefix; [|done].
  apply strip_prefix_spec in Hprefix. exfalso.
  rewrite <- string_app_assoc in Hprefix.
  change (("Unknown attribute: " ++ String dquote "") ++ after)
    with ("Unknown attribute: " ++ String dquote after) in Hprefix.
  apply first_quote_unique in Hprefix as [Hlen _].
  - apply (f_equal String.length) in Hlen.
    rewrite string_length_app in Hlen. simpl in Hlen. lia.
  - by rewrite all_chars_app, Hpre.
  - done.
Qed.

Lemma match_unknown_attribute_spec (message group : string) :
  match_unknown_attribute message = Some group →
  ∃ c tail pre post,
    group = String c tail ∧ is_line_terminator c = false
    ∧ all_chars plain_char tail = true
    ∧ message = pre ++ unknown_attribute_text group ++ post.
Proof.
  induction message as [|a message IH].
  - done.
  - cbn [match_unknown_attribute].
    destruct (match_here (String a message)) as [found|] eqn:Hhere.
    + intros [= <-].
      apply match_here_spec in Hhere as (c & tail & post & -> & ? & ? & Heq).
      exists c, tail, "", post. by rewrite Heq.
    + intros (c & tail & pre & post & -> & ? & ? & ->)%IH.
      by exists c, tail, (String a pre), post.
Qed.

(** X7. What [extractUnknownAttribute] returns is read from the message of
    the error (or from the message of its response when the error has
    none): the message contains [Unknown attribute: "name"] for the name
    returned, which is not empty, does not start with a line terminator and
    has neither a double quote nor a line terminator after its first
    character. *)
Theorem extractUnknownAttribute_shape (error : JsError) (name : string) :
  extractUnknownAttribute error = Some name →
  ∃ c tail pre post,
    name = String c tail ∧ is_line_terminator c = false
    ∧ all_chars plain_char tail = true
    ∧ or_else (message error) (response_message error)
      = pre ++ unknown_attribute_text name ++ post.
Proof.
  unfold extractUnknownAttribute. cbv zeta.
  destruct (String.eqb _ ""); [done|]. apply match_unknown_attribute_spec.
Qed.

Lemma extractUnknownAttribute_shape_witness :
  ∃ c tail pre post,
    "bio" = String c tail ∧ is_line_terminator c = false
    ∧ all_chars plain_char tail = true
    ∧ or_else (message (unknown_attribute "bio"))
        (response_message (unknown_attribute "bio"))
      = pre ++ unknown_attribute_text "bio" ++ post.
Proof.
  apply (extractUnknownAttribute_shape (unknown_attribute "bio") "bio").
  reflexivity.
Defined.

(** X8. A message that holds [Unknown attribute: "name"] after a text
    without double quote names that attribute: [extractUnknownAttribute]
    returns [name], whatever follows, when [name] is made of ASCII
    characters, is not empty, does not start with a line terminator and has
    neither a double quote nor a line terminator after its first
    character. *)
Theorem extractUnknownAttribute_reads_name (error : JsError)
    (pre post : string) (c : ascii) (tail : string) :
  all_chars (fun c => negb (c =? dquote)%char) pre = true →
  all_chars is_ascii (String c tail) = true →
  is_line_terminator c = false →
  all_chars plain_char tail = true →
  message error = pre ++ unknown_attribute_text (String c tail) ++ post →
  extractUnknownAttribute error = Some (String c tail).
Proof.
  intros Hpre _ Hline Hplain Hmessage.
  unfold extractUnknownAttribute. cbv zeta.
  assert (message error ≠ "") as Hne.
  { rewrite Hmessage. by destruct pre. }
  unfold or_else. apply String.eqb_neq in Hne. rewrite Hne, Hne, Hmessage.
  clear Hmessage Hne. induction pre as [|a pre IH].
  - change ("" ++ unknown_attribute_text (String c tail) ++ post)
      with (unknown_attribute_text (String c tail) ++ post).
    destruct (unknown_attribute_text (String c tail) ++ post) eqn:Htext;
      cbn [match_unknown_attribute]; rewrite <- Htext;
      by rewrite match_here_text.
  - rewrite string_app_cons. cbn [match_unknown_attribute].
    rewrite <- string_app_cons, unknown_attribute_text_app.
    rewrite match_here_before by done.
    rewrite <- unknown_attribute_text_app. apply IH.
    simpl in Hpre. by apply andb_true_iff in Hpre as [_ Hpre].
Qed.

Lemma extractUnknownAttribute_reads_name_witness :
  extractUnknownAttribute
    {| message := "Invalid document structure: Unknown attribute: "
                  ++ String dquote ("bio" ++ String dquote " (400)");
       code := Some 400; response_message := "" |}
  = Some "bio".
Proof.
  apply (extractUnknownAttribute_reads_name _
           "Invalid document structure: " " (400)" "b" "io");
    reflexivity.
Defined.

(** ** The document a new project is created from *)

Lemma toStringArray_js_or (v : value) :
  toStringArray (js_or v (VArr [])) = toStringArray v.
Proof.
  by destruct v as [| |[]|n|s|items|props]; try done; unfold js_or; simpl;
    case_match.
Qed.

(** X9. The document [createProject] sends, read back through
    [mapProjectDoc], is the caller's project owned by the account: owner
    and creator are the account's identifier whatever the caller passed for
    them, the lists, the order, the featured flag and the text fields are
    those of the caller's project, and the project is public unless the
    caller's flag is there and falsy. *)
Theorem createProject_payload_owned (project : gmap string value)
    (accountId : string) :
  let sent := mapProjectDoc (createProject_projectData project accountId) in
  let given := mapProjectDoc project in
  userId sent = VStr accountId ∧ createdBy sent = VStr accountId
  ∧ isPublic sent
    = (if nullish (get project "isPublic") then true
       else truthy (get project "isPublic"))
  ∧ sent
    = {| p_id := p_id given; title := title given;
         description := description given; category := category given;
         tags := tags given; images := images given; videos := videos given;
         documents := documents given; isPublic := isPublic sent;
         featured := featured given; order := order given;
         userId := VStr accountId; createdBy := VStr accountId;
         coverImage := coverImage given; liveUrl := liveUrl given;
         sourceUrl := sourceUrl given; startDate := startDate given;
         endDate := endDate given; highlights := highlights given;
         techStack := techStack given; createdAt := createdAt given;
         updatedAt := updatedAt given |}.
Proof.
  cbv zeta.
  assert (userId (mapProjectDoc (createProject_projectData project accountId))
          = VStr accountId) as Huser.
  { unfold mapProjectDoc, createProject_projectData, get. simpl.
    simplify_map_eq. simpl. unfold js_or. simpl.
    destruct (String.eqb accountId "") eqn:Hid; simpl; rewrite ?Hid; simpl;
      [|done].
    by apply String.eqb_eq in Hid as ->. }
  assert (createdBy (mapProjectDoc (createProject_projectData project accountId))
          = VStr accountId) as Hcreator.
  { unfold mapProjectDoc, createProject_projectData, get. simpl.
    simplify_map_eq. simpl. unfold js_or. simpl.
    destruct (String.eqb accountId "") eqn:Hid; simpl; rewrite ?Hid; simpl;
      [|done].
    by apply String.eqb_eq in Hid as ->. }
  split; [done|]. split; [done|]. split.
  - unfold mapProjectDoc, createProject_projectData, get. simpl.
    simplify_map_eq. simpl.
    by destruct (default VUndefined (project !! "isPublic")) as [| |[]| | | |].
  - rewrite <- Huser at 1. rewrite <- Hcreator at 1.
    unfold mapProjectDoc, createProject_projectData, get. simpl.
    simplify_map_eq. simpl. rewrite !toStringArray_js_or.
    f_equal.
    + by destruct (default VUndefined (project !! "featured"))
        as [| |[]| | | |].
    + by destruct (default VUndefined (project !! "order")).
Qed.

(** ** Cleaning of profile data and of social links *)

Lemma foldl_insert_union {A B} (g : B → A) (l : list (string * B))
    (acc : gmap string A) :
  foldl (fun acc kl => <[kl.1 := g kl.2]> acc) acc l
  = list_to_map (reverse (prod_map id g <$> l)) ∪ acc.
Proof.
  revert acc. induction l as [|[k b] l IH]; intros acc; simpl.
  - by rewrite (left_id_L ∅ (∪)).
  - rewrite IH, reverse_cons, list_to_map_app. simpl.
    rewrite <- (assoc_L (∪)), <- insert_union_l.
    by rewrite (left_id_L ∅ (∪)).
Qed.

Lemma NoDup_fst_omap {A B} (h : string * A → option (string * B))
    (l : list (string * A)) :
  (∀ kv y, h kv = Some y → y.1 = kv.1) →
  NoDup l.*1 → NoDup (omap h l).*1.
Proof.
  intros Hkey. induction l as [|kv l IH]; simpl; [done|].
  intros [Hnotin Hnodup]%NoDup_cons. specialize (IH Hnodup).
  destruct (h kv) as [y|] eqn:Hy; [|done]. simpl.
  apply NoDup_cons. split; [|done].
  rewrite (Hkey _ _ Hy). intros Hin. apply Hnotin.
  apply list_elem_of_fmap in Hin as (y' & -> & Hin).
  apply list_elem_of_omap in Hin as (kv' & Hin & Hy').
  apply list_elem_of_fmap. exists kv'. split; [|done].
  by apply Hkey.
Qed.

Lemma foldl_insert_list_to_map {A} (l : list (string * A)) :
  foldl (fun acc kl => <[kl.1 := kl.2]> acc) (∅ : gmap string A) l
  = list_to_map (reverse l).
Proof.
  change (foldl (fun acc kl => <[kl.1 := id kl.2]> acc)
            (∅ : gmap string A) l = list_to_map (reverse l)).
  rewrite foldl_insert_union, (right_id_L ∅ (∪)). do 2 f_equal.
  induction l as [|[k a] l IH]; [done|]. simpl. f_equal. exact IH.
Qed.

(** X10. The links [normalizeSocialLinks] keeps of an object are its
    properties that hold a non-empty string, under the same names; every
    other property is dropped, and a value that is neither an object nor an
    array gives no link at all. *)
Theorem normalizeSocialLinks_keeps (props : gmap string value)
    (platform link : string) :
  (normalizeSocialLinks (VObj props) !! platform = Some link
   ↔ props !! platform = Some (VStr link) ∧ link ≠ "")
  ∧ normalizeSocialLinks VUndefined = ∅
  ∧ normalizeSocialLinks VNull = ∅
  ∧ (∀ s, normalizeSocialLinks (VStr s) = ∅)
  ∧ (∀ n, normalizeSocialLinks (VNum n) = ∅)
  ∧ (∀ b, normalizeSocialLinks (VBool b) = ∅).
Proof.
  split; [|done]. unfold normalizeSocialLinks. cbn [entries].
  rewrite foldl_insert_list_to_map.
  rewrite <- elem_of_list_to_map.
  2:{ rewrite fmap_reverse.
      rewrite reverse_Permutation. apply NoDup_fst_omap.
      - intros [k v] y. simpl. destruct v as [| | | |s| |]; try done.
        destruct (negb _); [|done]. by intros [= <-].
      - apply NoDup_fst_map_to_list. }
  rewrite elem_of_reverse, list_elem_of_omap. split.
  - intros ([k v] & Hin & Hkept). apply elem_of_map_to_list in Hin.
    simpl in Hkept. destruct v as [| | | |s| |]; try done.
    destruct (String.eqb_spec s ""); simpl in Hkept; [done|].
    injection Hkept as -> ->. done.
  - intros [Hin Hne]. exists (platform, VStr link). split.
    + by apply elem_of_map_to_list.
    + simpl. by apply String.eqb_neq in Hne as ->.
Qed.

Lemma cleaned_skills_fixed (l : list string) :
  Forall (fun e => trim e = e ∧ truthy (VStr e) = true) l →
  filter (fun skill => truthy (VStr skill))
    (map (fun skill => match skill with VStr s => trim s | _ => "" end)
       (VStr <$> l))
  = l.
Proof.
  induction 1 as [|e l [Htrim He] _ IH]; [done|].
  cbn [fmap list_fmap map]. rewrite Htrim.
  rewrite filter_cons_True by by rewrite He.
  f_equal. exact IH.
Qed.

Lemma cleaned_skills_clean (items : list value) :
  Forall (fun e => trim e = e ∧ truthy (VStr e) = true)
    (filter (fun skill => truthy (VStr skill))
       (map (fun skill => match skill with VStr s => trim s | _ => "" end)
          items)).
Proof.
  apply Forall_forall. intros e [He Hin]%list_elem_of_filter.
  split; [|by destruct (truthy (VStr e))].
  apply list_elem_of_In, List.in_map_iff in Hin as (x & <- & _).
  destruct x; try done. apply trim_idempotent.
Qed.

Lemma cleaned_links_clean (l : list (string * string))
    (acc : gmap string value) :
  Forall (fun kl => (0 <? String.length (trim kl.2))%nat = true) l →
  map_Forall (fun _ v => clean_link v) acc →
  map_Forall (fun _ v => clean_link v)
    (foldl (fun acc kl => <[kl.1 := VStr (trim kl.2)]> acc) acc l).
Proof.
  intros Hl. revert acc. induction Hl as [|[k s] l Hs _ IH]; intros acc Hacc.
  - done.
  - simpl. apply IH, map_Forall_insert_2; [|done].
    exists (trim s). by rewrite trim_idempotent.
Qed.

Lemma cleaned_links_fixed (m : gmap string value) :
  map_Forall (fun _ v => clean_link v) m →
  foldl (fun acc kl => <[kl.1 := VStr (trim kl.2)]> acc) ∅
    (omap (fun kv : string * value =>
             match kv.2 with
             | VStr link =>
                 if (0 <? String.length (trim link))%nat
                 then Some (kv.1, link) else None
             | _ => None
             end) (map_to_list m))
  = m.
Proof.
  intros Hclean.
  rewrite (foldl_insert_union (fun s => VStr (trim s))), (right_id_L ∅ (∪)).
  assert (∀ l : list (string * value),
            Forall (fun kv => clean_link kv.2) l →
            prod_map id (fun s => VStr (trim s)) <$>
              omap (fun kv : string * value =>
                      match kv.2 with
                      | VStr link =>
                          if (0 <? String.length (trim link))%nat
                          then Some (kv.1, link) else None
                      | _ => None
                      end) l
            = l) as Hfixed.
  { induction 1 as [|[k v] l Hv _ IH]; [done|].
    destruct Hv as (s & Hv & Htrim & Hlen). simpl in Hv. subst v.
    simpl. rewrite Htrim, Hlen. simpl. rewrite Htrim. f_equal.
    exact IH. }
  rewrite Hfixed.
  - rewrite <- (list_to_map_to_list m) at 2. apply list_to_map_proper.
    + rewrite fmap_reverse, reverse_Permutation.
      apply NoDup_fst_map_to_list.
    + apply reverse_Permutation.
  - apply Forall_forall. intros [k v] Hin%elem_of_map_to_list.
    exact (Hclean k v Hin).
Qed.

Lemma sanitizeValue_idempotent (key : string) (v : value) :
  sanitizeValue key (sanitizeValue key v) = sanitizeValue key v.
Proof.
  unfold sanitizeValue at 2 3.
  destruct (String.eqb key "skills" && isArray v) eqn:Hskills.
  { unfold sanitizeValue. apply andb_true_iff in Hskills as [-> _].
    cbn [isArray andb array_items].
    by rewrite cleaned_skills_fixed by apply cleaned_skills_clean. }
  destruct (String.eqb key "socialLinks" && truthy v && typeof_object v)
    eqn:Hlinks.
  { unfold sanitizeValue.
    apply andb_true_iff in Hlinks as [[Hkey _]%andb_true_iff _].
    rewrite Hkey. apply String.eqb_eq in Hkey as ->.
    cbn [truthy typeof_object isArray entries]. simpl (_ && _).
    rewrite cleaned_links_fixed; [done|]. apply cleaned_links_clean.
    - apply Forall_forall. intros [k s] Hin.
      apply list_elem_of_omap in Hin as ([k' x] & _ & Hkept).
      simpl in Hkept. destruct x; try done.
      destruct (0 <? _)%nat eqn:Hlen; [|done]. by injection Hkept as <- <-.
    - apply map_Forall_empty. }
  assert (∀ s, sanitizeValue key (VStr s) = VStr (trim s)) as Hstring.
  { intros s. unfold sanitizeValue. simpl.
    by rewrite !andb_false_r. }
  destruct v; try (by unfold sanitizeValue; rewrite Hskills, Hlinks).
  by rewrite Hstring, trim_idempotent.
Qed.

Lemma sanitizeValue_defined (key : string) (v : value) :
  v ≠ VUndefined → sanitizeValue key v ≠ VUndefined.
Proof.
  unfold sanitizeValue. intros Hv.
  destruct (_ && isArray v); [done|].
  destruct (_ && typeof_object v); [done|]. by destruct v.
Qed.

(** X11. Cleaning profile data is idempotent: data that went through
    [sanitizeUserUpdateData] is left as it is by a second pass with the same
    updatable fields. Strings stay trimmed, the skills stay the non-empty
    trimmed ones, and the social links stay the non-blank trimmed ones. *)
Theorem sanitizeUserUpdateData_idempotent (fields : gset string)
    (data : gmap string value) :
  sanitizeUserUpdateData fields (sanitizeUserUpdateData fields data)
  = sanitizeUserUpdateData fields data.
Proof.
  apply map_eq. intros key. unfold sanitizeUserUpdateData.
  rewrite !map_lookup_imap. destruct (data !! key) as [v|]; [|done].
  simpl. destruct (negb (isUserUpdatableField fields key)) eqn:Hfield;
    [done|].
  assert (v = VUndefined ∨ v ≠ VUndefined) as [->|Hv];
    [destruct v; by auto| done |].
  replace (match v with VUndefined => None | _ => Some (sanitizeValue key v) end)
    with (Some (sanitizeValue key v)) by by destruct v.
  simpl.
  pose proof (sanitizeValue_defined key v Hv) as Hdefined.
  rewrite sanitizeValue_idempotent.
  by destruct (sanitizeValue key v).
Qed.

(** ** What the services throw, and when they call the backend at all *)

Lemma try_catch_thrown {Srv A} (c : M Srv A) (h : JsError → M Srv A)
    (w : World Srv) (e : JsError) :
  (try_catch c h w).2 = Thrown e → ∃ e0 w1, (h e0 w1).2 = Thrown e.
Proof.
  rewrite try_catch_run. destruct (c w) as [[w1 t1] [a|e0|]]; try done.
  unfold after. destruct (h e0 w1) as [[w2 t2] r] eqn:Hh. simpl.
  intros ->. exists e0, w1. by rewrite Hh.
Qed.

Lemma or_else_nonempty (msg fallback : string) :
  fallback ≠ "" → or_else msg fallback ≠ "".
Proof.
  unfold or_else. by destruct (String.eqb_spec msg "").
Qed.

(** X12. Whatever the backend answers, an error thrown by [login],
    [register], [updateProfile], [getUserProfile], [getCurrentUser] or
    [getProjects] is a new [Error]: it carries a message that is not empty
    and neither the status code nor the response of the backend's
    failure. *)
Theorem service_errors_are_plain {Srv} (backend : Backend Srv) (env : Env)
    (getTime : value → option Z) (fuel : nat) (w : World Srv)
    (e : JsError) :
  (∃ email password, (login backend env fuel email password w).2 = Thrown e)
  ∨ (∃ email password name,
       (register backend env fuel email password name w).2 = Thrown e)
  ∨ (∃ data, (updateProfile backend env fuel data w).2 = Thrown e)
  ∨ (∃ userId, (getUserProfile backend env userId w).2 = Thrown e)
  ∨ (getCurrentUser backend env w).2 = Thrown e
  ∨ (∃ userId, (getProjects backend env getTime userId w).2 = Thrown e) →
  message e ≠ "" ∧ code e = None ∧ response_message e = "".
Proof.
  intros [(email & password & Hthrown)
         |[(email & password & name & Hthrown)
          |[(data & Hthrown)
           |[(userId & Hthrown)|[Hthrown|(userId & Hthrown)]]]]];
    apply try_catch_thrown in Hthrown as (e0 & w1 & Hhandler);
    repeat match type of Hhandler with
           | context [if ?b then _ else _] => destruct b
           end;
    try discriminate; injection Hhandler as <-;
    (split; [|done]); simpl; try done; by apply or_else_nonempty.
Qed.

Lemma service_errors_are_plain_witness :
  message (Error "User (role: guests) missing scope (account)") ≠ ""
  ∧ code (Error "User (role: guests) missing scope (account)") = None
  ∧ response_message (Error "User (role: guests) missing scope (account)")
    = "".
Proof.
  apply (service_errors_are_plain reference_backend sample_env sample_getTime
           5 (world_of sample_server)).
  right; right; left. exists ∅. vm_compute. reflexivity.
Defined.

(** X13. With one of the three configuration variables of the
    authentication service unset, [register], [updateProfile],
    [getUserProfile] and [getCurrentUser] call the backend not once and
    change nothing: each throws an error about the missing environment
    variables, the first three the same one. *)
Theorem missing_configuration_no_call {Srv} (backend : Backend Srv)
    (env : Env) (fuel : nat) (w : World Srv) :
  ¬ auth_config_ok env →
  ∃ e,
    includes (message e) "Missing required environment variables" = true
    ∧ (∀ email password name,
         register backend env fuel email password name w = (w, [], Thrown e))
    ∧ (∀ data, updateProfile backend env fuel data w = (w, [], Thrown e))
    ∧ (∀ userId, getUserProfile backend env userId w = (w, [], Thrown e))
    ∧ getCurrentUser backend env w
      = (w, [],
         Thrown (Error "Configuration error: Missing required environment variables. Please check your .env file configuration.")).
Proof.
  intros Hconfig.
  assert (∃ msg, validateConfig env w = (w, [], Thrown (Error msg))
                 ∧ includes msg "Missing required environment variables"
                   = true) as (msg & Hvalidate & Hmsg).
  { unfold validateConfig, missing. simpl.
    destruct (String.eqb_spec (REACT_APP_APPWRITE_PROJECT_ID env) "");
      destruct (String.eqb_spec (REACT_APP_APPWRITE_DATABASE_ID env) "");
      destruct (String.eqb_spec (REACT_APP_APPWRITE_COLLECTION_USERS env) "");
      simpl; try (by eexists); by destruct Hconfig. }
  assert (String.eqb msg "" = false) as Hne by by destruct msg.
  exists (Error msg). split; [done|].
  unfold register, updateProfile, getUserProfile, getCurrentUser.
  repeat split; intros; rewrite try_catch_run, bind_run, Hvalidate;
    unfold after, throw, or_else; simpl; rewrite ?Hne, ?Hmsg; simpl;
    reflexivity.
Qed.

Lemma missing_configuration_no_call_witness :
  ∃ e,
    includes (message e) "Missing required environment variables" = true
    ∧ (∀ email password name,
         register reference_backend unset_env 5 email password name
           (world_of sample_server)
         = (world_of sample_server, [], Thrown e))
    ∧ (∀ data, updateProfile reference_backend unset_env 5 data
                 (world_of sample_server)
               = (world_of sample_server, [], Thrown e))
    ∧ (∀ userId, getUserProfile reference_backend unset_env userId
                   (world_of sample_server)
                 = (world_of sample_server, [], Thrown e))
    ∧ getCurrentUser reference_backend unset_env (world_of sample_server)
      = (world_of sample_server, [],
         Thrown (Error "Configuration error: Missing required environment variables. Please check your .env file configuration.")).
Proof.
  apply (missing_configuration_no_call reference_backend unset_env 5
           (world_of sample_server)).
  intros (Hproject & _). by apply Hproject.
Defined.

(** X14. With one of the four configuration variables of the portfolio
    service unset, the media bucket's included, [getProjects] does not call
    the backend and throws an error about the missing variables, whoever's
    projects are asked for. *)
Theorem getProjects_missing_configuration {Srv} (backend : Backend Srv)
    (env : Env) (getTime : value → option Z) (w : World Srv) :
  ¬ portfolio_config_ok env →
  ∃ msg,
    includes msg "Missing or empty required environment variables" = true
    ∧ ∀ userId,
        getProjects backend env getTime userId w
        = (w, [], Thrown (Error msg)).
Proof.
  intros Hconfig.
  assert (∃ msg, portfolio_validateConfig env w = (w, [], Thrown (Error msg))
                 ∧ includes msg
                     "Missing or empty required environment variables"
                   = true) as (msg & Hvalidate & Hmsg).
  { unfold portfolio_validateConfig, missing. simpl.
    destruct (String.eqb_spec (REACT_APP_APPWRITE_PROJECT_ID env) "");
      destruct (String.eqb_spec (REACT_APP_APPWRITE_DATABASE_ID env) "");
      destruct
        (String.eqb_spec (REACT_APP_APPWRITE_COLLECTION_PROJECTS env) "");
      destruct (String.eqb_spec (REACT_APP_APPWRITE_BUCKET_MEDIA env) "");
      simpl; try (by eexists); by destruct Hconfig. }
  assert (String.eqb msg "" = false) as Hne by by destruct msg.
  exists msg. split; [done|]. intros userId. unfold getProjects.
  rewrite try_catch_run, bind_run, Hvalidate.
  unfold after, throw, or_else. simpl. by rewrite Hne.
Qed.

Lemma getProjects_missing_configuration_witness :
  ∃ msg,
    includes msg "Missing or empty required environment variables" = true
    ∧ ∀ userId,
        getProjects reference_backend bucketless_env sample_getTime userId
          (world_of sample_server)
        = (world_of sample_server, [], Thrown (Error msg)).
Proof.
  apply (getProjects_missing_configuration reference_backend bucketless_env
           sample_getTime (world_of sample_server)).
  intros (_ & _ & _ & Hbucket). by apply Hbucket.
Defined.

(** ** What a call that returns has done *)

Lemma bind_returned {Srv A B} (c : M Srv A) (k : A → M Srv B)
    (w : World Srv) (b : B) :
  ((c ≫= k) w).2 = Returned b →
  ∃ w1 t1 a,
    c w = (w1, t1, Returned a) ∧ (k a w1).2 = Returned b
    ∧ ((c ≫= k) w).1.2 = (t1 ++ (k a w1).1.2)%list.
Proof.
  rewrite bind_run. destruct (c w) as [[w1 t1] [a|e|]]; try done.
  unfold after. simpl. intros Hk. by exists w1, t1, a.
Qed.

Lemma try_catch_returned {Srv A} (c : M Srv A) (h : JsError → M Srv A)
    (w : World Srv) (a : A) :
  (try_catch c h w).2 = Returned a →
  ((c w).2 = Returned a ∧ (try_catch c h w).1.2 = (c w).1.2)
  ∨ ∃ w1 t1 e,
      c w = (w1, t1, Thrown e) ∧ (h e w1).2 = Returned a
      ∧ (try_catch c h w).1.2 = (t1 ++ (h e w1).1.2)%list.
Proof.
  rewrite try_catch_run. destruct (c w) as [[w1 t1] [x|e|]]; try done.
  - intros Hx. by left.
  - unfold after. simpl. intros Hh. right. by exists w1, t1, e.
Qed.

Lemma await_returned {Srv A} (op : Srv → Srv * Response A)
    (ev : Response A → Event) (w w1 : World Srv) (t1 : list Event) (a : A) :
  await op ev w = (w1, t1, Returned a) → t1 = [ev (Resolved a)].
Proof.
  unfold await. destruct (op (server w)) as [s1 [x|e]]; [|done].
  by intros [= _ <- <-].
Qed.

Section LoginReturns.
Context {Srv : Type} (backend : Backend Srv) (env : Env).

(** A profile [getCurrentUser] returns was read from the backend. *)
Lemma getCurrentUser_some (w w1 : World Srv) (t1 : list Event) (user : User) :
  getCurrentUser backend env w = (w1, t1, Returned (Some user)) →
  ∃ id doc, GetDocument id (Resolved doc) ∈ t1 ∧ user = mapUserDocument doc.
Proof.
  intros Hrun.
  assert ((getCurrentUser backend env w).2 = Returned (Some user)) as Hret
    by by rewrite Hrun.
  assert ((getCurrentUser backend env w).1.2 = t1) as Htrace
    by by rewrite Hrun.
  clear Hrun. unfold getCurrentUser in Hret, Htrace.
  apply try_catch_returned in Hret as [[Hret Heq]|(w2 & t2 & e & _ & Hh & _)].
  - rewrite Heq in Htrace. clear Heq.
    apply bind_returned in Hret as (w2 & t2 & [] & _ & Hret & Heq).
    rewrite Heq in Htrace. clear Heq.
    apply bind_returned in Hret as (w3 & t3 & acct & _ & Hret & Heq).
    rewrite Heq in Htrace. clear Heq.
    apply bind_returned in Hret as (w4 & t4 & doc & Hdoc & Hret & Heq).
    rewrite Heq in Htrace. clear Heq.
    apply await_returned in Hdoc as ->. injection Hret as <-.
    exists (a_id acct), doc. split; [|done]. rewrite <- Htrace.
    rewrite !elem_of_app. right. right. left. apply list_elem_of_here.
  - repeat match type of Hh with
           | context [if ?b then _ else _] => destruct b
           end; discriminate.
Qed.

(** A [login_establish] that returns had its session created and read the
    profile it returns. *)
Lemma login_establish_returned fuel email password (w : World Srv)
    (user : User) :
  (login_establish backend env fuel email password w).2 = Returned user →
  CreateEmailPasswordSession email password (Resolved tt)
    ∈ (login_establish backend env fuel email password w).1.2
  ∧ ∃ id doc,
      GetDocument id (Resolved doc)
        ∈ (login_establish backend env fuel email password w).1.2
      ∧ user = mapUserDocument doc.
Proof.
  unfold login_establish. intros Hret.
  apply bind_returned in Hret as (w1 & t1 & [] & Hsession & Hret & ->).
  apply await_returned in Hsession as ->.
  split; [apply list_elem_of_here|].
  apply bind_returned in Hret as (w2 & t2 & current & Hcurrent & Hret & ->).
  destruct current as [found|].
  - injection Hret as ->.
    apply getCurrentUser_some in Hcurrent as (id & doc & Hin & ->).
    exists id, doc. split; [|done]. rewrite !elem_of_app. by right; left.
  - apply try_catch_returned in Hret
      as [[Hret ->]|(w3 & t3 & e & _ & Hh & _)]; [|discriminate].
    apply bind_returned in Hret as (w3 & t3 & acct & _ & Hret & ->).
    apply bind_returned in Hret as (w4 & t4 & created & _ & Hret & ->).
    apply bind_returned in Hret as (w5 & t5 & newUser & Hnew & Hret & ->).
    destruct newUser as [found|]; [|discriminate]. injection Hret as ->.
    apply getCurrentUser_some in Hnew as (id & doc & Hin & ->).
    exists id, doc. split; [|done]. rewrite !elem_of_app.
    by right; right; right; right; left.
Qed.

Lemma same_user_email (found : User) (email : string) :
  same_user (Some found) email = true → u_email found = VStr email.
Proof.
  unfold same_user. destruct (u_email found); try done.
  by intros ->%String.eqb_eq.
Qed.

End LoginReturns.

(** X15. A [login] that returns a user has read that user's profile
    document from the backend, and either the backend accepted the
    credentials in that very call (the session was created) or the profile
    of the session that was already active has the email given; in that
    case [login] neither created nor deleted a session, and the password
    was not looked at. *)
Theorem login_returns_after_session {Srv} (backend : Backend Srv) (env : Env)
    (fuel : nat) (email password : string) (w : World Srv) (user : User) :
  (login backend env fuel email password w).2 = Returned user →
  (∃ id doc,
     GetDocument id (Resolved doc)
       ∈ (login backend env fuel email password w).1.2
     ∧ user = mapUserDocument doc)
  ∧ (CreateEmailPasswordSession email password (Resolved tt)
       ∈ (login backend env fuel email password w).1.2
     ∨ (u_email user = VStr email
        ∧ Forall (fun ev => session_call ev = false)
            (login backend env fuel email password w).1.2)).
Proof.
  unfold login. intros Hret.
  apply try_catch_returned in Hret as [[Hret ->]|(w1 & t1 & e & _ & Hh & _)].
  2:{ by destruct (_ && _). }
  apply bind_returned in Hret as (w1 & t1 & loggedIn & HloggedIn & Hret & ->).
  assert (Forall (fun ev => session_call ev = false) t1) as Hquiet.
  { rewrite isLoggedIn_run in HloggedIn. injection HloggedIn as _ <- _.
    by repeat constructor. }
  assert (∀ w2 : World Srv,
    ((try_catch (logoutAllSessions backend) (fun _ => mret tt);;
      login_establish backend env fuel email password) w2).2
    = Returned user →
    (∃ id doc,
       GetDocument id (Resolved doc)
         ∈ ((try_catch (logoutAllSessions backend) (fun _ => mret tt);;
             login_establish backend env fuel email password) w2).1.2
       ∧ user = mapUserDocument doc)
    ∧ CreateEmailPasswordSession email password (Resolved tt)
        ∈ ((try_catch (logoutAllSessions backend) (fun _ => mret tt);;
            login_establish backend env fuel email password) w2).1.2)
    as Hrelogin.
  { intros w2 Hgo.
    apply bind_returned in Hgo as (w3 & t3 & [] & _ & Hgo & ->).
    apply login_establish_returned in Hgo as (Hsession & id & doc & Hin & ->).
    split; [exists id, doc; split; [|done]|]; rewrite elem_of_app; by right. }
  destruct loggedIn.
  - apply bind_returned in Hret
      as (w2 & t2 & current & Hcurrent & Hret & ->).
    destruct current as [found|].
    + destruct (same_user (Some found) email) eqn:Hsame.
      * injection Hret as ->.
        pose proof (getCurrentUser_reads backend env w1) as Hreads.
        rewrite Hcurrent in Hreads. simpl in Hreads.
        apply getCurrentUser_some in Hcurrent as (id & doc & Hin & ->).
        split.
        -- exists id, doc. split; [|done]. rewrite !elem_of_app.
           by right; left.
        -- right. split; [by apply same_user_email|].
           rewrite !Forall_app. by repeat split.
      * apply Hrelogin in Hret as [(id & doc & Hin & ->) Hsession].
        split; [exists id, doc; split; [|done]|left];
          rewrite !elem_of_app; by right; right.
    + apply Hrelogin in Hret as [(id & doc & Hin & ->) Hsession].
      split; [exists id, doc; split; [|done]|left];
        rewrite !elem_of_app; by right; right.
  - apply login_establish_returned in Hret
      as (Hsession & id & doc & Hin & ->).
    split; [exists id, doc; split; [|done]|left]; rewrite elem_of_app;
      by right.
Qed.

Lemma login_returns_after_session_witness :
  (∃ id doc,
     GetDocument id (Resolved doc)
       ∈ (login reference_backend sample_env 10 (a_email alice) "secret"
            (world_of (drifted_server []))).1.2
     ∧ mapUserDocument alice_doc = mapUserDocument doc)
  ∧ (CreateEmailPasswordSession (a_email alice) "secret" (Resolved tt)
       ∈ (login reference_backend sample_env 10 (a_email alice) "secret"
            (world_of (drifted_server []))).1.2
     ∨ (u_email (mapUserDocument alice_doc) = VStr (a_email alice)
        ∧ Forall (fun ev => session_call ev = false)
            (login reference_backend sample_env 10 (a_email alice) "secret"
               (world_of (drifted_server []))).1.2)).
Proof.
  apply (login_returns_after_session reference_backend sample_env 10
           (a_email alice) "secret" (world_of (drifted_server []))
           (mapUserDocument alice_doc)).
  reflexivity.
Defined.

(** ** What the writer sends *)

(** X16. In a session that starts with no more than the nine profile fields
    in its set of updatable fields, whatever the calls and whatever the
    backend answers, every update of a profile document sends profile
    fields only, never [email], [createdBy] or [$id], and every create
    sends profile fields and identity fields only. *)
Theorem session_writes_profile_fields {Srv} (backend : Backend Srv)
    (env : Env) (fuel : nat) (calls : list Call) (w : World Srv) :
  USER_UPDATE_FIELDS w ⊆ USER_UPDATE_FIELDS_init →
  Forall within_profile_fields (run_session backend env fuel calls w).1.2.
Proof.
  intros Hinit.
  destruct (mindful_run_session backend env fuel calls w) as [[_ Htidy] _].
  eapply Forall_impl; [exact Htidy|].
  intros ev Hev. apply (tidy_mono _ _ _ Hinit) in Hev.
  destruct ev; try done; simpl in *.
  repeat split; [done|..]; intros Hin%Hev; revert Hin;
    unfold USER_UPDATE_FIELDS_init; simpl; set_solver.
Qed.

Lemma session_writes_profile_fields_witness :
  Forall within_profile_fields
    (run_session reference_backend sample_env 10
       (bio_update ++ rename_alice) (world_of (drifted_server ["bio"]))).1.2.
Proof.
  apply (session_writes_profile_fields reference_backend sample_env 10
           (bio_update ++ rename_alice) (world_of (drifted_server ["bio"]))).
  reflexivity.
Defined.

(** The calls of [createUserDocument]: creates for the same user, each
    with a part of the payload that kept its identity fields. *)
Lemma createUserDocument_attempts {Srv} (backend : Backend Srv)
    (fuel : nat) (userId : string) (payload : gmap string value)
    (w : World Srv) (ev : Event) :
  ev ∈ (createUserDocument backend fuel userId payload w).1.2 →
  ∃ sent r,
    ev = CreateDocument userId sent r ∧ sent ⊆ payload
    ∧ ∀ key, mandatory key → sent !! key = payload !! key.
Proof.
  revert payload w. induction fuel as [|fuel IH]; intros payload w Hin.
  { by apply elem_of_nil in Hin. }
  destruct (databases_createDocument backend userId payload (server w))
    as [s' [doc|e]] eqn:Hcall.
  { rewrite (createUserDocument_resolved _ _ _ _ _ _ _ Hcall) in Hin.
    apply list_elem_of_singleton in Hin as ->. by eexists _, _. }
  destruct (extractUnknownAttribute e) as [a|] eqn:He.
  2:{ rewrite (createUserDocument_other_error _ _ _ _ _ _ _ Hcall He) in Hin.
      apply list_elem_of_singleton in Hin as ->. by eexists _, _. }
  destruct (decide (mandatory a)) as [Ha|Ha].
  { rewrite (createUserDocument_mandatory _ _ _ _ _ _ _ _ Hcall He Ha) in Hin.
    apply list_elem_of_singleton in Hin as ->. by eexists _, _. }
  destruct (decide (size (delete a payload) = 0%nat)) as [Hsize|Hsize].
  { rewrite (createUserDocument_emptied _ _ _ _ _ _ _ _ Hcall He Ha Hsize)
      in Hin.
    apply list_elem_of_singleton in Hin as ->. by eexists _, _. }
  rewrite (createUserDocument_retry _ _ _ _ _ _ _ _ Hcall He Ha Hsize) in Hin.
  simpl in Hin. apply elem_of_cons in Hin as [->|Hin]; [by eexists _, _|].
  apply IH in Hin as (sent & r & -> & Hsub & Hkeys).
  exists sent, r. split; [done|]. split.
  - etrans; [exact Hsub|]. apply delete_subseteq.
  - intros key Hkey. rewrite (Hkeys key Hkey). apply lookup_delete_ne.
    by intros ->.
Qed.

(** X17. Every call [createUserDocument] makes is a create of the document
    of the user it was called for, with a part of the payload it was given
    that still has every identity field ([name], [email], [createdBy]) of
    that payload: the writer strips other fields only. *)
Theorem createUserDocument_keeps_identity {Srv} (backend : Backend Srv)
    (fuel : nat) (userId : string) (payload : gmap string value)
    (w : World Srv) (ev : Event) :
  ev ∈ (createUserDocument backend fuel userId payload w).1.2 →
  ∃ sent r,
    ev = CreateDocument userId sent r ∧ sent ⊆ payload
    ∧ ∀ key, mandatory key → sent !! key = payload !! key.
Proof. apply createUserDocument_attempts. Qed.

Lemma createUserDocument_keeps_identity_witness :
  ∃ sent r,
    CreateDocument "id-carol" (delete "bio" carol_payload)
      (Resolved (<["$id" := VStr "id-carol"]> (delete "bio" carol_payload)))
    = CreateDocument "id-carol" sent r
    ∧ sent ⊆ carol_payload
    ∧ ∀ key, mandatory key → sent !! key = carol_payload !! key.
Proof.
  apply (createUserDocument_keeps_identity reference_backend 5 "id-carol"
           carol_payload (world_of (drifted_server ["bio"]))).
  vm_compute. apply list_elem_of_further, list_elem_of_here.
Defined.

(** ** Whose document the services write *)

Section Traces.
Context {Srv : Type} (P : Event → Prop).

Lemma trace_bind {A B} (c : M Srv A) (k : A → M Srv B) (w : World Srv) :
  Forall P (c w).1.2 →
  (∀ w1 t1 a, c w = (w1, t1, Returned a) → Forall P (k a w1).1.2) →
  Forall P ((c ≫= k) w).1.2.
Proof.
  intros Hc Hk. rewrite bind_run.
  destruct (c w) as [[w1 t1] [a|e|]] eqn:Hrun; try done.
  unfold after. simpl. apply Forall_app. split; [done|]. by eapply Hk.
Qed.

Lemma trace_try_catch {A} (c : M Srv A) (h : JsError → M Srv A)
    (w : World Srv) :
  Forall P (c w).1.2 →
  (∀ w1 t1 e, c w = (w1, t1, Thrown e) → Forall P (h e w1).1.2) →
  Forall P (try_catch c h w).1.2.
Proof.
  intros Hc Hh. rewrite try_catch_run.
  destruct (c w) as [[w1 t1] [a|e|]] eqn:Hrun; try done.
  unfold after. simpl. apply Forall_app. split; [done|]. by eapply Hh.
Qed.

Lemma trace_await {A} (op : Srv → Srv * Response A) (ev : Response A → Event)
    (w : World Srv) :
  (∀ r, P (ev r)) → Forall P (await op ev w).1.2.
Proof.
  intros Hev. unfold await. destruct (op (server w)) as [s' r]. simpl.
  by repeat constructor.
Qed.
End Traces.

(** The calls of the loop of [updateProfile]: updates of the same document
    with a part of the payload, and the read of that document. *)
Lemma updateProfile_loop_calls {Srv} (backend : Backend Srv) (fuel : nat)
    (id : string) (payload : gmap string value) (w : World Srv) :
  Forall (fun ev => match ev with
                    | UpdateDocument id0 sent _ => id0 = id ∧ sent ⊆ payload
                    | GetDocument id0 _ => id0 = id
                    | _ => False
                    end)
    (updateProfile_loop backend fuel id payload w).1.2.
Proof.
  revert payload w. induction fuel as [|fuel IH]; intros payload w.
  { constructor. }
  destruct (decide (size payload = 0%nat)) as [Hz|Hnz].
  { rewrite (updateProfile_loop_empty _ _ _ _ _ Hz).
    destruct (databases_getDocument _ _ _) as [s' [doc|e1]];
      by repeat constructor. }
  destruct (databases_updateDocument backend id payload (server w))
    as [s' [doc|e1]] eqn:Hcall.
  { rewrite (updateProfile_loop_resolved _ _ _ _ _ _ _ Hnz Hcall).
    by repeat constructor. }
  destruct (extractUnknownAttribute e1) as [a1|] eqn:He1.
  2:{ rewrite (updateProfile_loop_other_error _ _ _ _ _ _ _ Hnz Hcall He1).
      by repeat constructor. }
  rewrite (updateProfile_loop_retry _ _ _ _ _ _ _ _ Hnz Hcall He1).
  simpl. constructor; [done|].
  eapply Forall_impl; [apply IH|].
  intros [] Hev; try done. destruct Hev as [-> Hsub]. split; [done|].
  etrans; [exact Hsub|]. apply delete_subseteq.
Qed.

(** X18. [updateProfile] writes the profile of the logged-in account and no
    other: it first asks the backend who is logged in and stops there when
    nobody is; after that it calls the backend only to set the account's
    name to the name given, to update the document whose identifier is the
    account's, with cleaned fields of the data, and to read that same
    document. It never creates a document and never touches a session. *)
Theorem updateProfile_own_document {Srv} (backend : Backend Srv) (env : Env)
    (fuel : nat) (data : gmap string value) (w : World Srv) :
  (updateProfile backend env fuel data w).1.2 = []
  ∨ ∃ rest,
      (updateProfile backend env fuel data w).1.2
      = AccountGet (account_get backend (server w)).2 :: rest
      ∧ match (account_get backend (server w)).2 with
        | Resolved acct =>
            Forall (own_profile_call acct data (USER_UPDATE_FIELDS w)) rest
        | Rejected _ => rest = []
        end.
Proof.
  unfold updateProfile. rewrite login_handler_trace by done.
  rewrite bind_run.
  destruct (validateConfig_cases env w) as [-> | [e ->]]; [|by left].
  right. rewrite bind_run. unfold await at 1.
  destruct (account_get backend (server w)) as [s1 [acct|e]];
    [|by exists []].
  cbn [snd]. fold (moved w s1).
  eexists. split; [reflexivity|]. simpl.
  apply trace_bind.
  { destruct (truthy (get data "name")); [|constructor].
    apply trace_try_catch; [by apply trace_await|]. constructor. }
  intros w2 t2 [] Hname. apply trace_bind; [constructor|].
  intros w3 t3 fields [-> ->]%read_fields_returned.
  assert (USER_UPDATE_FIELDS w2 = USER_UPDATE_FIELDS w) as ->.
  { destruct (updateName_step backend (get data "name") (moved w s1))
      as (s2 & t & Hstep & _).
    rewrite Hstep in Hname. by injection Hname as <- _. }
  eapply Forall_impl; [apply updateProfile_loop_calls|].
  by intros [].
Qed.

(** X19. [register] creates the profile of the account it has just created
    and no other: after the creation of the account, and only when that
    succeeded, every call is a create of the document whose identifier is
    the new account's, and every payload sent, also after fields were
    stripped, has the name and the email given and the account as
    creator. *)
Theorem register_own_document {Srv} (backend : Backend Srv) (env : Env)
    (fuel : nat) (email password name : string) (w : World Srv) :
  (register backend env fuel email password name w).1.2 = []
  ∨ ∃ rest,
      (register backend env fuel email password name w).1.2
      = AccountCreate email password name
          (account_create backend email password name (server w)).2 :: rest
      ∧ match (account_create backend email password name (server w)).2 with
        | Resolved acct => Forall (own_profile_create acct email name) rest
        | Rejected _ => rest = []
        end.
Proof.
  unfold register. rewrite login_handler_trace by done.
  rewrite bind_run.
  destruct (validateConfig_cases env w) as [-> | [e ->]]; [|by left].
  right. rewrite bind_run. unfold await at 1.
  destruct (account_create backend email password name (server w))
    as [s1 [acct|e]]; [|by exists []].
  cbn [snd]. fold (moved w s1).
  eexists. split; [reflexivity|]. simpl.
  apply trace_bind; [constructor|].
  intros w2 t2 fields [-> ->]%read_fields_returned.
  apply trace_bind; [|constructor].
  apply Forall_forall. intros ev Hev.
  apply createUserDocument_attempts in Hev as (sent & r & -> & _ & Hkeys).
  assert (∀ key v,
            mandatory key →
            (list_to_map
               [("name", VStr name); ("email", VStr email);
                ("createdBy", VStr (a_id acct))] : gmap string value)
              !! key = Some v →
            sent !! key = Some v) as Hsent.
  { intros key v Hkey Hvalue. rewrite (Hkeys key Hkey).
    apply lookup_union_Some_raw. right. split; [|done].
    unfold sanitizeUserUpdateData. rewrite map_lookup_imap.
    unfold mandatory in Hkey.
    repeat (apply elem_of_cons in Hkey as [->|Hkey]; [done|]).
    by apply elem_of_nil in Hkey. }
  simpl. repeat split; apply Hsent; try done; unfold mandatory; set_solver.
Qed.

(** ** The public page *)

Lemma filter_Permutation_bool {A} (f : A → bool) (l l' : list A) :
  l ≡ₚ l' → List.filter f l ≡ₚ List.filter f l'.
Proof.
  induction 1 as [|x l l' _ IH|x y l|l l' l'' _ IH _ IH']; simpl.
  - done.
  - destruct (f x); by rewrite IH.
  - destruct (f x), (f y); try done. apply perm_swap.
  - by rewrite IH.
Qed.

Lemma filter_fmap_bool {A B} (g : A → B) (f : B → bool) (l : list A) :
  List.filter f (g <$> l) = g <$> List.filter (fun x => f (g x)) l.
Proof.
  induction l as [|x l IH]; simpl; [done|].
  destruct (f (g x)); simpl; [f_equal|]; exact IH.
Qed.

Lemma filter_filter_bool {A} (f g : A → bool) (l : list A) :
  List.filter g (List.filter f l) = List.filter (fun x => f x && g x) l.
Proof.
  induction l as [|x l IH]; simpl; [done|].
  destruct (f x); simpl; [|done]. destruct (g x); by rewrite IH.
Qed.

(** X20. With a backend whose list operation applies the filter expressions
    it is sent and a complete configuration, when the listing of the owner's
    projects resolves: if [getUserProfile] returned a profile, the public
    page has that profile as owner and shows the records of that owner's
    stored documents that map to a public project, all of them and no other,
    so also the owner's documents that have no visibility flag at all, in
    listing order when their creation dates are valid; if [getUserProfile]
    returned [null] or threw, the page has no owner and shows no project.
    Whatever the profile, the page shows no project when [getProjects]
    threw. *)
Theorem public_page_shows {Srv} (backend : Backend Srv) (env : Env)
    (getTime : value → option Z) (stored : Srv → list (gmap string value))
    (owner : string) (w1 w2 : World Srv) (s' : Srv)
    (docs : list (gmap string value)) :
  list_filters backend stored →
  portfolio_config_ok env →
  owner ≠ "" →
  databases_listDocuments backend (getProjects_queries (Some owner)) (server w2)
  = (s', Resolved docs) →
  match (getUserProfile backend env owner w1).2 with
  | Returned (Some profile) =>
      page_owner
        (loadPortfolio (getUserProfile backend env owner w1).2
           (getProjects backend env getTime (Some owner) w2).2)
      = Some profile
      ∧ page_projects
          (loadPortfolio (getUserProfile backend env owner w1).2
             (getProjects backend env getTime (Some owner) w2).2)
        ≡ₚ mapProjectDoc <$>
             List.filter (on_public_page owner) (stored (server w2))
      ∧ Forall (fun p => userId p = VStr owner ∧ isPublic p = true)
          (page_projects
             (loadPortfolio (getUserProfile backend env owner w1).2
                (getProjects backend env getTime (Some owner) w2).2))
      ∧ (∀ doc, doc ∈ stored (server w2) → owned_by owner doc = true →
                doc !! "isPublic" = None →
                mapProjectDoc doc
                ∈ page_projects
                    (loadPortfolio (getUserProfile backend env owner w1).2
                       (getProjects backend env getTime (Some owner) w2).2))
      ∧ (Forall (valid_time getTime) (mapProjectDoc <$> docs) →
         listing_ok getTime
           (page_projects
              (loadPortfolio (getUserProfile backend env owner w1).2
                 (getProjects backend env getTime (Some owner) w2).2)))
  | _ =>
      loadPortfolio (getUserProfile backend env owner w1).2
        (getProjects backend env getTime (Some owner) w2).2
      = {| page_owner := None; page_projects := [] |}
  end
  ∧ ∀ profile e,
      loadPortfolio profile (Thrown e : Completion (list Project))
      = {| page_owner := None; page_projects := [] |}.
Proof.
  intros Hfilters Henv Howner Hlist.
  split; [|intros profile e0; by destruct profile as [[]| |]].
  rewrite (getProjects_resolved backend env getTime (Some owner) w2 s' docs)
    by done.
  destruct (getUserProfile backend env owner w1).2 as [[profile|]|e|];
    try done.
  cbn [loadPortfolio page_owner page_projects].
  apply Hfilters in Hlist.
  assert (List.filter isPublic
            (js_sort (compareProjects getTime) (mapProjectDoc <$> docs))
          ≡ₚ mapProjectDoc <$>
               List.filter (on_public_page owner) (stored (server w2)))
    as Hpage.
  { rewrite (filter_Permutation_bool _ _ _ (js_sort_Permutation _ _)).
    rewrite filter_fmap_bool.
    rewrite (filter_Permutation_bool _ _ _ Hlist), filter_filter_bool.
    erewrite filter_ext_bool; [done|].
    intros doc. simpl. by rewrite owner_query. }
  split; [done|]. split; [exact Hpage|]. split; [|split].
  - rewrite Hpage. apply Forall_forall. intros p Hp.
    apply list_elem_of_fmap in Hp as (doc & -> & Hdoc).
    apply list_elem_of_In, List.filter_In in Hdoc as [_ Hdoc].
    apply andb_true_iff in Hdoc as [Howned Hpublic].
    split; [by apply mapProjectDoc_owned|done].
  - intros doc Hdoc Howned Hflag. rewrite Hpage.
    apply list_elem_of_fmap. exists doc. split; [done|].
    apply list_elem_of_In, List.filter_In. split; [by apply list_elem_of_In|].
    unfold on_public_page. rewrite Howned. simpl. unfold get.
    by rewrite Hflag.
  - intros Hvalid. split.
    + apply Forall_forall. intros p Hp.
      apply list_elem_of_In, List.filter_In in Hp as [Hp _].
      apply list_elem_of_In in Hp.
      rewrite js_sort_Permutation in Hp.
      rewrite Forall_forall in Hvalid. by apply Hvalid.
    + apply filter_sorted. by apply sortProjects_sorted.
Qed.

Lemma public_page_shows_witness :
  (page_owner
     (loadPortfolio
        (getUserProfile reference_backend sample_env (a_id alice)
           (world_of published_server)).2
        (getProjects reference_backend sample_env sample_getTime
           (Some (a_id alice)) (world_of published_server)).2)
   = Some (mapUserDocument alice_doc)
   ∧ page_projects
       (loadPortfolio
          (getUserProfile reference_backend sample_env (a_id alice)
             (world_of published_server)).2
          (getProjects reference_backend sample_env sample_getTime
             (Some (a_id alice)) (world_of published_server)).2)
     ≡ₚ mapProjectDoc <$>
          List.filter (on_public_page (a_id alice))
            (projects (server (world_of published_server)))
   ∧ Forall (fun p => userId p = VStr (a_id alice) ∧ isPublic p = true)
       (page_projects
          (loadPortfolio
             (getUserProfile reference_backend sample_env (a_id alice)
                (world_of published_server)).2
             (getProjects reference_backend sample_env sample_getTime
                (Some (a_id alice)) (world_of published_server)).2))
   ∧ (∀ doc, doc ∈ projects (server (world_of published_server)) →
             owned_by (a_id alice) doc = true →
             doc !! "isPublic" = None →
             mapProjectDoc doc
             ∈ page_projects
                 (loadPortfolio
                    (getUserProfile reference_backend sample_env (a_id alice)
                       (world_of published_server)).2
                    (getProjects reference_backend sample_env sample_getTime
                       (Some (a_id alice)) (world_of published_server)).2))
   ∧ (Forall (valid_time sample_getTime)
        (mapProjectDoc <$>
           [stored_project "p1" (a_id alice) true 2;
            stored_project "p2" (a_id alice) false 1]) →
      listing_ok sample_getTime
        (page_projects
           (loadPortfolio
              (getUserProfile reference_backend sample_env (a_id alice)
                 (world_of published_server)).2
              (getProjects reference_backend sample_env sample_getTime
                 (Some (a_id alice)) (world_of published_server)).2))))
  ∧ ∀ profile e,
      loadPortfolio profile (Thrown e : Completion (list Project))
      = {| page_owner := None; page_projects := [] |}.
Proof.
  apply (public_page_shows reference_backend sample_env sample_getTime
           projects (a_id alice) (world_of published_server)
           (world_of published_server) published_server
           [stored_project "p1" (a_id alice) true 2;
            stored_project "p2" (a_id alice) false 1]).
  - exact reference_backend_list_filters.
  - repeat split; discriminate.
  - discriminate.
  - reflexivity.
Defined.

(** ** The profile form and the cleaning of the service *)

(** Data whose every value is already clean only loses, in
    [sanitizeUserUpdateData], the fields that are not updatable. *)
Lemma sanitizeUserUpdateData_clean (fields : gset string)
    (data : gmap string value) :
  (∀ key v, data !! key = Some v →
            v ≠ VUndefined ∧ sanitizeValue key v = v) →
  sanitizeUserUpdateData fields data
  = filter (fun kv => kv.1 ∈ fields) data.
Proof.
  intros Hclean. apply map_eq. intros key. unfold sanitizeUserUpdateData.
  rewrite map_lookup_imap, map_lookup_filter.
  destruct (data !! key) as [v|] eqn:Hv; [|done]. simpl.
  destruct (Hclean key v Hv) as [Hdefined Hfixed]. rewrite Hfixed.
  unfold isUserUpdatableField. case_bool_decide; simpl.
  - rewrite option_guard_True by done. by destruct v.
  - by rewrite option_guard_False.
Qed.

Lemma form_skills_clean (skills : string) :
  Forall (fun e => trim e = e ∧ truthy (VStr e) = true)
    (List.filter (fun skill => truthy (VStr skill))
       (map trim (split_on "," skills))).
Proof.
  apply Forall_forall. intros e [Hin He]%list_elem_of_In%List.filter_In.
  split; [|done]. apply List.in_map_iff in Hin as (piece & <- & _).
  apply trim_idempotent.
Qed.

Lemma sanitizeValue_trimmed (key s : string) :
  key ≠ "skills" → key ≠ "socialLinks" →
  sanitizeValue key (VStr (trim s)) = VStr (trim s).
Proof.
  intros Hskills Hlinks. unfold sanitizeValue.
  apply String.eqb_neq in Hskills as ->. simpl.
  by rewrite andb_false_r, trim_idempotent.
Qed.

(** X21. What the profile drawer submits is already clean for the service:
    [sanitizeUserUpdateData] changes no value of it, and only drops the
    fields that are no longer updatable; with the nine profile fields
    updatable the payload of the first update is the submitted data
    itself. *)
Theorem profile_form_data_clean (fields : gset string)
    (formState : ProfileFormState) :
  sanitizeUserUpdateData fields (profile_handleSubmit_data formState)
  = filter (fun kv => kv.1 ∈ fields) (profile_handleSubmit_data formState)
  ∧ sanitizeUserUpdateData USER_UPDATE_FIELDS_init
      (profile_handleSubmit_data formState)
    = profile_handleSubmit_data formState.
Proof.
  assert (∀ key v,
            profile_handleSubmit_data formState !! key = Some v →
            key ∈ USER_UPDATE_FIELDS_init
            ∧ v ≠ VUndefined ∧ sanitizeValue key v = v) as Hclean.
  { intros key v Hin. apply elem_of_list_to_map_2 in Hin.
    repeat (apply elem_of_cons in Hin as [[= -> ->]|Hin];
            [split; [unfold USER_UPDATE_FIELDS_init; simpl; set_solver|];
             split; [done|]; try by apply sanitizeValue_trimmed|]).
    - unfold sanitizeValue. cbn [String.eqb Ascii.eqb Bool.eqb isArray andb
                                 array_items].
      simpl (_ && _).
      by rewrite cleaned_skills_fixed by apply form_skills_clean.
    - unfold sanitizeValue. simpl (_ && _). cbn [entries].
      rewrite cleaned_links_fixed; [done|]. apply cleaned_links_clean.
      + apply Forall_forall.
        intros kl [_ [_ Hlen]%andb_true_iff]%list_elem_of_In%List.filter_In.
        done.
      + apply map_Forall_empty.
    - by apply elem_of_nil in Hin. }
  split.
  - apply sanitizeUserUpdateData_clean. intros key v Hin.
    by destruct (Hclean key v Hin) as (_ & ? & ?).
  - rewrite sanitizeUserUpdateData_clean.
    + apply map_filter_id. intros key v Hin.
      by destruct (Hclean key v Hin) as (? & _).
    + intros key v Hin. by destruct (Hclean key v Hin) as (_ & ? & ?).
Qed.
